(** * Crosspoint: the quiz session and the verification merge of [src/App.tsx]

    A shallow embedding of the client-side logic of the Crosspoint
    single-page application: the static quiz bank, the [ActiveQuiz]
    component (selection, submit, delayed advance, completion, cancel), the
    [App] component's handlers ([handleQuizComplete], [handlePostQuestion],
    the two snapshot listeners, the start-up checks) and the top-level
    render dispatch.

    Conventions.
    - A React state variable is a record field; a handler is a function from
      the state it closes over to the state after its setters ran.
    - [window.setTimeout] is modelled by the closure it schedules: the field
      [timer] holds the captured values until the timer fires or is
      cleared.
    - Calls into Firebase and [console.error] are recorded as a list of
      [Effect]s; whether an awaited write resolves or rejects is an input of
      the handler.
    - JavaScript's [!x] on [string | null] is [falsy]: [null] and the empty
      string both count as absent.
    - Counts are integers; the one quotient the code takes is computed in
      binary64, on Rocq's primitive floats.
    - A string holds the UTF-8 bytes of the JavaScript string; where the
      code counts UTF-16 code units ([substring]) so does the model.
    - A render of [App] remounts the components declared inside it; for the
      running quiz this is the event [Remount]. *)

From Stdlib Require Import String Ascii List NArith ZArith QArith Bool Lia.
From Stdlib Require Import Uint63 PrimFloat SpecFloat FloatOps FloatAxioms Zpower.
Import ListNotations.

Local Open Scope string_scope.
Local Open Scope list_scope.
Local Open Scope Z_scope.

(* ================================================================= *)
(** ** Types *)

(** [type QuizQuestion = { question; options; answer }] *)
Record QuizQuestion := mkQuizQuestion {
  question : string;
  options : list string;
  answer : string
}.

(** [type QuizData = Record<string, QuizQuestion[]>]: an object literal,
    whose keys keep their insertion order under [Object.keys]. *)
Definition QuizData := list (string * list QuizQuestion).

(** Firestore's [Timestamp], opaque to this code. *)
Definition Timestamp := Z.

Inductive Status := Open | Closed.

Module QuestionDoc.
Record t := mk {
  id : string;
  title : string;
  body : string;
  authorId : string;
  category : string;
  status : Status;
  createdAt : option Timestamp;
  createdAtMs : option Z
}.
End QuestionDoc.

Module VerificationDoc.
Record t := mk {
  id : string;
  displayName : option string;
  verifiedCategories : list string;
  lastUpdated : option Timestamp
}.
End VerificationDoc.

(* ================================================================= *)
(** ** JavaScript truthiness of [string | null] *)

Definition truthy (s : option string) : bool :=
  match s with
  | Some x => negb (String.eqb x "")
  | None => false
  end.

Definition falsy (s : option string) : bool := negb (truthy s).

(* ================================================================= *)
(** ** UTF-16 code units

    A JavaScript string is a sequence of UTF-16 code units.  Here it is
    held as UTF-8 bytes: one to three bytes for a code unit that is a code
    point of its own (a surrogate that stands alone included), four bytes
    for a surrogate pair.  String equality is the same on both. *)

Module Utf16.

Definition byte (c : ascii) : N := N_of_ascii c.

(** A continuation byte, [10xxxxxx]. *)
Definition isContinuation (c : ascii) : bool :=
  ((128 <=? byte c) && (byte c <? 192))%N.

(** The lead byte of a four-byte sequence, [11110xxx]: a code point above
    U+FFFF, which is two code units. *)
Definition isAstral (c : ascii) : bool := (240 <=? byte c)%N.

(** The number of continuation bytes that follow the lead byte [c]. *)
Definition width (c : ascii) : nat :=
  if (byte c <? 192)%N then 0%nat
  else if (byte c <? 224)%N then 1%nat
  else if (byte c <? 240)%N then 2%nat
  else 3%nat.

(** At most [k] continuation bytes at the head of [s], and what follows. *)
Fixpoint continuation (k : nat) (s : string) : string * string :=
  match k, s with
  | S k', String c s' =>
      if isContinuation c
      then let (t, r) := continuation k' s' in (String c t, r)
      else (EmptyString, s)
  | _, _ => (EmptyString, s)
  end.

(** [10xxxxxx] with the low six bits of [x]. *)
Definition cont (x : N) : ascii := ascii_of_N (128 + N.land x 63).

(** The first code unit of the surrogate pair written as the four bytes
    [c t]: with [cp] the code point, the surrogate
    [0xD800 + ((cp - 0x10000) >> 10)], as the three bytes of that value. *)
Definition highSurrogate (c : ascii) (t : string) : string :=
  let b1 := match t with String x _ => byte x | _ => 128%N end in
  let b2 := match t with String _ (String y _) => byte y | _ => 128%N end in
  let top :=
    (N.land (byte c) 7 * 256 + N.land b1 63 * 4 + N.land b2 63 / 16)%N in
  let hi := (55296 + (top - 64))%N in
  String (ascii_of_N 237) (String (cont (hi / 64)) (String (cont hi) EmptyString)).

(** [s.substring(0, n)]: the first [n] code units of [s], all of [s] when
    it has fewer.  A surrogate pair counts for two; cut in the middle, it
    leaves its first half. *)
Fixpoint take (n : nat) (s : string) : string :=
  match n, s with
  | O, _ => EmptyString
  | _, EmptyString => EmptyString
  | S n', String c s' =>
      let (t, r) := continuation (width c) s' in
      if isAstral c then
        match n' with
        | O => highSurrogate c t
        | S n'' => String c (t ++ take n'' r)%string
        end
      else String c (t ++ take n' r)%string
  end.

(** [s.length]: the number of code units. *)
Fixpoint units (s : string) : nat :=
  match s with
  | EmptyString => 0%nat
  | String c s' =>
      ((if isContinuation c then 0 else if isAstral c then 2 else 1)
       + units s')%nat
  end.

(** Every character is ASCII: one byte and one code unit each. *)
Fixpoint isAscii (s : string) : bool :=
  match s with
  | EmptyString => true
  | String c s' => (byte c <? 128)%N && isAscii s'
  end.

End Utf16.

(* ================================================================= *)
(** ** Quiz data *)

Definition QUIZ_DATA : QuizData :=
  [ ("Physics",
      [ mkQuizQuestion
          "What principle states that the total momentum of a closed system remains constant?"
          [ "Huygens' Principle";
            "Principle of Conservation of Momentum";
            "Archimedes' Principle";
            "Bernoulli's Principle" ]
          "Principle of Conservation of Momentum";
        mkQuizQuestion
          "What is the SI unit of electric current?"
          [ "Volt"; "Ohm"; "Ampere"; "Watt" ]
          "Ampere";
        mkQuizQuestion
          "Which phenomenon is responsible for the apparent bending of a spoon in a glass of water?"
          [ "Diffraction"; "Refraction"; "Polarization"; "Interference" ]
          "Refraction" ]);
    ("Web Development",
      [ mkQuizQuestion
          "Which CSS property is used to create space around elements, outside of any defined borders?"
          [ "padding"; "margin"; "border-width"; "inset" ]
          "margin";
        mkQuizQuestion
          "In React, what is used to handle data that changes over time within a component?"
          [ "props"; "state"; "context"; "refs" ]
          "state" ]);
    ("Financial Modeling",
      [ mkQuizQuestion
          "What does NPV stand for in financial modeling?"
          [ "Net Profit Variance";
            "Nominal Price Value";
            "Net Present Value";
            "New Project Valuation" ]
          "Net Present Value" ]) ].

(** The own property of [QUIZ_DATA] under [key]: the first entry under that
    key, [None] if there is none. *)
Fixpoint lookupQuiz (data : QuizData) (key : string) : option (list QuizQuestion) :=
  match data with
  | [] => None
  | (k, qs) :: rest => if String.eqb k key then Some qs else lookupQuiz rest key
  end.

(** [Object.keys(QUIZ_DATA)] *)
Definition quizKeys (data : QuizData) : list string := map fst data.

(** [QUIZ_DATA] is an object literal, so a property it does not have
    itself is looked up on [Object.prototype].  These are the names found
    there; each holds a function, or, for [__proto__], the prototype
    object: a value that is truthy and has no element at any index. *)
Definition objectPrototypeKeys : list string :=
  [ "constructor"; "__defineGetter__"; "__defineSetter__"; "hasOwnProperty";
    "__lookupGetter__"; "__lookupSetter__"; "isPrototypeOf";
    "propertyIsEnumerable"; "toString"; "valueOf"; "__proto__";
    "toLocaleString" ].

Definition inherited (key : string) : bool :=
  existsb (String.eqb key) objectPrototypeKeys.

(** [QUIZ_DATA[key]], line 538. *)
Inductive Property :=
| Undefined
| Bank (quizData : list QuizQuestion)
| Inherited.

Definition getProperty (data : QuizData) (key : string) : Property :=
  match lookupQuiz data key with
  | Some quizData => Bank quizData
  | None => if inherited key then Inherited else Undefined
  end.

(* ================================================================= *)
(** ** Numbers

    [score] and [total] are counts, kept in [Z].  Their quotient is not an
    integer: the engine divides and compares in IEEE-754 binary64, which is
    what Rocq's primitive floats are. *)

Module Number.

(** An integer-valued number as a binary64 value, for integers of
    magnitude below 2^63 (from there on [Uint63.of_Z] wraps, which a
    JavaScript number does not); exact below 2^53.  The numbers divided
    here are a score and an array length, both below 2^32. *)
Definition of_Z (z : Z) : float :=
  match z with
  | Z0 => PrimFloat.zero
  | Zpos _ => PrimFloat.of_uint63 (Uint63.of_Z z)
  | Zneg _ => PrimFloat.opp (PrimFloat.of_uint63 (Uint63.of_Z (- z)))
  end.

(** [a / b] *)
Definition div (a b : Z) : float := PrimFloat.div (of_Z a) (of_Z b).

(** [x >= c] *)
Definition geq (x c : float) : bool := PrimFloat.leb c x.

End Number.

(** [const PASSING_SCORE_PERCENTAGE = 0.7]: the literal denotes the binary64
    value nearest to 7/10, which is 6305039478318694 * 2^-53. *)
Definition PASSING_SCORE_PERCENTAGE : float := 0x1.6666666666666p-1%float.

(** [scorePercentage >= PASSING_SCORE_PERCENTAGE] with
    [scorePercentage = score / total], lines 358-359. *)
Definition passed (score total : Z) : bool :=
  Number.geq (Number.div score total) PASSING_SCORE_PERCENTAGE.

(** The specification's reading of the same test, in exact arithmetic:
    [passRatio = finalScore / total] and [passRatio >= 0.70]. *)
Definition passRatio (finalScore total : Z) : Q :=
  (inject_Z finalScore / inject_Z total)%Q.

Definition passingThreshold : Q := 70 # 100.

(* ================================================================= *)
(** ** [new Set(...)] and [Array.from]

    A JavaScript [Set] keeps its members in insertion order and ignores the
    insertion of a member it already has; [Array.from] lists them in that
    order. *)

Module JsSet.

Definition has (s : list string) (x : string) : bool :=
  existsb (String.eqb x) s.

Definition add (s : list string) (x : string) : list string :=
  if has s x then s else s ++ [x].

(** [Array.from(new Set(xs))] *)
Definition of_array (xs : list string) : list string :=
  fold_left add xs [].

End JsSet.

(** [Array.prototype.includes] on an array of strings. *)
Definition includes (xs : list string) (x : string) : bool :=
  existsb (String.eqb x) xs.

(** [Array.from(new Set([...(verifiedCategories || []), category]))],
    lines 364-366. *)
Definition newCategories (verifiedCategories : list string) (category : string)
  : list string :=
  JsSet.of_array (verifiedCategories ++ [category]).

(* ================================================================= *)
(** ** The [ActiveQuiz] component, lines 416-534 *)

Module ActiveQuiz.

(** The props, without the callback: what [onComplete] receives is the
    component's output (see [Session]). *)
Record Props := mkProps {
  category : string;
  quizData : list QuizQuestion
}.

(** The arguments of one [onComplete] call. *)
Record Completion := mkCompletion {
  oc_category : option string;
  oc_finalScore : option Z;
  oc_total : option Z
}.

(** What the arrow function handed to [window.setTimeout] closes over:
    [isLastQuestion] and [finalScore] of the render in which [handleNext]
    ran ([category] and [totalQuestions] are props). *)
Record Timeout := mkTimeout {
  t_isLastQuestion : bool;
  t_finalScore : Z
}.

(** The five [useState] cells and the timer.  [timer] is the callback that
    is scheduled and has neither fired nor been cleared. *)
Record State := mkState {
  currentQuestionIndex : Z;
  score : Z;
  selectedOption : option string;
  showResult : bool;
  pendingAdvance : bool;
  timer : option Timeout
}.

(** [useState(0)], [useState(0)], [useState(null)], [useState(false)],
    [useState(false)], [useRef(null)]. *)
Definition initial : State := mkState 0 0 None false false None.

(** [quizData[currentQuestionIndex]]; [None] is [undefined]. *)
Definition currentQuestion (p : Props) (s : State) : option QuizQuestion :=
  if currentQuestionIndex s <? 0 then None
  else nth_error (quizData p) (Z.to_nat (currentQuestionIndex s)).

Definition totalQuestions (p : Props) : Z := Z.of_nat (length (quizData p)).

Definition isLastQuestion (p : Props) (s : State) : bool :=
  currentQuestionIndex s =? totalQuestions p - 1.

(** Lines 440-443. *)
Definition handleAnswerSelect (option : string) (s : State) : State :=
  if showResult s then s
  else mkState (currentQuestionIndex s) (score s) (Some option)
               (showResult s) (pendingAdvance s) (timer s).

(** Lines 445-464, up to the [setTimeout] call.  [None] is the TypeError
    of reading [.answer] off an [undefined] question. *)
Definition handleNext (p : Props) (s : State) : option State :=
  if falsy (selectedOption s) || showResult s || pendingAdvance s then Some s
  else
    match selectedOption s, currentQuestion p s with
    | Some selected, Some q =>
        let isCorrect := String.eqb selected (answer q) in
        let finalScore := score s + (if isCorrect then 1 else 0) in
        Some (mkState (currentQuestionIndex s) (score s) (selectedOption s)
                      true true
                      (Some (mkTimeout (isLastQuestion p s) finalScore)))
    | _, _ => None
    end.

(** Lines 453-463: the scheduled callback runs.  It either calls
    [onComplete] or moves the component to the next question. *)
Definition timeoutFires (p : Props) (s : State) : State * option Completion :=
  match timer s with
  | None => (s, None)
  | Some t =>
      if t_isLastQuestion t then
        (mkState (currentQuestionIndex s) (score s) (selectedOption s)
                 (showResult s) (pendingAdvance s) None,
         Some (mkCompletion (Some (category p)) (Some (t_finalScore t))
                            (Some (totalQuestions p))))
      else
        (mkState (currentQuestionIndex s + 1) (t_finalScore t) None
                 false false None,
         None)
  end.

(** Line 527: the Cancel button. *)
Definition cancel : Completion := mkCompletion None None None.

(** Lines 432-434: the unmount clean-up clears a scheduled timeout. *)
Definition unmount (s : State) : State :=
  mkState (currentQuestionIndex s) (score s) (selectedOption s)
          (showResult s) (pendingAdvance s) None.

(** *** A session: the component driven by its events *)

(** [Remount] is a render of [App]: [ActiveQuiz] and
    [QuizCategorySelectionView] are declared inside [App] (lines 158, 416,
    536), hence new component types at each of its renders; the running
    quiz is unmounted, which clears a pending timeout (lines 432-434), and
    a fresh one is mounted with the same props. *)
Inductive Event :=
| Select (option : string)
| Next
| Tick
| Cancel
| Remount.

Inductive Session :=
| Mounted (s : State)
| Reported (c : Completion)
| Crashed.

(** The component body reads [currentQuestion.question] and
    [currentQuestion.options] (lines 475, 480): a render with an
    [undefined] question throws. *)
Definition render (p : Props) (s : State) : Session :=
  match currentQuestion p s with
  | Some _ => Mounted s
  | None => Crashed
  end.

Definition step (p : Props) (x : Session) (e : Event) : Session :=
  match x with
  | Mounted s =>
      match e with
      | Select o => render p (handleAnswerSelect o s)
      | Next =>
          match handleNext p s with
          | Some s' => render p s'
          | None => Crashed
          end
      | Tick =>
          match timeoutFires p s with
          | (_, Some c) => Reported c
          | (s', None) => render p s'
          end
      | Cancel => Reported cancel
      | Remount => render p initial
      end
  | _ => x
  end.

Definition run (p : Props) (x : Session) (es : list Event) : Session :=
  fold_left (step p) es x.

(** A freshly mounted component, then the events. *)
Definition start (p : Props) (es : list Event) : Session :=
  run p (render p initial) es.

End ActiveQuiz.

(* ================================================================= *)
(** ** The [App] component *)

(** [Firestore | null]: the handle is opaque. *)
Inductive Firestore := firestore.

(** The [appState] selector. *)
Inductive View := feed | post | quiz.

(** The object handed to [addDoc] (lines 339-347); [createdAt] is the
    [serverTimestamp()] sentinel in every such write. *)
Record NewQuestion := mkNewQuestion {
  nq_title : string;
  nq_body : string;
  nq_authorId : string;
  nq_category : string;
  nq_createdAtMs : Z;
  nq_status : Status
}.

(** The object handed to [setDoc] with [{ merge: true }] (lines 368-376);
    [lastUpdated] is the [serverTimestamp()] sentinel. *)
Record VerificationWrite := mkVerificationWrite {
  vw_displayName : option string;
  vw_verifiedCategories : list string
}.

(** What a handler does to the outside: console output and store writes. *)
Inductive Effect :=
| console_error (label : string)
| addDoc (collectionPath : string) (data : NewQuestion)
| setDoc_merge (collectionPath docId : string) (data : VerificationWrite).

(** What a verification snapshot's [data()] yields.  [vd_id] is a field
    named [id] of the document itself, when it has one. *)
Record VerificationData := mkVerificationData {
  vd_id : option string;
  vd_displayName : option string;
  vd_verifiedCategories : list string;
  vd_lastUpdated : option Timestamp
}.

(** [user] of [onAuthStateChanged]. *)
Record User := mkUser {
  uid : string;
  user_displayName : option string
}.

Module App.

Record State := mkState {
  db : option Firestore;
  userId : option string;
  displayName : option string;
  isLoading : bool;
  appState : View;
  activeQuizCategory : option string;
  questions : list QuestionDoc.t;
  userVerifications : list VerificationDoc.t;
  error : option string
}.

(** Lines 160-173. *)
Definition initial : State :=
  mkState None None None true feed None [] [] None.

(** *** Setters *)

Definition setDb (v : option Firestore) (s : State) : State :=
  mkState v (userId s) (displayName s) (isLoading s) (appState s)
          (activeQuizCategory s) (questions s) (userVerifications s) (error s).

Definition setUserId (v : option string) (s : State) : State :=
  mkState (db s) v (displayName s) (isLoading s) (appState s)
          (activeQuizCategory s) (questions s) (userVerifications s) (error s).

Definition setDisplayName (v : option string) (s : State) : State :=
  mkState (db s) (userId s) v (isLoading s) (appState s)
          (activeQuizCategory s) (questions s) (userVerifications s) (error s).

Definition setIsLoading (v : bool) (s : State) : State :=
  mkState (db s) (userId s) (displayName s) v (appState s)
          (activeQuizCategory s) (questions s) (userVerifications s) (error s).

Definition setAppState (v : View) (s : State) : State :=
  mkState (db s) (userId s) (displayName s) (isLoading s) v
          (activeQuizCategory s) (questions s) (userVerifications s) (error s).

Definition setActiveQuizCategory (v : option string) (s : State) : State :=
  mkState (db s) (userId s) (displayName s) (isLoading s) (appState s)
          v (questions s) (userVerifications s) (error s).

Definition setQuestions (v : list QuestionDoc.t) (s : State) : State :=
  mkState (db s) (userId s) (displayName s) (isLoading s) (appState s)
          (activeQuizCategory s) v (userVerifications s) (error s).

Definition setUserVerifications (v : list VerificationDoc.t) (s : State) : State :=
  mkState (db s) (userId s) (displayName s) (isLoading s) (appState s)
          (activeQuizCategory s) (questions s) v (error s).

(** [setError] is only ever called with a string. *)
Definition setError (v : string) (s : State) : State :=
  mkState (db s) (userId s) (displayName s) (isLoading s) (appState s)
          (activeQuizCategory s) (questions s) (userVerifications s) (Some v).

(** The guard [if (!db || !userId) return] of the listeners and of both
    actions: [identity] is the [userId] the code goes on with, [None] when
    the guard returns. *)
Definition identity (s : State) : option string :=
  match db s, userId s with
  | Some _, Some u => if String.eqb u "" then None else Some u
  | _, _ => None
  end.

(** Lines 328-331. *)
Definition currentUserVerifications (s : State) : VerificationDoc.t :=
  let same (v : VerificationDoc.t) :=
    match userId s with
    | Some u => String.eqb (VerificationDoc.id v) u
    | None => false
    end in
  match find same (userVerifications s) with
  | Some v => v
  | None =>
      VerificationDoc.mk
        (match userId s with
         | Some u => if String.eqb u "" then "unknown" else u
         | None => "unknown"
         end)
        None [] None
  end.

(** [currentUserVerifications.verifiedCategories?.includes(category)],
    lines 579 and 689: what decides between "Start Quiz" and VERIFIED, and shows "Answer". *)
Definition isVerified (s : State) (category : string) : bool :=
  includes (VerificationDoc.verifiedCategories (currentUserVerifications s))
           category.

(** *** What is on screen, lines 756-786 and 536-558 *)

Inductive Screen :=
| Loading
| ApplicationError (message : string)
| PostQuestionView
| QuizCategorySelection
| QuizDataNotFound (category : string)
| ActiveQuizView (p : ActiveQuiz.Props)
| ActiveQuizOnInherited (category : string)
| QuestionFeedView.

(** Lines 536-558.  [ActiveQuizOnInherited] is [ActiveQuiz] handed as
    [quizData] a value inherited from [Object.prototype], which passes the
    test of line 539; its [quizData[0]] is [undefined]. *)
Definition QuizCategorySelectionView (s : State) : Screen :=
  match activeQuizCategory s with
  | Some c =>
      if String.eqb c "" then QuizCategorySelection
      else
        match getProperty QUIZ_DATA c with
        | Undefined => QuizDataNotFound c
        | Bank quizData => ActiveQuizView (ActiveQuiz.mkProps c quizData)
        | Inherited => ActiveQuizOnInherited c
        end
  | None => QuizCategorySelection
  end.

(** Lines 776-786. *)
Definition renderContent (s : State) : Screen :=
  match appState s with
  | post => PostQuestionView
  | quiz => QuizCategorySelectionView s
  | feed => QuestionFeedView
  end.

(** Lines 756-774, then the content. *)
Definition render (s : State) : Screen :=
  if isLoading s then Loading
  else
    match error s with
    | Some message =>
        if String.eqb message "" then renderContent s
        else ApplicationError message
    | None => renderContent s
    end.

(** *** Handlers

    [APP_ID] comes from the build environment
    ([import.meta.env.VITE_APP_ID || 'default-app-id']). *)

Section Handlers.

Variable APP_ID : string.

(** Lines 77-78. *)
Definition getPublicCollectionPath (collectionName : string) : string :=
  ("artifacts/" ++ APP_ID ++ "/public/data/" ++ collectionName)%string.

(** Lines 336-353.  [now] is [Date.now()]; [writeOk] tells whether the
    awaited [addDoc] resolves. *)
Definition handlePostQuestion (s : State) (title body category : string)
    (now : Z) (writeOk : bool) : State * list Effect :=
  match identity s with
  | None => (s, [])
  | Some u =>
      let w := addDoc (getPublicCollectionPath "questions")
                      (mkNewQuestion title body u category now Open) in
      if writeOk then (setAppState feed s, [w])
      else
        (setError
           "Could not post question. Check network connection or database permissions."
           s,
         [w; console_error "Error posting question:"])
  end.

(** Lines 355-384.  [writeOk] tells whether the awaited [setDoc]
    resolves. *)
Definition handleQuizComplete (s : State) (category : string)
    (score total : Z) (writeOk : bool) : State * list Effect :=
  match identity s with
  | None => (s, [])
  | Some u =>
      if passed score total then
        let newCategories :=
          newCategories
            (VerificationDoc.verifiedCategories (currentUserVerifications s))
            category in
        let w := setDoc_merge
                   (getPublicCollectionPath "expert_verifications") u
                   (mkVerificationWrite (displayName s) newCategories) in
        if writeOk then (setActiveQuizCategory None s, [w])
        else
          (setActiveQuizCategory None
             (setError
                ("Failed to verify expertise in " ++ category ++ ".")%string s),
           [w; console_error "Error updating verification status:"])
      else (setActiveQuizCategory None s, [])
  end.

(** Lines 549-554: the [onComplete] prop given to [ActiveQuiz]. *)
Definition onComplete (s : State) (c : ActiveQuiz.Completion)
    (writeOk : bool) : State * list Effect :=
  let s1 := setAppState feed s in
  match ActiveQuiz.oc_category c, ActiveQuiz.oc_finalScore c,
        ActiveQuiz.oc_total c with
  | Some category, Some finalScore, Some total =>
      if String.eqb category "" then (s1, [])
      else handleQuizComplete s1 category finalScore total writeOk
  | _, _, _ => (s1, [])
  end.

End Handlers.

(** *** The two listeners, lines 289-319

    They are attached only when [db] and [userId] are set (line 281); the
    verification listener closes over the [userId] of that render. *)

(** Lines 291-297. *)
Definition onQuestionsSnapshot (docs : list QuestionDoc.t) (s : State) : State :=
  setQuestions docs s.

(** Lines 298-301. *)
Definition onQuestionsError (s : State) : State * list Effect :=
  (setError "Failed to load questions from database." s,
   [console_error "Error fetching questions:"]).

(** [{ id: snap.id, ...data }], line 311: the spread comes second, so a
    field [id] of the document replaces [snap.id]. *)
Definition recordId (snapId : string) (data : VerificationData) : string :=
  match vd_id data with
  | Some i => i
  | None => snapId
  end.

(** Lines 308-315; [snap] is [None] when [snap.exists()] is false, and
    [snap.id] is the id of the document the listener was attached to. *)
Definition onVerificationSnapshot (userId : string)
    (snap : option VerificationData) (s : State) : State :=
  match snap with
  | Some data =>
      setUserVerifications
        [VerificationDoc.mk (recordId userId data) (vd_displayName data)
           (vd_verifiedCategories data) (vd_lastUpdated data)] s
  | None =>
      setUserVerifications [VerificationDoc.mk userId None [] None] s
  end.

(** Lines 316-318. *)
Definition onVerificationError (s : State) : State * list Effect :=
  (s, [console_error "Error fetching verifications:"]).

(** *** Start-up, lines 178-275 *)

(** The three settings the start-up check looks at. *)
Record FirebaseConfig := mkFirebaseConfig {
  apiKey : string;
  projectId : string;
  appId : string
}.

(** Lines 182-188. *)
Definition missing (c : FirebaseConfig) : list string :=
  map fst
    (filter (fun kv => String.eqb (snd kv) "")
       [("apiKey", apiKey c); ("projectId", projectId c); ("appId", appId c)]).

(** Lines 189-195. *)
Definition onConfigMissing (keys : list string) (s : State) : State :=
  setIsLoading false
    (setError
       ("Firebase config missing: " ++ String.concat ", " keys
          ++ ". Check your .env and restart the dev server.")%string s).

(** Lines 236-250. *)
Definition authErrorMessage (code : string) : string :=
  if String.eqb code "auth/operation-not-allowed" then
    "Auth error: Anonymous sign-in is disabled. Enable it in Firebase Console → Authentication → Sign-in Method."
  else if String.eqb code "auth/unauthorized-domain" then
    "Auth error: Unauthorized domain. Add your dev URL in Firebase Console → Authentication → Settings → Authorized domains."
  else if String.eqb code "auth/operation-not-supported-in-this-environment" then
    "Auth error: Storage blocked in this environment. Try another browser or disable private mode."
  else if String.eqb code "auth/invalid-custom-token" then
    "Auth error: Invalid custom token. Remove VITE_INITIAL_AUTH_TOKEN to test anonymous, or issue a token for this project."
  else ("Auth error: " ++ code)%string.

(** Lines 234-254; [code] is [authErr?.code || '']. *)
Definition onSignInError (code : string) (s : State) : State * list Effect :=
  (setIsLoading false (setError (authErrorMessage code) s),
   [console_error "[Auth] sign-in error"]).

(** Lines 269-273; [what] is [e?.code || e?.message || String(e)]. *)
Definition onInitError (what : string) (s : State) : State * list Effect :=
  (setIsLoading false (setError ("Firebase init error: " ++ what)%string s),
   [console_error "[Firebase init] fatal"]).

(** Lines 257-266. *)
Definition onAuthStateChanged (user : option User) (s : State) : State :=
  match user with
  | Some u =>
      setIsLoading false
        (setDisplayName
           (Some (if truthy (user_displayName u)
                  then match user_displayName u with
                       | Some n => n
                       | None => ""
                       end
                  else ("User-" ++ Utf16.take 8 (uid u))%string))
           (setUserId (Some (uid u)) s))
  | None =>
      setIsLoading false (setDisplayName None (setUserId None s))
  end.

End App.

(* ================================================================= *)
(** ** Binary64 rounding, for the proofs about [passed] *)

Module Binary64.

Definition two52 : Z := 4503599627370496.
Definition two53 : Z := 9007199254740992.
Definition two54 : Z := 18014398509481984.

(** The mantissa of [PASSING_SCORE_PERCENTAGE]; its exponent is -53. *)
Definition threshold : Z := 6305039478318694.

(** The last step of [binary_round_aux]: the rounded mantissa is shifted
    once more if rounding carried into a new digit, then packed. *)
Definition finish (sx : bool) (m e : Z) : spec_float :=
  let '(mrs, e') := shr_fexp prec emax m e loc_Exact in
  match shr_m mrs with
  | Z0 => S754_zero sx
  | Zpos m => if e' <=? emax - prec then S754_finite sx m e' else S754_infinity sx
  | _ => S754_nan
  end.

End Binary64.

(* ================================================================= *)
(** ** The controller: every way the [App] state changes *)

Module Controller.
Import App.

Inductive Event :=
(* start-up *)
| ConfigMissing (keys : list string)
| FirestoreReady
| SignInError (code : string)
| InitError (what : string)
| AuthStateChanged (user : option User)
(* listeners *)
| QuestionsSnapshot (docs : list QuestionDoc.t)
| QuestionsError
| VerificationSnapshot (userId : string) (snap : option VerificationData)
| VerificationError
(* actions *)
| PostQuestion (title body category : string) (now : Z) (writeOk : bool)
| QuizCompletes (c : ActiveQuiz.Completion) (writeOk : bool)
(* navigation: lines 403-406, 586, 733, 595 and 679 *)
| ClickTakeQuiz
| ClickStartQuiz (category : string)
| ClickAskQuestion
| ClickBackToFeed.

Section Dispatch.

Variable APP_ID : string.

Definition handle (e : Event) (s : State) : State * list Effect :=
  match e with
  | ConfigMissing keys => (onConfigMissing keys s, [])
  | FirestoreReady => (setDb (Some firestore) s, [])
  | SignInError code => onSignInError code s
  | InitError what => onInitError what s
  | AuthStateChanged user => (onAuthStateChanged user s, [])
  | QuestionsSnapshot docs => (onQuestionsSnapshot docs s, [])
  | QuestionsError => onQuestionsError s
  | VerificationSnapshot u snap => (onVerificationSnapshot u snap s, [])
  | VerificationError => onVerificationError s
  | PostQuestion title body category now writeOk =>
      handlePostQuestion APP_ID s title body category now writeOk
  | QuizCompletes c writeOk => onComplete APP_ID s c writeOk
  | ClickTakeQuiz => (setActiveQuizCategory None (setAppState quiz s), [])
  | ClickStartQuiz category => (setActiveQuizCategory (Some category) s, [])
  | ClickAskQuestion => (setAppState post s, [])
  | ClickBackToFeed => (setAppState feed s, [])
  end.

(** The events in order, with everything they did to the outside. *)
Fixpoint run (es : list Event) (s : State) : State * list Effect :=
  match es with
  | [] => (s, [])
  | e :: es' =>
      let (s1, out1) := handle e s in
      let (s2, out2) := run es' s1 in
      (s2, out1 ++ out2)
  end.

End Dispatch.

End Controller.

(** The error screen has replaced the whole UI. *)
Definition fatal (s : App.State) : Prop :=
  exists message, App.render s = App.ApplicationError message.

Definition option_string_eqb (a b : option string) : bool :=
  match a, b with
  | Some x, Some y => String.eqb x y
  | None, None => true
  | _, _ => false
  end.

Definition isConsoleError (e : Effect) : bool :=
  match e with
  | console_error _ => true
  | _ => false
  end.

Definition isWrite (e : Effect) : bool :=
  match e with
  | console_error _ => false
  | _ => true
  end.

(** A handler's outcome tells the user or the console something it did not
    tell before: the error message changed, or [console.error] was called. *)
Definition informed (before : App.State) (outcome : App.State * list Effect) : bool :=
  negb (option_string_eqb (App.error (fst outcome)) (App.error before))
  || existsb isConsoleError (snd outcome).

(** Two states to run the handlers on: a signed-in user looking at the
    feed, and the same application after the identity service reported that
    nobody is signed in. *)
Definition ready : App.State :=
  App.mkState (Some firestore) (Some "u-0001") (Some "User-u-0001") false feed
              None [] [] None.

(** The signed-in user with a verification record already delivered. *)
Definition readyWith (verified : list string) : App.State :=
  App.setUserVerifications [VerificationDoc.mk "u-0001" None verified None] ready.

Definition signedOut : App.State :=
  App.mkState (Some firestore) None None false feed None [] [] None.

(** The props [QuizCategorySelectionView] passes for a category of the
    bank (lines 538 and 547-556). *)
Definition quizProps (category : string) : ActiveQuiz.Props :=
  ActiveQuiz.mkProps category
    (match lookupQuiz QUIZ_DATA category with
     | Some quizData => quizData
     | None => []
     end).

Definition physics : ActiveQuiz.Props := quizProps "Physics".

Definition financialModeling : ActiveQuiz.Props := quizProps "Financial Modeling".

(* ================================================================= *)
(** ** Playing a quiz through

    One question is played by choosing an option, pressing the button and
    letting the timer run out. *)

Definition play (answers : list string) : list ActiveQuiz.Event :=
  flat_map
    (fun a => [ActiveQuiz.Select a; ActiveQuiz.Next; ActiveQuiz.Tick])
    answers.

(** How many of the answers given, in order, are the bank's. *)
Fixpoint correctAnswers (qs : list QuizQuestion) (answers : list string) : Z :=
  match qs, answers with
  | q :: qs', a :: answers' =>
      (if String.eqb a (answer q) then 1 else 0) + correctAnswers qs' answers'
  | _, _ => 0
  end.

(** ** The session invariant

    What holds of every state the component reaches: the score counts
    questions already resolved, the index stays inside the bank, and a
    scheduled timer carries the verdict on the question on screen. *)

Definition sound (p : ActiveQuiz.Props) (s : ActiveQuiz.State) : Prop :=
  0 <= ActiveQuiz.score s <= ActiveQuiz.currentQuestionIndex s /\
  ActiveQuiz.currentQuestionIndex s < ActiveQuiz.totalQuestions p /\
  ActiveQuiz.showResult s = ActiveQuiz.pendingAdvance s /\
  match ActiveQuiz.timer s with
  | Some t =>
      ActiveQuiz.showResult s = true /\
      ActiveQuiz.t_isLastQuestion t = ActiveQuiz.isLastQuestion p s /\
      ActiveQuiz.score s <= ActiveQuiz.t_finalScore t <= ActiveQuiz.score s + 1
  | None => ActiveQuiz.showResult s = false
  end.

(** A completion is either the cancel signal or a score out of the bank's
    size, for the component's own category. *)
Definition wellReported (p : ActiveQuiz.Props) (c : ActiveQuiz.Completion) : Prop :=
  c = ActiveQuiz.cancel \/
  exists finalScore,
    c = ActiveQuiz.mkCompletion (Some (ActiveQuiz.category p)) (Some finalScore)
          (Some (ActiveQuiz.totalQuestions p)) /\
    0 <= finalScore <= ActiveQuiz.totalQuestions p.

Definition sessionOk (p : ActiveQuiz.Props) (x : ActiveQuiz.Session) : Prop :=
  match x with
  | ActiveQuiz.Mounted s => sound p s
  | ActiveQuiz.Reported c => wellReported p c
  | ActiveQuiz.Crashed => ActiveQuiz.quizData p = []
  end.

(* ================================================================= *)
(** ** What [ActiveQuiz] puts on screen, lines 466-533 *)

Module ActiveQuizRender.
Import ActiveQuiz.

(** The five looks of an option row (lines 485-500); the check mark and the
    cross of lines 505-509 go with the first two. *)
Inductive OptionClass :=
| Correct
| IncorrectSelection
| Dimmed
| Selected
| Unselected.

(** [selectedOption === option], line 481. *)
Definition isSelected (s : State) (option : string) : bool :=
  match selectedOption s with
  | Some x => String.eqb x option
  | None => false
  end.

(** [showResult && option === currentQuestion.answer], line 482. *)
Definition isCorrect (q : QuizQuestion) (s : State) (option : string) : bool :=
  showResult s && String.eqb option (answer q).

(** [showResult && isSelected && !isCorrect], line 483. *)
Definition isIncorrectSelection (q : QuizQuestion) (s : State) (option : string)
  : bool :=
  showResult s && isSelected s option && negb (isCorrect q s option).

(** Lines 488-500. *)
Definition optionClass (q : QuizQuestion) (s : State) (option : string)
  : OptionClass :=
  if showResult s then
    if isCorrect q s option then Correct
    else if isIncorrectSelection q s option then IncorrectSelection
    else Dimmed
  else if isSelected s option then Selected else Unselected.

(** [disabled={!selectedOption || showResult}], line 517. *)
Definition disabled (s : State) : bool :=
  falsy (selectedOption s) || showResult s.

(** Line 524. *)
Definition buttonLabel (p : Props) (s : State) : string :=
  if isLastQuestion p s then "Submit Quiz" else "Next Question".

(** "Question [currentQuestionIndex + 1] of [totalQuestions]", line 470. *)
Definition progress (p : Props) (s : State) : Z * Z :=
  (currentQuestionIndex s + 1, totalQuestions p).

End ActiveQuizRender.

(* ================================================================= *)
(** ** The start-up check, the post form and the category list *)

Module Views.

(** Lines 182-195: [None] when start-up goes on to Firebase. *)
Definition checkConfig (c : App.FirebaseConfig) (s : App.State)
  : option App.State :=
  match App.missing c with
  | [] => None
  | keys => Some (App.onConfigMissing keys s)
  end.

(** The events that call [setIsLoading(false)]: lines 193, 252, 265, 272. *)
Definition endsLoading (e : Controller.Event) : bool :=
  match e with
  | Controller.ConfigMissing _ => true
  | Controller.SignInError _ => true
  | Controller.InitError _ => true
  | Controller.AuthStateChanged _ => true
  | _ => false
  end.

(** [Object.keys(QUIZ_DATA)], line 560. *)
Definition availableCategories : list string := quizKeys QUIZ_DATA.

(** Lines 579-590: a category shows VERIFIED, or a Start Quiz button. *)
Inductive CategoryRow := Verified | StartQuiz.

Definition categoryRow (s : App.State) (category : string) : CategoryRow :=
  if App.isVerified s category then Verified else StartQuiz.

Section PostQuestionView.

Variable APP_ID : string.

(** [String.prototype.trim], a built-in of the engine. *)
Variable trim : string -> string.

(** Lines 609-614: [handleSubmit] of the post form, with the values of the
    three fields. *)
Definition handleSubmit (s : App.State) (title body category : string)
    (now : Z) (writeOk : bool) : App.State * list Effect :=
  if negb (String.eqb (trim title) "") && negb (String.eqb (trim body) "")
     && negb (String.eqb category "")
  then App.handlePostQuestion APP_ID s title body category now writeOk
  else (s, []).

End PostQuestionView.

End Views.

(** Between two states of a session: neither index nor score goes down,
    and the score gains at most what the index gains. *)
Definition advances (s s' : ActiveQuiz.State) : Prop :=
  ActiveQuiz.currentQuestionIndex s <= ActiveQuiz.currentQuestionIndex s' /\
  ActiveQuiz.score s <= ActiveQuiz.score s' /\
  ActiveQuiz.score s' - ActiveQuiz.score s
    <= ActiveQuiz.currentQuestionIndex s' - ActiveQuiz.currentQuestionIndex s.

(** The verified categories the state holds for user [u]: those of the
    first record filed under the id [u], none when no record is. *)
Definition heldFor (u : string) (records : list VerificationDoc.t)
    (S : list string) : Prop :=
  (exists before v after,
     records = before ++ v :: after /\
     Forall (fun r => VerificationDoc.id r <> u) before /\
     VerificationDoc.id v = u /\
     VerificationDoc.verifiedCategories v = S) \/
  (Forall (fun r => VerificationDoc.id r <> u) records /\ S = []).

(** The id a store write goes under: the author of a posted question, the
    document id of a verification record. *)
Definition writer (e : Effect) : option string :=
  match e with
  | console_error _ => None
  | addDoc _ data => Some (nq_authorId data)
  | setDoc_merge _ docId _ => Some docId
  end.

(** The user ids the identity service has announced, in order. *)
Fixpoint signedIn (es : list Controller.Event) : list string :=
  match es with
  | [] => []
  | Controller.AuthStateChanged (Some u) :: es' => uid u :: signedIn es'
  | _ :: es' => signedIn es'
  end.

(* ================================================================= *)
(** * Properties *)

(* ================================================================= *)
(** ** Insertion-ordered sets *)

Module JsSetFacts.
Import JsSet.

Lemma has_In (s : list string) (x : string) : has s x = true <-> In x s.
Proof.
  unfold has. rewrite existsb_exists. split.
  - intros [y [Hy He]]. apply String.eqb_eq in He. now subst.
  - intros H. exists x. split; [assumption | apply String.eqb_refl].
Qed.

Lemma has_false (s : list string) (x : string) : has s x = false <-> ~ In x s.
Proof.
  rewrite <- has_In. destruct (has s x); split; congruence.
Qed.

Lemma In_add (s : list string) (x y : string) :
  In y (add s x) <-> In y s \/ y = x.
Proof.
  unfold add. destruct (has s x) eqn:E.
  - apply has_In in E. split; [tauto | intros [H | ->]; assumption].
  - rewrite in_app_iff. simpl. intuition congruence.
Qed.

Lemma NoDup_add (s : list string) (x : string) : NoDup s -> NoDup (add s x).
Proof.
  intros H. unfold add. destruct (has s x) eqn:E; [assumption |].
  apply has_false in E.
  apply NoDup_app; [assumption | repeat constructor; simpl; tauto |].
  intros y Hy [<- | []]. exact (E Hy).
Qed.

(** The fold, from any set built so far. *)
Lemma In_fold (xs acc : list string) (y : string) :
  In y (fold_left add xs acc) <-> In y acc \/ In y xs.
Proof.
  revert acc. induction xs as [| x xs IH]; intros acc; simpl.
  - tauto.
  - rewrite IH, In_add. intuition congruence.
Qed.

Lemma NoDup_fold (xs acc : list string) :
  NoDup acc -> NoDup (fold_left add xs acc).
Proof.
  revert acc. induction xs as [| x xs IH]; intros acc H; simpl.
  - assumption.
  - apply IH, NoDup_add, H.
Qed.

(** Members that are new and pairwise distinct are appended as they come. *)
Lemma fold_NoDup_app (xs acc : list string) :
  NoDup (acc ++ xs) -> fold_left add xs acc = acc ++ xs.
Proof.
  revert acc. induction xs as [| x xs IH]; intros acc H; simpl.
  - now rewrite app_nil_r.
  - assert (Hx : has acc x = false).
    { apply has_false. intros Hin.
      apply NoDup_remove_2 in H. apply H, in_or_app. now left. }
    unfold add at 2. rewrite Hx.
    rewrite IH; rewrite <- app_assoc; [reflexivity | exact H].
Qed.

Lemma fold_app (xs ys acc : list string) :
  fold_left add (xs ++ ys) acc = fold_left add ys (fold_left add xs acc).
Proof. apply fold_left_app. Qed.

Lemma In_of_array (xs : list string) (y : string) :
  In y (of_array xs) <-> In y xs.
Proof. unfold of_array. rewrite In_fold. simpl. tauto. Qed.

Lemma NoDup_of_array (xs : list string) : NoDup (of_array xs).
Proof. apply NoDup_fold. constructor. Qed.

Lemma of_array_NoDup_id (xs : list string) : NoDup xs -> of_array xs = xs.
Proof. intros H. unfold of_array. now rewrite fold_NoDup_app. Qed.

End JsSetFacts.

Lemma newCategories_unfold (S : list string) (c : string) :
  newCategories S c = JsSet.add (JsSet.of_array S) c.
Proof.
  unfold newCategories, JsSet.of_array. now rewrite JsSetFacts.fold_app.
Qed.

Lemma In_newCategories (S : list string) (c x : string) :
  In x (newCategories S c) <-> In x S \/ x = c.
Proof.
  unfold newCategories. rewrite JsSetFacts.In_of_array, in_app_iff. simpl.
  intuition congruence.
Qed.

Lemma NoDup_newCategories (S : list string) (c : string) :
  NoDup (newCategories S c).
Proof. apply JsSetFacts.NoDup_of_array. Qed.

Lemma newCategories_member (S : list string) (c : string) :
  NoDup S -> In c S -> newCategories S c = S.
Proof.
  intros HS Hc. rewrite newCategories_unfold.
  rewrite JsSetFacts.of_array_NoDup_id by assumption.
  unfold JsSet.add. apply JsSetFacts.has_In in Hc. now rewrite Hc.
Qed.

Lemma newCategories_fresh (S : list string) (c : string) :
  NoDup S -> ~ In c S -> newCategories S c = S ++ [c].
Proof.
  intros HS Hc. rewrite newCategories_unfold.
  rewrite JsSetFacts.of_array_NoDup_id by assumption.
  unfold JsSet.add. apply JsSetFacts.has_false in Hc. now rewrite Hc.
Qed.

(* ================================================================= *)
(** ** Binary64 division of two counts

    What [Number.div] returns for two positive integers below 2^32 is read
    off the specification of the primitive operations ([SpecFloat]): both
    operands are normalised to 53-digit mantissas, the quotient of the
    mantissas has 53 or 54 digits, and it is rounded to nearest, ties to
    even. *)

Module Binary64Facts.
Import Binary64.

Lemma digits2_size (p : positive) : digits2_pos p = Pos.size p.
Proof. induction p; simpl; congruence. Qed.

Lemma digits_bounds (p : positive) :
  2 ^ (Zpos (digits2_pos p) - 1) <= Zpos p < 2 ^ Zpos (digits2_pos p).
Proof.
  rewrite digits2_size. split.
  - pose proof (Pos.size_le p) as H.
    apply Pos2Z.pos_le_pos in H. rewrite Pos2Z.inj_pow in H.
    replace (Z.pos p~0) with (2 * Z.pos p) in H by reflexivity.
    replace (Z.pos (Pos.size p)) with (Z.succ (Z.pos (Pos.size p) - 1)) in H by lia.
    rewrite Z.pow_succ_r in H by lia. lia.
  - pose proof (Pos.size_gt p) as H.
    apply Pos2Z.pos_lt_pos in H. now rewrite Pos2Z.inj_pow in H.
Qed.

Lemma digits_unique (p : positive) (d : Z) :
  2 ^ (d - 1) <= Zpos p < 2 ^ d -> Zpos (digits2_pos p) = d.
Proof.
  intros [Hl Hu]. pose proof (digits_bounds p) as [Hl' Hu'].
  assert (Hd : 0 < d).
  { destruct (Z.lt_trichotomy d 0) as [N | [-> | P]]; [| simpl in Hu; lia | exact P].
    rewrite Z.pow_neg_r in Hu by exact N. lia. }
  assert (H1 : d - 1 < Zpos (digits2_pos p))
    by (apply (Z.pow_lt_mono_r_iff 2); lia).
  assert (H2 : Zpos (digits2_pos p) - 1 < d)
    by (apply (Z.pow_lt_mono_r_iff 2); lia).
  lia.
Qed.

Lemma digits_iter_xO (p k : positive) :
  digits2_pos (Pos.iter xO p k) = (digits2_pos p + k)%positive.
Proof.
  induction k using Pos.peano_ind.
  - simpl. lia.
  - rewrite Pos.iter_succ. simpl. rewrite IHk. lia.
Qed.

Lemma iter_xO_value (p k : positive) :
  Zpos (Pos.iter xO p k) = Zpos p * 2 ^ Zpos k.
Proof.
  change (Pos.iter xO p k) with (shift_pos k p).
  rewrite shift_pos_correct, Zpower_pos_nat, Zpower_nat_Z.
  rewrite positive_nat_Z. lia.
Qed.

Lemma pow2_le (a b : Z) : 0 <= a <= b -> 2 ^ a <= 2 ^ b.
Proof. intros. apply Z.pow_le_mono_r; lia. Qed.

(** *** The shift that brings a mantissa back to 53 digits *)

Lemma shr_fexp_53 (m : positive) (e : Z) (l : location) :
  Zpos (digits2_pos m) = 53 -> -1074 <= e ->
  shr_fexp prec emax (Zpos m) e l = (shr_record_of_loc (Zpos m) l, e).
Proof.
  intros Hd He. unfold shr_fexp, fexp, SpecFloat.emin. cbn [Zdigits2]. rewrite Hd.
  replace (Z.max (53 + e - prec) (3 - emax - prec) - e) with 0
    by (unfold prec, emax; lia).
  reflexivity.
Qed.

Lemma shr_fexp_54 (m : positive) (e : Z) (l : location) :
  Zpos (digits2_pos m) = 54 -> -1074 <= e ->
  shr_fexp prec emax (Zpos m) e l = (shr_1 (shr_record_of_loc (Zpos m) l), e + 1).
Proof.
  intros Hd He. unfold shr_fexp, fexp, SpecFloat.emin. cbn [Zdigits2]. rewrite Hd.
  replace (Z.max (54 + e - prec) (3 - emax - prec) - e) with 1
    by (unfold prec, emax; lia).
  reflexivity.
Qed.

Lemma loc_roundtrip (m : Z) (l : location) :
  loc_of_shr_record (shr_record_of_loc m l) = l.
Proof. destruct l as [| []]; reflexivity. Qed.

Lemma shr_m_of_loc (m : Z) (l : location) : shr_m (shr_record_of_loc m l) = m.
Proof. destruct l as [| []]; reflexivity. Qed.

Lemma binary_round_aux_finish (sx : bool) (mx ex : Z) (lx : location) :
  binary_round_aux prec emax sx mx ex lx =
  finish sx (round_nearest_even (shr_m (fst (shr_fexp prec emax mx ex lx)))
                                (loc_of_shr_record (fst (shr_fexp prec emax mx ex lx))))
            (snd (shr_fexp prec emax mx ex lx)).
Proof.
  unfold binary_round_aux, finish.
  destruct (shr_fexp prec emax mx ex lx) as [mrs' e']. reflexivity.
Qed.

Lemma finish_normal (sx : bool) (m : positive) (e : Z) :
  two52 <= Zpos m < two53 -> -1074 <= e <= 971 ->
  finish sx (Zpos m) e = S754_finite sx m e.
Proof.
  intros Hm He. unfold finish. rewrite shr_fexp_53.
  - cbn [shr_record_of_loc shr_m]. unfold emax, prec.
    replace (e <=? 1024 - 53) with true by (symmetry; apply Z.leb_le; lia).
    reflexivity.
  - apply digits_unique. unfold two52, two53 in Hm. simpl. lia.
  - lia.
Qed.

Lemma finish_carry (sx : bool) (e : Z) :
  -1074 <= e <= 970 ->
  finish sx two53 e = S754_finite sx 4503599627370496 (e + 1).
Proof.
  intros He. unfold finish, two53. rewrite shr_fexp_54; [| reflexivity | lia].
  cbn [shr_record_of_loc shr_1 shr_m]. unfold emax, prec.
  replace (e + 1 <=? 1024 - 53) with true by (symmetry; apply Z.leb_le; lia).
  reflexivity.
Qed.

Lemma finish_cases (sx : bool) (m e : Z) :
  two52 <= m <= two53 -> -1074 <= e <= 970 ->
  (m < two53 /\ finish sx m e = S754_finite sx (Z.to_pos m) e) \/
  (m = two53 /\ finish sx m e = S754_finite sx (Z.to_pos two52) (e + 1)).
Proof.
  intros Hm He. destruct (Z.eq_dec m two53) as [-> | Hne].
  - right. split; [reflexivity |]. now apply finish_carry.
  - left. split; [lia |].
    destruct m as [| p | p]; try (unfold two52 in Hm; lia).
    rewrite finish_normal; [reflexivity | lia | lia].
Qed.

(** *** Rounding to nearest, ties to even *)

Lemma round_nearest_even_cases (q : Z) (l : location) :
  round_nearest_even q l = q \/
  (round_nearest_even q l = q + 1 /\
   (l = loc_Inexact Eq \/ l = loc_Inexact Gt)).
Proof.
  destruct l as [| []]; simpl; auto.
  destruct (Z.even q); auto.
Qed.

(** A quotient that already has 53 digits. *)
Lemma round_53 (q : positive) (e : Z) (l : location) :
  two52 <= Zpos q < two53 -> -1074 <= e <= 970 ->
  exists m e',
    binary_round_aux prec emax false (Zpos q) e l = S754_finite false m e' /\
    ((e' = e /\
      (Zpos m = Zpos q \/
       (Zpos m = Zpos q + 1 /\ (l = loc_Inexact Eq \/ l = loc_Inexact Gt)))) \/
     (e' = e + 1 /\ Zpos m = two52 /\ Zpos q + 1 = two53)).
Proof.
  intros Hq He. rewrite binary_round_aux_finish.
  rewrite shr_fexp_53;
    [| apply digits_unique; unfold two52, two53 in Hq; simpl; lia | lia].
  cbn [fst snd]. rewrite shr_m_of_loc, loc_roundtrip.
  destruct (round_nearest_even_cases (Zpos q) l) as [R | [R Hl]]; rewrite R.
  - exists q, e. split; [apply finish_normal; lia | auto].
  - destruct (finish_cases false (Zpos q + 1) e) as [[Hlt F] | [Heq F]];
      try lia; rewrite F.
    + exists (Z.to_pos (Zpos q + 1)), e. split; [reflexivity |].
      left. split; [reflexivity |]. right. rewrite Z2Pos.id by lia. auto.
    + exists (Z.to_pos two52), (e + 1). split; [reflexivity |].
      right. repeat split; assumption.
Qed.

(** A quotient of 54 digits: one bit is shifted out before rounding. *)
Lemma round_54 (q : positive) (e : Z) (l : location) :
  two53 <= Zpos q < two54 -> -1074 <= e <= 969 ->
  exists m e',
    binary_round_aux prec emax false (Zpos q) e l = S754_finite false m e' /\
    ((e' = e + 1 /\
      (Zpos m = Zpos q / 2 \/
       (Zpos m = Zpos q / 2 + 1 /\ Z.odd (Zpos q) = true))) \/
     (e' = e + 2 /\ Zpos m = two52 /\ Zpos q / 2 + 1 = two53)).
Proof.
  intros Hq He. rewrite binary_round_aux_finish.
  rewrite shr_fexp_54;
    [| apply digits_unique; unfold two53, two54 in Hq; simpl; lia | lia].
  cbn [fst snd].
  assert (Hshr : exists s,
             shr_1 (shr_record_of_loc (Zpos q) l)
             = Build_shr_record (Zpos q / 2) (Z.odd (Zpos q)) s).
  { destruct q as [q' | q' |]; [| | unfold two53 in Hq; lia].
    - replace (Z.pos q'~1 / 2) with (Zpos q')
        by (apply Z.div_unique with (r := 1); lia).
      destruct l as [| []]; eexists; reflexivity.
    - replace (Z.pos q'~0 / 2) with (Zpos q')
        by (apply Z.div_unique with (r := 0); lia).
      destruct l as [| []]; eexists; reflexivity. }
  destruct Hshr as [s ->]. cbn [shr_m].
  assert (Hh : two52 <= Zpos q / 2 < two53).
  { unfold two52, two53, two54 in *. split.
    - apply Z.div_le_lower_bound; lia.
    - apply Z.div_lt_upper_bound; lia. }
  set (h := Zpos q / 2) in *.
  set (l' := loc_of_shr_record
               {| shr_m := h; shr_r := Z.odd (Z.pos q); shr_s := s |}).
  assert (Hodd : l' = loc_Inexact Eq \/ l' = loc_Inexact Gt ->
                 Z.odd (Zpos q) = true).
  { unfold l', loc_of_shr_record.
    destruct (Z.odd (Zpos q)); [auto |].
    destruct s; intros [H | H]; discriminate H. }
  destruct (round_nearest_even_cases h l') as [R | [R Hl]]; rewrite R.
  - destruct (finish_cases false h (e + 1)) as [[Hlt F] | [Heq F]];
      try lia; rewrite F.
    exists (Z.to_pos h), (e + 1). split; [reflexivity |].
    left. split; [reflexivity |]. left. apply Z2Pos.id. unfold two52 in Hh. lia.
  - destruct (finish_cases false (h + 1) (e + 1)) as [[Hlt F] | [Heq F]];
      try lia; rewrite F.
    + exists (Z.to_pos (h + 1)), (e + 1). split; [reflexivity |].
      left. split; [reflexivity |]. right.
      rewrite Z2Pos.id by (unfold two52 in Hh; lia). auto.
    + exists (Z.to_pos two52), (e + 1 + 1). split; [reflexivity |].
      right. repeat split; [lia | assumption].
Qed.

Lemma new_location_even_half (D r : Z) :
  Z.even D = true ->
  new_location D r = loc_Inexact Eq \/ new_location D r = loc_Inexact Gt ->
  D <= 2 * r.
Proof.
  intros HD. unfold new_location. rewrite HD. unfold new_location_even.
  destruct (r =? 0); [intros [H | H]; discriminate H |].
  destruct (Z.compare_spec (2 * r) D) as [E | L | G]; intros [H | H];
    try discriminate H; lia.
Qed.

(** *** The operands, the quotient and the comparison *)

Lemma Prim2SF_of_Z (p : positive) :
  Zpos p < two52 ->
  Prim2SF (Number.of_Z (Zpos p)) =
  S754_finite false
    (Pos.iter xO p (Z.to_pos (53 - Zpos (digits2_pos p))))
    (Zpos (digits2_pos p) - 53).
Proof.
  intros Hp. pose proof (digits_bounds p) as [Hl Hu].
  assert (Hd : 1 <= Zpos (digits2_pos p) <= 52).
  { split; [lia |].
    destruct (Z.le_gt_cases (Zpos (digits2_pos p)) 52) as [L | G]; [exact L |].
    assert (2 ^ 52 <= 2 ^ (Zpos (digits2_pos p) - 1))
      by (apply Z.pow_le_mono_r; lia).
    change (2 ^ 52) with two52 in H. lia. }
  unfold Number.of_Z. rewrite of_uint63_spec, Uint63.of_Z_spec.
  rewrite Z.mod_small
    by (split; [lia |]; unfold two52 in Hp; change wB with 9223372036854775808; lia).
  cbn [binary_normalize]. unfold binary_round.
  set (d := Zpos (digits2_pos p)) in *.
  set (k := Z.to_pos (53 - d)).
  assert (Hk : Zpos k = 53 - d) by (unfold k; rewrite Z2Pos.id; lia).
  assert (Hf : fexp prec emax (d + 0) = Zneg k).
  { unfold fexp, SpecFloat.emin, prec, emax. rewrite <- Pos2Z.opp_pos, Hk. lia. }
  rewrite Hf. unfold shl_align. cbn [Z.sub Z.opp Z.add].
  rewrite binary_round_aux_finish.
  assert (Hdig : Zpos (digits2_pos (Pos.iter xO p k)) = 53).
  { rewrite digits_iter_xO, Pos2Z.inj_add, Hk. fold d. lia. }
  rewrite shr_fexp_53 by (assumption || (rewrite <- Pos2Z.opp_pos; lia)).
  cbn [fst snd shr_record_of_loc shr_m loc_of_shr_record round_nearest_even].
  rewrite finish_normal.
  - f_equal. rewrite <- Pos2Z.opp_pos, Hk. lia.
  - pose proof (digits_bounds (Pos.iter xO p k)) as B. rewrite Hdig in B.
    exact B.
  - rewrite <- Pos2Z.opp_pos. lia.
Qed.

(** The normalised mantissa [m = p * unit] and exponent [d - 53] of a
    positive integer with [d] binary digits. *)
Lemma normalised (p : positive) :
  Zpos p < two52 ->
  exists (m : positive) (unit d : Z),
    Prim2SF (Number.of_Z (Zpos p)) = S754_finite false m (d - 53) /\
    Zpos m = Zpos p * unit /\ unit = 2 ^ (53 - d) /\ 1 <= d <= 52 /\
    2 ^ (d - 1) <= Zpos p < 2 ^ d /\
    two52 <= Zpos m < two53.
Proof.
  intros Hp. pose proof (digits_bounds p) as Hb.
  assert (Hd : 1 <= Zpos (digits2_pos p) <= 52).
  { split; [lia |].
    destruct (Z.le_gt_cases (Zpos (digits2_pos p)) 52) as [L | G]; [exact L |].
    assert (2 ^ 52 <= 2 ^ (Zpos (digits2_pos p) - 1))
      by (apply Z.pow_le_mono_r; lia).
    change (2 ^ 52) with two52 in H. lia. }
  exists (Pos.iter xO p (Z.to_pos (53 - Zpos (digits2_pos p)))),
         (2 ^ (53 - Zpos (digits2_pos p))), (Zpos (digits2_pos p)).
  split; [now apply Prim2SF_of_Z |].
  split; [rewrite iter_xO_value, Z2Pos.id by lia; reflexivity |].
  split; [reflexivity |]. split; [exact Hd |]. split; [exact Hb |].
  pose proof (digits_bounds (Pos.iter xO p (Z.to_pos (53 - Zpos (digits2_pos p)))))
    as Hm.
  rewrite digits_iter_xO, Pos2Z.inj_add, Z2Pos.id in Hm by lia.
  replace (Z.pos (digits2_pos p) + (53 - Z.pos (digits2_pos p))) with 53 in Hm by lia.
  exact Hm.
Qed.

Lemma SFleb_finite (mc m : positive) (ec e : Z) :
  SFleb (S754_finite false mc ec) (S754_finite false m e)
  = (ec <? e) || ((ec =? e) && (Zpos mc <=? Zpos m)).
Proof.
  unfold SFleb, SFcompare.
  destruct (Z.compare_spec ec e) as [E | L | G].
  - subst. rewrite Z.ltb_irrefl, Z.eqb_refl. simpl.
    change (Pos.compare_cont Eq mc m) with (Pos.compare mc m).
    change (Zpos mc <=? Zpos m) with (Pos.leb mc m). unfold Pos.leb.
    destruct (Pos.compare mc m); reflexivity.
  - apply Z.ltb_lt in L. now rewrite L.
  - replace (ec <? e) with false by (symmetry; apply Z.ltb_ge; lia).
    replace (ec =? e) with false by (symmetry; apply Z.eqb_neq; lia).
    reflexivity.
Qed.

Lemma SFdiv_finite (ms mt : positive) (es et : Z) :
  two52 <= Zpos ms < two53 -> two52 <= Zpos mt < two53 ->
  -100 <= es <= 100 -> -100 <= et <= 100 ->
  SFdiv prec emax (S754_finite false ms es) (S754_finite false mt et)
  = binary_round_aux prec emax false
      (Zpos ms * two53 / Zpos mt) (es - et - 53)
      (new_location (Zpos mt) ((Zpos ms * two53) mod Zpos mt)).
Proof.
  intros Hs Ht Hes Het. unfold SFdiv, SFdiv_core_binary. cbn [Zdigits2 xorb].
  rewrite (digits_unique ms 53), (digits_unique mt 53)
    by (unfold two52, two53 in *; simpl; lia).
  assert (He : Z.min (fexp prec emax (53 + es - (53 + et))) (es - et)
               = es - et - 53).
  { unfold fexp, SpecFloat.emin, prec, emax. lia. }
  rewrite He.
  replace (es - et - (es - et - 53)) with 53 by lia.
  rewrite Z.shiftl_mul_pow2 by lia. change (2 ^ 53) with two53.
  unfold Z.div, Z.modulo.
  destruct (Z.div_eucl (Z.pos ms * two53) (Z.pos mt)) as [q r]. reflexivity.
Qed.

Lemma Prim2SF_threshold :
  Prim2SF PASSING_SCORE_PERCENTAGE = S754_finite false 6305039478318694 (-53).
Proof. vm_compute. reflexivity. Qed.

Lemma Prim2SF_zero : Prim2SF PrimFloat.zero = S754_zero false.
Proof. vm_compute. reflexivity. Qed.

Lemma bool_eq_leb (b : bool) (x y : Z) : (b = true <-> x <= y) -> b = (x <=? y).
Proof.
  intros H. destruct (Z.leb_spec x y) as [L | G].
  - now apply H.
  - destruct b; [| reflexivity]. assert (x <= y) by now apply H. lia.
Qed.

(** *** Where the rounded quotient falls relative to the threshold

    [ms] and [mt] are the mantissas of the score and of the total, [q] and
    [r] the quotient and remainder of [ms * 2^53] by [mt].  The total is
    [mt = total * unit] with [unit >= 2^21], since the total is below 2^32:
    a ratio that differs from 7/10 differs by far more than half a unit in
    the last place. *)

Section Threshold.
Variables score total unit ms mt q r : Z.
Hypothesis Hunit : 2097152 <= unit.
Hypothesis Hmt : 4503599627370496 <= mt < 9007199254740992.
Hypothesis Hms : 4503599627370496 <= ms < 9007199254740992.
Hypothesis Hqr : ms * 9007199254740992 = mt * q + r.
Hypothesis Hr : 0 <= r < mt.
Hypothesis Htotal : mt = total * unit.

Lemma quotient_ge (K : Z) : K <= q -> K * mt <= mt * q.
Proof. intros H. rewrite (Z.mul_comm K). apply Z.mul_le_mono_nonneg_l; lia. Qed.

Lemma quotient_le (K : Z) : q <= K -> mt * q <= K * mt.
Proof. intros H. rewrite (Z.mul_comm K). apply Z.mul_le_mono_nonneg_l; lia. Qed.

Lemma quotient_53 : ms < mt -> 4503599627370496 <= q < 9007199254740992.
Proof.
  intros Hlt. split.
  - destruct (Z_lt_le_dec q 4503599627370496) as [C | C]; [| exact C].
    assert (H : q <= 4503599627370495) by lia. apply quotient_le in H. lia.
  - destruct (Z_lt_le_dec q 9007199254740992) as [C | C]; [exact C |].
    apply quotient_ge in C. lia.
Qed.

Lemma quotient_54 : mt <= ms -> 9007199254740992 <= q < 18014398509481984.
Proof.
  intros Hge. split.
  - destruct (Z_lt_le_dec q 9007199254740992) as [C | C]; [| exact C].
    assert (H : q <= 9007199254740991) by lia. apply quotient_le in H. lia.
  - destruct (Z_lt_le_dec q 18014398509481984) as [C | C]; [exact C |].
    apply quotient_ge in C. lia.
Qed.

(** Score and total have the same number of binary digits. *)
Section SameDigits.
Hypothesis Hscore : ms = score * unit.

Lemma same_below : 10 * score < 7 * total -> 10 * ms <= 7 * mt - unit.
Proof.
  intros H. assert ((10 * score + 1) * unit <= 7 * total * unit)
    by (apply Z.mul_le_mono_nonneg_r; lia).
  rewrite Hscore, Htotal. lia.
Qed.

Lemma same_above : 7 * total <= 10 * score -> 7 * mt <= 10 * ms.
Proof.
  intros H. assert (7 * total * unit <= 10 * score * unit)
    by (apply Z.mul_le_mono_nonneg_r; lia).
  rewrite Hscore, Htotal. lia.
Qed.

Lemma same_53 (m e' : Z) :
  ms < mt ->
  (e' = -53 /\ (m = q \/ (m = q + 1 /\ mt <= 2 * r))) \/
  (e' = -52 /\ m = 4503599627370496 /\ q + 1 = 9007199254740992) ->
  (-53 < e' \/ -53 = e' /\ threshold <= m) <-> 7 * total <= 10 * score.
Proof.
  intros Hlt Hres. unfold threshold.
  pose proof (quotient_ge 6305039478318694) as G1.
  pose proof (quotient_le 6305039478318693) as L1.
  pose proof (quotient_ge 6305039478318693) as G2.
  pose proof (quotient_ge 9007199254740991) as G3.
  destruct (Z_lt_le_dec (10 * score) (7 * total)) as [Lo | Hi].
  - pose proof (same_below Lo) as Hb. split; [| lia]. intros Hleb. exfalso.
    destruct Hres as [[He [Hm | [Hm Hlq]]] | [He [Hm Hq1]]].
    + assert (6305039478318694 <= q) by lia. specialize (G1 H). lia.
    + assert (6305039478318693 <= q) by lia. specialize (G2 H). lia.
    + assert (9007199254740991 <= q) by lia. specialize (G3 H). lia.
  - pose proof (same_above Hi) as Ha. split; [intros _; exact Hi |]. intros _.
    destruct Hres as [[He [Hm | [Hm Hlq]]] | [He [Hm Hq1]]]; [| | lia].
    + right. split; [lia |]. subst m.
      destruct (Z_lt_le_dec q 6305039478318694) as [C | C]; [| exact C].
      assert (q <= 6305039478318693) by lia. specialize (L1 H). lia.
    + right. split; [lia |]. subst m.
      destruct (Z_lt_le_dec q 6305039478318694) as [C | C]; [| lia].
      assert (q <= 6305039478318693) by lia. specialize (L1 H). lia.
Qed.

Lemma same_54 (m e' : Z) :
  mt <= ms -> -52 <= e' ->
  (-53 < e' \/ -53 = e' /\ threshold <= m) <-> 7 * total <= 10 * score.
Proof.
  intros Hge He.
  assert (total * unit <= score * unit) by (rewrite <- Hscore, <- Htotal; exact Hge).
  assert (total <= score) by (apply (Z.mul_le_mono_pos_r _ _ unit); lia).
  split; intros; lia.
Qed.

End SameDigits.

(** The total has one binary digit more than the score. *)
Section OneDigitApart.
Hypothesis Hscore : ms = score * (2 * unit).

Lemma apart_below : 10 * score < 7 * total -> 5 * ms <= 7 * mt - unit.
Proof.
  intros H. assert ((10 * score + 1) * unit <= 7 * total * unit)
    by (apply Z.mul_le_mono_nonneg_r; lia).
  rewrite Hscore, Htotal. lia.
Qed.

Lemma apart_above : 7 * total <= 10 * score -> 7 * mt <= 5 * ms.
Proof.
  intros H. assert (7 * total * unit <= 10 * score * unit)
    by (apply Z.mul_le_mono_nonneg_r; lia).
  rewrite Hscore, Htotal. lia.
Qed.

Lemma apart_53 (m e' : Z) :
  ms < mt -> 0 <= score ->
  (e' = -54 /\ (m = q \/ (m = q + 1 /\ mt <= 2 * r))) \/
  (e' = -53 /\ m = 4503599627370496 /\ q + 1 = 9007199254740992) ->
  (-53 < e' \/ -53 = e' /\ threshold <= m) <-> 7 * total <= 10 * score.
Proof.
  intros Hlt HS0 Hres. unfold threshold.
  assert (score * (2 * unit) < total * unit)
    by (rewrite <- Hscore, <- Htotal; exact Hlt).
  assert (2 * score < total) by (apply (Z.mul_lt_mono_pos_r unit); lia).
  split; [intros Hleb; exfalso; lia | intros; lia].
Qed.

Lemma apart_54 (m e' : Z) :
  mt <= ms ->
  (e' = -53 /\ (m = q / 2 \/ (m = q / 2 + 1 /\ Z.odd q = true))) \/
  (e' = -52 /\ m = 4503599627370496 /\ q / 2 + 1 = 9007199254740992) ->
  (-53 < e' \/ -53 = e' /\ threshold <= m) <-> 7 * total <= 10 * score.
Proof.
  intros Hge Hres. unfold threshold.
  pose proof (quotient_ge 12610078956637387) as G1.
  pose proof (quotient_le 12610078956637387) as L1.
  pose proof (quotient_ge 18014398509481982) as G3.
  pose proof (Z.div_mod q 2 ltac:(lia)) as Hh.
  pose proof (Z.mod_pos_bound q 2 ltac:(lia)) as Hh2.
  assert (Hodd : Z.odd q = true -> q mod 2 = 1)
    by (intros Ho; now rewrite Zmod_odd, Ho).
  destruct (Z_lt_le_dec (10 * score) (7 * total)) as [Lo | Hi].
  - pose proof (apart_below Lo) as Hb. split; [| lia]. intros Hleb. exfalso.
    destruct Hres as [[He [Hm | [Hm Ho]]] | [He [Hm Hq1]]].
    + assert (12610078956637387 <= q) by lia. specialize (G1 H). lia.
    + specialize (Hodd Ho).
      assert (12610078956637387 <= q) by lia. specialize (G1 H). lia.
    + assert (18014398509481982 <= q) by lia. specialize (G3 H). lia.
  - pose proof (apart_above Hi) as Ha. split; [intros _; exact Hi |]. intros _.
    destruct Hres as [[He [Hm | [Hm Ho]]] | [He [Hm Hq1]]]; [| | lia].
    + right. split; [lia |]. subst m.
      destruct (Z_lt_le_dec q 12610078956637388) as [C | C]; [| lia].
      assert (q <= 12610078956637387) by lia. specialize (L1 H). lia.
    + right. split; [lia |]. subst m.
      destruct (Z_lt_le_dec q 12610078956637388) as [C | C]; [| lia].
      assert (q <= 12610078956637387) by lia. specialize (L1 H). lia.
Qed.

End OneDigitApart.

End Threshold.

(** The total has at least two binary digits more: the ratio is below 1/2. *)
Lemma far_below (score total e m e' : Z) :
  0 <= score -> 2 * score < total -> e <= -55 ->
  e' <= e + 1 \/ (e' = e + 2 /\ m = 4503599627370496) ->
  (-53 < e' \/ -53 = e' /\ threshold <= m) <-> 7 * total <= 10 * score.
Proof. unfold threshold. intros. split; intros; lia. Qed.

(** The score has more binary digits than the total: the ratio is above 1. *)
Lemma far_above (score total e m e' : Z) :
  0 < total <= score -> -52 <= e -> e <= e' ->
  (-53 < e' \/ -53 = e' /\ threshold <= m) <-> 7 * total <= 10 * score.
Proof. intros. split; intros; lia. Qed.

(** The verdict of the binary64 test on two counts below 2^32. *)
Theorem passed_decides (score total : Z) :
  0 < total < 2 ^ 32 -> 0 <= score < 2 ^ 32 ->
  passed score total = (7 * total <=? 10 * score).
Proof.
  intros HT Hs. change (2 ^ 32) with 4294967296 in HT, Hs.
  unfold passed, Number.geq, Number.div.
  rewrite leb_spec, div_spec, Prim2SF_threshold.
  destruct total as [| pt | pt]; try lia.
  destruct (normalised pt) as (mt & B & dt & Ht & Hmt & HB & Hdt & HTd & Hmtr);
    [unfold two52; lia |].
  rewrite Ht.
  destruct score as [| ps | ps]; try lia.
  - cbn [Number.of_Z]. rewrite Prim2SF_zero. reflexivity.
  - destruct (normalised ps) as (ms & A & ds & Hsf & Hms & HA & Hds & Hsd & Hmsr);
      [unfold two52; lia |].
    rewrite Hsf. unfold SF64div. rewrite SFdiv_finite by (assumption || lia).
    assert (Hdt32 : dt <= 32).
    { assert (dt - 1 < 32).
      { apply (Z.pow_lt_mono_r_iff 2); [lia | lia |].
        change (2 ^ 32) with 4294967296. lia. }
      lia. }
    assert (HB21 : 2097152 <= B).
    { rewrite HB. change 2097152 with (2 ^ 21). apply pow2_le. lia. }
    assert (Heven : Z.even (Zpos mt) = true).
    { rewrite Hmt, HB, Z.even_mul.
      replace (53 - dt) with (Z.succ (52 - dt)) by lia.
      rewrite Z.pow_succ_r, Z.even_mul by lia. simpl. apply orb_true_r. }
    assert (Hgap : (ds = dt /\ A = B) \/ (ds = dt - 1 /\ A = 2 * B) \/
                   (ds <= dt - 2 /\ 2 * Zpos ps < Zpos pt) \/
                   (dt < ds /\ Zpos pt <= Zpos ps)).
    { destruct (Z.eq_dec ds dt) as [E | NE]; [left; split; [exact E | congruence] |].
      destruct (Z.eq_dec ds (dt - 1)) as [E1 | NE1].
      - right; left. split; [exact E1 |]. rewrite HA, HB, E1.
        replace (53 - (dt - 1)) with (Z.succ (53 - dt)) by lia.
        rewrite Z.pow_succ_r by lia. reflexivity.
      - destruct (Z_lt_le_dec dt ds) as [G | L].
        + right; right; right. split; [exact G |].
          assert (2 ^ dt <= 2 ^ (ds - 1)) by (apply pow2_le; lia). lia.
        + right; right; left. split; [lia |].
          assert (2 ^ (ds + 1) <= 2 ^ (dt - 1)) by (apply pow2_le; lia).
          rewrite Z.pow_add_r in H by lia. change (2 ^ 1) with 2 in H. lia. }
    pose proof (Z.div_mod (Zpos ms * two53) (Zpos mt) ltac:(lia)) as Hqr.
    pose proof (Z.mod_pos_bound (Zpos ms * two53) (Zpos mt) ltac:(lia)) as Hr.
    pose proof (new_location_even_half (Zpos mt) ((Zpos ms * two53) mod Zpos mt)
                  Heven) as Hl.
    remember (new_location (Zpos mt) ((Zpos ms * two53) mod Zpos mt)) as l eqn:El.
    remember ((Zpos ms * two53) mod Zpos mt) as r eqn:Er.
    remember (Zpos ms * two53 / Zpos mt) as q eqn:Eq.
    clear El Er Eq Hsf Ht HA HB Hsd HTd.
    unfold two52, two53 in *.
    destruct (Z_lt_le_dec (Zpos ms) (Zpos mt)) as [Hlt | Hge].
    + (* the quotient has 53 digits *)
      pose proof (quotient_53 (Zpos ms) (Zpos mt) q r Hmtr Hmsr Hqr Hr Hlt) as Hq.
      destruct q as [| qp | qp]; try lia.
      destruct (round_53 qp (ds - 53 - (dt - 53) - 53) l) as (m & e' & -> & Hres);
        [unfold two52, two53; lia | lia |].
      rewrite SFleb_finite. apply bool_eq_leb.
      rewrite orb_true_iff, andb_true_iff, Z.ltb_lt, Z.eqb_eq, Z.leb_le.
      unfold two52, two53 in Hres.
      destruct Hgap as [[Ed EA] | [[Ed EA] | [[Ed E2] | [Ed E2]]]].
      * apply (same_53 (Zpos ps) (Zpos pt) B (Zpos ms) (Zpos mt) (Zpos qp) r);
          try assumption; try lia.
        destruct Hres as [[He [Hm | [Hm Hlq]]] | [He [Hm Hq1]]];
          [left | left | right]; repeat split; try lia.
        right. split; [exact Hm | exact (Hl Hlq)].
      * apply (apart_53 (Zpos ps) (Zpos pt) B (Zpos ms) (Zpos mt) (Zpos qp) r);
          try assumption; try lia.
        destruct Hres as [[He [Hm | [Hm Hlq]]] | [He [Hm Hq1]]];
          [left | left | right]; repeat split; try lia.
        right. split; [exact Hm | exact (Hl Hlq)].
      * apply (far_below (Zpos ps) (Zpos pt) (ds - 53 - (dt - 53) - 53));
          try lia.
      * apply (far_above (Zpos ps) (Zpos pt) (ds - 53 - (dt - 53) - 53));
          try lia.
    + (* the quotient has 54 digits *)
      pose proof (quotient_54 (Zpos ms) (Zpos mt) q r Hmtr Hmsr Hqr Hr Hge) as Hq.
      destruct q as [| qp | qp]; try lia.
      destruct (round_54 qp (ds - 53 - (dt - 53) - 53) l) as (m & e' & -> & Hres);
        [unfold two53, two54; lia | lia |].
      rewrite SFleb_finite. apply bool_eq_leb.
      rewrite orb_true_iff, andb_true_iff, Z.ltb_lt, Z.eqb_eq, Z.leb_le.
      unfold two52, two53 in Hres.
      destruct Hgap as [[Ed EA] | [[Ed EA] | [[Ed E2] | [Ed E2]]]].
      * apply (same_54 (Zpos ps) (Zpos pt) B (Zpos ms) (Zpos mt));
          try assumption; try lia.
      * apply (apart_54 (Zpos ps) (Zpos pt) B (Zpos ms) (Zpos mt) (Zpos qp) r);
          try assumption; try lia.
        destruct Hres as [[He Hm] | [He Hm]]; [left | right];
          (split; [lia | exact Hm]).
      * apply (far_below (Zpos ps) (Zpos pt) (ds - 53 - (dt - 53) - 53));
          try lia.
      * apply (far_above (Zpos ps) (Zpos pt) (ds - 53 - (dt - 53) - 53));
          try lia.
Qed.

End Binary64Facts.

(* ================================================================= *)
(** ** The pass threshold *)

Lemma passed_iff (score total : Z) :
  0 < total < 2 ^ 32 -> 0 <= score < 2 ^ 32 ->
  passed score total = true <-> 7 * total <= 10 * score.
Proof.
  intros Ht Hs. rewrite Binary64Facts.passed_decides by assumption.
  apply Z.leb_le.
Qed.

(** The exact reading: the ratio is at least 70/100. *)
Lemma passRatio_iff (finalScore total : Z) :
  0 < total ->
  (passingThreshold <= passRatio finalScore total)%Q <->
  7 * total <= 10 * finalScore.
Proof.
  intros Ht. unfold passingThreshold, passRatio.
  destruct total as [| t | t]; try lia.
  unfold Qle, Qdiv, Qmult, Qinv, inject_Z. simpl Qnum. simpl Qden.
  lia.
Qed.

(* ================================================================= *)
(** ** The quiz session *)

Module SessionFacts.
Import ActiveQuiz.

Ltac open_state s :=
  destruct s as [i sc sel sr pa tm]; unfold sound in *; cbn [currentQuestionIndex
    score selectedOption showResult pendingAdvance timer] in *.

Lemma currentQuestion_defined (p : Props) (s : State) :
  0 <= currentQuestionIndex s < totalQuestions p ->
  exists q, currentQuestion p s = Some q.
Proof.
  unfold currentQuestion, totalQuestions. intros [H0 HN].
  replace (currentQuestionIndex s <? 0) with false
    by (symmetry; apply Z.ltb_ge; exact H0).
  destruct (nth_error (quizData p) (Z.to_nat (currentQuestionIndex s))) eqn:E.
  - now exists q.
  - apply nth_error_None in E. lia.
Qed.

Lemma currentQuestion_inside (p : Props) (s : State) (q : QuizQuestion) :
  currentQuestion p s = Some q ->
  0 <= currentQuestionIndex s < totalQuestions p.
Proof.
  unfold currentQuestion, totalQuestions.
  destruct (currentQuestionIndex s <? 0) eqn:E; [discriminate |].
  apply Z.ltb_ge in E. intros H.
  assert (Hn : nth_error (quizData p) (Z.to_nat (currentQuestionIndex s)) <> None)
    by congruence.
  apply nth_error_Some in Hn. lia.
Qed.

Lemma render_sound (p : Props) (s : State) : sound p s -> render p s = Mounted s.
Proof.
  intros H. unfold render.
  destruct (currentQuestion_defined p s) as [q ->]; [| reflexivity].
  unfold sound in H. lia.
Qed.

Lemma initial_sound (p : Props) : quizData p <> [] -> sound p initial.
Proof.
  intros H. unfold sound, totalQuestions. simpl.
  destruct (quizData p); [congruence |]. simpl length. repeat split; lia.
Qed.

Lemma handleAnswerSelect_sound (p : Props) (s : State) (o : string) :
  sound p s -> sound p (handleAnswerSelect o s).
Proof.
  intros H. unfold handleAnswerSelect.
  destruct (showResult s) eqn:E; [exact H |].
  open_state s. unfold isLastQuestion in *. simpl in *. subst sr. exact H.
Qed.

Lemma handleNext_sound (p : Props) (s : State) :
  sound p s -> exists s', handleNext p s = Some s' /\ sound p s'.
Proof.
  intros H. unfold handleNext.
  destruct (falsy (selectedOption s) || showResult s || pendingAdvance s) eqn:G.
  - now exists s.
  - destruct (selectedOption s) as [selected |] eqn:Es; [| discriminate G].
    destruct (currentQuestion_defined p s) as [q Hq];
      [unfold sound in H; lia |].
    rewrite Hq. eexists. split; [reflexivity |].
    apply orb_false_iff in G. destruct G as [G Gp].
    apply orb_false_iff in G. destruct G as [_ Gs].
    open_state s. unfold isLastQuestion. simpl in *.
    destruct (String.eqb selected (answer q)); repeat split; try lia;
      reflexivity.
Qed.

Lemma timeoutFires_sound (p : Props) (s s' : State) :
  sound p s -> timeoutFires p s = (s', None) -> sound p s'.
Proof.
  intros H. unfold timeoutFires.
  destruct (timer s) as [t |] eqn:Et.
  - destruct (t_isLastQuestion t) eqn:El; [discriminate |].
    intros E. injection E as <-.
    open_state s. unfold isLastQuestion in *. simpl in *. subst tm.
    destruct H as (Hs & Hi & Hp & _ & Hl & Hf).
    rewrite El in Hl. symmetry in Hl. apply Z.eqb_neq in Hl.
    repeat split; try lia; reflexivity.
  - intros E. injection E as <-. exact H.
Qed.

Lemma timeoutFires_reports (p : Props) (s s' : State) (c : Completion) :
  sound p s -> timeoutFires p s = (s', Some c) -> wellReported p c.
Proof.
  intros H. unfold timeoutFires.
  destruct (timer s) as [t |] eqn:Et; [| discriminate].
  destruct (t_isLastQuestion t) eqn:El; [| discriminate].
  intros E. injection E as _ <-. right. exists (t_finalScore t).
  split; [reflexivity |].
  open_state s. unfold isLastQuestion in *. simpl in *. subst tm.
  destruct H as (Hs & Hi & Hp & _ & Hl & Hf).
  rewrite El in Hl. symmetry in Hl. apply Z.eqb_eq in Hl. lia.
Qed.

Lemma step_ok (p : Props) (x : Session) (e : Event) :
  sessionOk p x -> sessionOk p (step p x e).
Proof.
  destruct x as [s | c |]; simpl; intros H; [| exact H | exact H].
  destruct e as [o | | | |].
  - apply handleAnswerSelect_sound with (o := o) in H.
    now rewrite render_sound.
  - destruct (handleNext_sound p s H) as [s' [-> Hs']].
    now rewrite render_sound.
  - destruct (timeoutFires p s) as [s' [c |]] eqn:E.
    + exact (timeoutFires_reports p s s' c H E).
    + apply (timeoutFires_sound p s s' H) in E. now rewrite render_sound.
  - now left.
  - destruct (quizData p) as [| q qs] eqn:E.
    + unfold render, currentQuestion. simpl. rewrite E. exact E.
    + rewrite render_sound; apply initial_sound; congruence.
Qed.

Lemma run_ok (p : Props) (es : list Event) (x : Session) :
  sessionOk p x -> sessionOk p (run p x es).
Proof.
  revert x. induction es as [| e es IH]; intros x H; simpl.
  - exact H.
  - apply IH, step_ok, H.
Qed.

Lemma start_ok (p : Props) (es : list Event) : sessionOk p (start p es).
Proof.
  unfold start. apply run_ok.
  destruct (quizData p) as [| q qs] eqn:E.
  - unfold render, currentQuestion. simpl. rewrite E. exact E.
  - rewrite render_sound; apply initial_sound; congruence.
Qed.

(** A bank with at least one question never crashes the component. *)
Lemma start_no_crash (p : Props) (es : list Event) :
  quizData p <> [] -> start p es <> Crashed.
Proof.
  intros H E. pose proof (start_ok p es) as Hok. rewrite E in Hok.
  exact (H Hok).
Qed.

(** *** Playing the bank through, one answer per question *)

Lemma currentQuestion_at (p : Props) (pre qs : list QuizQuestion)
    (q : QuizQuestion) (s : State) :
  quizData p = pre ++ q :: qs ->
  currentQuestionIndex s = Z.of_nat (length pre) ->
  currentQuestion p s = Some q.
Proof.
  intros Hd Hi. unfold currentQuestion. rewrite Hi, Hd.
  replace (Z.of_nat (length pre) <? 0) with false by (symmetry; apply Z.ltb_ge; lia).
  rewrite Nat2Z.id, nth_error_app2 by lia.
  now rewrite Nat.sub_diag.
Qed.

Lemma isLastQuestion_at (p : Props) (pre qs : list QuizQuestion)
    (q : QuizQuestion) (s : State) :
  quizData p = pre ++ q :: qs ->
  currentQuestionIndex s = Z.of_nat (length pre) ->
  isLastQuestion p s = match qs with [] => true | _ => false end.
Proof.
  intros Hd Hi. unfold isLastQuestion, totalQuestions.
  rewrite Hi, Hd, length_app. simpl length.
  destruct qs; simpl length; [apply Z.eqb_eq | apply Z.eqb_neq]; lia.
Qed.

(** One round on a fresh question: select, submit, let the timer fire. *)
Lemma round (p : Props) (pre qs : list QuizQuestion) (q : QuizQuestion)
    (a : string) (sc : Z) :
  quizData p = pre ++ q :: qs ->
  a <> "" ->
  let scoreAfter := sc + (if String.eqb a (answer q) then 1 else 0) in
  run p (Mounted (mkState (Z.of_nat (length pre)) sc None false false None))
      [Select a; Next; Tick]
  = match qs with
    | [] => Reported (mkCompletion (Some (category p)) (Some scoreAfter)
                        (Some (totalQuestions p)))
    | _ => Mounted (mkState (Z.of_nat (length pre) + 1) scoreAfter None
                      false false None)
    end.
Proof.
  intros Hd Ha scoreAfter.
  assert (Hne : String.eqb a "" = false) by (now apply String.eqb_neq).
  pose proof (currentQuestion_at p pre qs q) as Hq.
  pose proof (isLastQuestion_at p pre qs q) as Hl.
  unfold run. cbn [fold_left].
  (* Select *)
  unfold step at 3. unfold handleAnswerSelect.
  cbn [showResult currentQuestionIndex score pendingAdvance timer].
  unfold render at 1. rewrite Hq by (assumption || reflexivity).
  (* Next *)
  unfold step at 2. unfold handleNext, falsy, truthy.
  cbn [selectedOption showResult pendingAdvance currentQuestionIndex score].
  rewrite Hne. cbn [negb orb].
  rewrite Hq, Hl by (assumption || reflexivity).
  unfold render at 1. rewrite Hq by (assumption || reflexivity).
  (* Tick *)
  unfold step, timeoutFires.
  cbn [timer t_isLastQuestion t_finalScore score currentQuestionIndex].
  destruct qs as [| q' qs']; [reflexivity |].
  unfold render.
  rewrite (currentQuestion_at p (pre ++ [q]) qs' q');
    [reflexivity | now rewrite <- app_assoc |].
  cbn [currentQuestionIndex]. rewrite length_app. simpl length. lia.
Qed.

Lemma run_app (p : Props) (x : Session) (es es' : list Event) :
  run p x (es ++ es') = run p (run p x es) es'.
Proof. apply fold_left_app. Qed.

Lemma play_from (p : Props) (qs : list QuizQuestion) :
  forall (pre : list QuizQuestion) (answers : list string) (sc : Z),
  quizData p = pre ++ qs ->
  qs <> [] ->
  length answers = length qs ->
  Forall (fun a => a <> "") answers ->
  run p (Mounted (mkState (Z.of_nat (length pre)) sc None false false None))
      (play answers)
  = Reported (mkCompletion (Some (category p))
                (Some (sc + correctAnswers qs answers))
                (Some (totalQuestions p))).
Proof.
  induction qs as [| q qs IH]; intros pre answers sc Hd Hne Hlen Hall;
    [congruence |].
  destruct answers as [| a answers]; [discriminate Hlen |].
  inversion Hall as [| ? ? Ha Hall']; subst.
  change (play (a :: answers)) with ([Select a; Next; Tick] ++ play answers).
  rewrite run_app, (round p pre qs q a sc Hd Ha).
  destruct qs as [| q' qs'].
  - destruct answers; [| discriminate Hlen]. simpl. now rewrite Z.add_0_r.
  - replace (Z.of_nat (length pre) + 1) with (Z.of_nat (length (pre ++ [q])))
      by (rewrite length_app; simpl length; lia).
    rewrite IH.
    + cbn [correctAnswers]. now rewrite Z.add_assoc.
    + now rewrite <- app_assoc.
    + discriminate.
    + simpl in Hlen |- *. lia.
    + exact Hall'.
Qed.

(** A full play of a non-empty bank completes, and reports the number of
    correct answers out of the number of questions. *)
Lemma play_reports (p : Props) (answers : list string) :
  quizData p <> [] ->
  length answers = length (quizData p) ->
  Forall (fun a => a <> "") answers ->
  start p (play answers)
  = Reported (mkCompletion (Some (category p))
                (Some (correctAnswers (quizData p) answers))
                (Some (totalQuestions p))).
Proof.
  intros Hne Hlen Hall. unfold start.
  rewrite render_sound by (now apply initial_sound).
  apply (play_from p (quizData p) [] answers 0); auto.
Qed.

End SessionFacts.

Section SubmitAndAdvance.
Import ActiveQuiz.

Lemma handleNext_guard (p : Props) (s : State) :
  handleNext p s <> Some s ->
  exists selected,
    selectedOption s = Some selected /\ selected <> "" /\
    showResult s = false /\ pendingAdvance s = false.
Proof.
  unfold handleNext. intros H.
  destruct (falsy (selectedOption s) || showResult s || pendingAdvance s) eqn:G;
    [congruence |].
  apply orb_false_iff in G. destruct G as [G Gp].
  apply orb_false_iff in G. destruct G as [Gf Gs].
  destruct (selectedOption s) as [selected |]; [| discriminate Gf].
  exists selected. repeat split; try assumption.
  unfold falsy, truthy in Gf. intros ->. discriminate Gf.
Qed.

Lemma handleNext_submits (p : Props) (s : State) (selected : string)
    (q : QuizQuestion) :
  selectedOption s = Some selected -> selected <> "" ->
  showResult s = false -> pendingAdvance s = false ->
  currentQuestion p s = Some q ->
  handleNext p s =
    Some (mkState (currentQuestionIndex s) (score s) (Some selected) true true
            (Some (mkTimeout (isLastQuestion p s)
                     (score s + (if String.eqb selected (answer q) then 1 else 0))))).
Proof.
  intros Hsel Hne Hs Hp Hq. unfold handleNext, falsy, truthy.
  rewrite Hsel, Hs, Hp, Hq.
  apply String.eqb_neq in Hne. rewrite Hne. reflexivity.
Qed.

(** C1: in every state a session reaches, the submit is accepted only with a
    selection present and the answer not yet revealed; an accepted submit
    compares the selection with the question's answer by string equality,
    schedules the score plus one when they are equal and the score
    otherwise, and reveals the result; when the timer then fires, the last
    question ([i = N - 1]) completes the session with that score out of
    [N], and any other question moves on to [i + 1] with that score, no
    selection and the result hidden. *)
Theorem C1_submit_scores_and_advances (p : Props) (es : list Event) (s : State) :
  start p es = Mounted s ->
  (step p (Mounted s) Next <> Mounted s ->
   exists selected,
     selectedOption s = Some selected /\ selected <> "" /\
     showResult s = false) /\
  (forall selected : string,
     selectedOption s = Some selected -> selected <> "" ->
     showResult s = false ->
     exists (q : QuizQuestion) (scoreAfter : Z),
       currentQuestion p s = Some q /\
       (selected = answer q -> scoreAfter = score s + 1) /\
       (selected <> answer q -> scoreAfter = score s + 0) /\
       start p (es ++ [Next])
       = Mounted (mkState (currentQuestionIndex s) (score s) (Some selected)
                    true true
                    (Some (mkTimeout (isLastQuestion p s) scoreAfter))) /\
       (currentQuestionIndex s = totalQuestions p - 1 ->
        start p (es ++ [Next; Tick])
        = Reported (mkCompletion (Some (category p)) (Some scoreAfter)
                      (Some (totalQuestions p)))) /\
       (currentQuestionIndex s <> totalQuestions p - 1 ->
        start p (es ++ [Next; Tick])
        = Mounted (mkState (currentQuestionIndex s + 1) scoreAfter None
                     false false None))).
Proof.
  intros Hrun.
  pose proof (SessionFacts.start_ok p es) as Hok. rewrite Hrun in Hok.
  simpl in Hok.
  split.
  - intros Hstep.
    assert (Hn : handleNext p s <> Some s).
    { intros E. apply Hstep. simpl. rewrite E.
      now apply SessionFacts.render_sound. }
    destruct (handleNext_guard p s Hn) as (sel & H1 & H2 & H3 & _).
    now exists sel.
  - intros selected Hsel Hne Hs.
    assert (Hp : pendingAdvance s = false).
    { destruct Hok as (_ & _ & Hsp & _). congruence. }
    destruct (SessionFacts.currentQuestion_defined p s) as [q Hq];
      [unfold sound in Hok; lia |].
    exists q, (score s + (if String.eqb selected (answer q) then 1 else 0)).
    pose proof (handleNext_submits p s selected q Hsel Hne Hs Hp Hq) as Hnext.
    destruct (SessionFacts.handleNext_sound p s Hok) as (s1 & Hs1 & Hsound1).
    rewrite Hnext in Hs1. injection Hs1 as <-.
    assert (Hstep1 : start p (es ++ [Next])
                     = Mounted (mkState (currentQuestionIndex s) (score s)
                                  (Some selected) true true
                                  (Some (mkTimeout (isLastQuestion p s)
                                     (score s +
                                      (if String.eqb selected (answer q)
                                       then 1 else 0)))))).
    { unfold start in *. rewrite SessionFacts.run_app, Hrun. simpl.
      rewrite Hnext. now apply SessionFacts.render_sound. }
    split; [exact Hq |].
    split; [intros ->; now rewrite String.eqb_refl |].
    split; [intros Hd; apply String.eqb_neq in Hd; now rewrite Hd |].
    split; [exact Hstep1 |].
    change (es ++ [Next; Tick]) with (es ++ [Next] ++ [Tick]).
    rewrite app_assoc. unfold start in *.
    rewrite SessionFacts.run_app, Hstep1. unfold isLastQuestion.
    split.
    + intros Hl. apply Z.eqb_eq in Hl. simpl. unfold timeoutFires.
      cbn [timer t_isLastQuestion t_finalScore]. now rewrite Hl.
    + intros Hl.
      assert (Hl' := Hl). apply Z.eqb_neq in Hl'. simpl. unfold timeoutFires.
      cbn [timer t_isLastQuestion t_finalScore currentQuestionIndex].
      rewrite Hl'. apply SessionFacts.render_sound.
      apply (SessionFacts.timeoutFires_sound p _ _ Hsound1).
      unfold timeoutFires, isLastQuestion.
      cbn [timer t_isLastQuestion t_finalScore currentQuestionIndex].
      now rewrite Hl'.
Qed.

End SubmitAndAdvance.

(** The second Physics question, after a right first answer, with "Ampere"
    chosen. *)
Lemma C1_witness :
  ActiveQuiz.start physics
    ([ActiveQuiz.Select "Principle of Conservation of Momentum";
      ActiveQuiz.Next; ActiveQuiz.Tick; ActiveQuiz.Select "Ampere"]
     ++ [ActiveQuiz.Next; ActiveQuiz.Tick])
  = ActiveQuiz.Mounted (ActiveQuiz.mkState 2 2 None false false None).
Proof.
  destruct (proj2 (C1_submit_scores_and_advances physics
              [ActiveQuiz.Select "Principle of Conservation of Momentum";
               ActiveQuiz.Next; ActiveQuiz.Tick; ActiveQuiz.Select "Ampere"]
              (ActiveQuiz.mkState 1 1 (Some "Ampere") false false None)
              eq_refl)
            "Ampere" eq_refl ltac:(discriminate) eq_refl)
    as (q & scoreAfter & Hq & Heq & _ & _ & _ & Hadv).
  injection Hq as <-.
  rewrite Hadv by (simpl; discriminate).
  rewrite Heq by reflexivity. reflexivity.
Defined.

(* ================================================================= *)
(** ** What is on screen *)

Module RenderFacts.
Import App.

Lemma selection_view_active (s : State) (p : ActiveQuiz.Props) :
  QuizCategorySelectionView s = ActiveQuizView p ->
  activeQuizCategory s = Some (ActiveQuiz.category p) /\
  ActiveQuiz.category p <> "" /\
  lookupQuiz QUIZ_DATA (ActiveQuiz.category p) = Some (ActiveQuiz.quizData p).
Proof.
  unfold QuizCategorySelectionView.
  destruct (activeQuizCategory s) as [c |]; [| discriminate].
  destruct (String.eqb c "") eqn:Ec; [discriminate |].
  unfold getProperty.
  destruct (lookupQuiz QUIZ_DATA c) as [qd |] eqn:El;
    [| destruct (inherited c); discriminate].
  intros H. injection H as <-. simpl.
  apply String.eqb_neq in Ec. auto.
Qed.

Lemma renderContent_active (s : State) (p : ActiveQuiz.Props) :
  renderContent s = ActiveQuizView p ->
  appState s = quiz /\ QuizCategorySelectionView s = ActiveQuizView p.
Proof.
  unfold renderContent. destruct (appState s); try discriminate. auto.
Qed.

Lemma render_active (s : State) (p : ActiveQuiz.Props) :
  render s = ActiveQuizView p ->
  appState s = quiz /\
  activeQuizCategory s = Some (ActiveQuiz.category p) /\
  lookupQuiz QUIZ_DATA (ActiveQuiz.category p) = Some (ActiveQuiz.quizData p).
Proof.
  unfold render. destruct (isLoading s); [discriminate |].
  intros H.
  assert (Hc : renderContent s = ActiveQuizView p).
  { destruct (error s) as [m |]; [| exact H].
    destruct (String.eqb m ""); [exact H | discriminate H]. }
  apply renderContent_active in Hc. destruct Hc as [Ha Hv].
  apply selection_view_active in Hv. tauto.
Qed.

(** Back on the feed, no quiz component is rendered. *)
Lemma feed_unmounts (s : State) (p : ActiveQuiz.Props) :
  appState s = feed -> render s <> ActiveQuizView p.
Proof.
  intros Hf H. apply render_active in H. destruct H as [Hq _]. congruence.
Qed.

Lemma render_error (s : State) (message : string) :
  isLoading s = false -> error s = Some message -> message <> "" ->
  render s = ApplicationError message.
Proof.
  intros Hl He Hm. unfold render. rewrite Hl, He.
  apply String.eqb_neq in Hm. now rewrite Hm.
Qed.

(** Every bank of [QUIZ_DATA] has a question. *)
Lemma QUIZ_DATA_nonempty (c : string) (qd : list QuizQuestion) :
  lookupQuiz QUIZ_DATA c = Some qd -> qd <> [].
Proof.
  unfold QUIZ_DATA. cbn [lookupQuiz].
  repeat (match goal with
          | |- context [String.eqb ?a c] => destruct (String.eqb a c)
          end;
          [intros H; injection H as <-; discriminate |]).
  discriminate.
Qed.

End RenderFacts.

(** C4: a session of the quiz the application has on screen that runs to
    completion reports a final score between 0 and the reported total, and
    the reported total is the number of questions of the bank of the
    selected category. *)
Theorem C4_finalScore_within_total (s : App.State) (p : ActiveQuiz.Props)
    (es : list ActiveQuiz.Event) (c : string) (finalScore total : Z) :
  App.render s = App.ActiveQuizView p ->
  ActiveQuiz.start p es =
    ActiveQuiz.Reported (ActiveQuiz.mkCompletion (Some c) (Some finalScore)
                           (Some total)) ->
  App.activeQuizCategory s = Some c /\
  (exists quizData,
     lookupQuiz QUIZ_DATA c = Some quizData /\
     total = Z.of_nat (length quizData)) /\
  0 <= finalScore <= total.
Proof.
  intros Hr Hrun.
  apply RenderFacts.render_active in Hr. destruct Hr as (_ & Hc & Hl).
  pose proof (SessionFacts.start_ok p es) as Hok. rewrite Hrun in Hok.
  destruct Hok as [Hcancel | (f & Heq & Hf)]; [discriminate Hcancel |].
  injection Heq as -> -> ->.
  split; [exact Hc |]. split; [| exact Hf].
  exists (ActiveQuiz.quizData p). split; [exact Hl | reflexivity].
Qed.

(** The Physics quiz, first and third answers right, second wrong. *)
Lemma C4_witness :
  App.activeQuizCategory
    (App.setActiveQuizCategory (Some "Physics") (App.setAppState quiz ready))
  = Some "Physics" /\
  (exists quizData,
     lookupQuiz QUIZ_DATA "Physics" = Some quizData /\
     3 = Z.of_nat (length quizData)) /\
  0 <= 2 <= 3.
Proof.
  apply (C4_finalScore_within_total
           (App.setActiveQuizCategory (Some "Physics") (App.setAppState quiz ready))
           physics
           (play ["Principle of Conservation of Momentum"; "Volt"; "Refraction"])
           "Physics" 2 3); reflexivity.
Defined.

Section SelectAfterReveal.
Import ActiveQuiz.

Lemma handleAnswerSelect_revealed (o : string) (s : State) :
  showResult s = true -> handleAnswerSelect o s = s.
Proof. intros H. unfold handleAnswerSelect. now rewrite H. Qed.

(** Selecting touches the selection and nothing else. *)
Lemma handleAnswerSelect_frame (o : string) (s : State) :
  currentQuestionIndex (handleAnswerSelect o s) = currentQuestionIndex s /\
  score (handleAnswerSelect o s) = score s /\
  showResult (handleAnswerSelect o s) = showResult s /\
  pendingAdvance (handleAnswerSelect o s) = pendingAdvance s /\
  timer (handleAnswerSelect o s) = timer s.
Proof.
  unfold handleAnswerSelect. destruct (showResult s) eqn:E; simpl; auto.
Qed.

Lemma selects_revealed (s : State) (os : list string) :
  showResult s = true ->
  fold_left (fun st o => handleAnswerSelect o st) os s = s.
Proof.
  intros H. induction os as [| o os IH]; simpl; [reflexivity |].
  now rewrite handleAnswerSelect_revealed.
Qed.

Lemma select_events_revealed (p : Props) (s : State) (os : list string) :
  showResult s = true -> render p s = Mounted s ->
  run p (Mounted s) (map Select os) = Mounted s.
Proof.
  intros H Hr. induction os as [| o os IH]; simpl; [reflexivity |].
  rewrite handleAnswerSelect_revealed, Hr by assumption. exact IH.
Qed.

Lemma reported_is_final (p : Props) (c : Completion) (es : list Event) :
  run p (Reported c) es = Reported c.
Proof. induction es as [| e es IH]; simpl; [reflexivity | exact IH]. Qed.

(** C6: after an accepted submit the result is revealed, and from then on
    selecting an option changes nothing: the state, and so the verdict the
    pending timer carries, stay those of the submit, computed from the
    selection that was present when the button was pressed.  Later still,
    a selection never touches the score, and a completed session ignores
    it. *)
Theorem C6_select_after_reveal (p : Props) (s0 s1 : State) (os : list string) :
  handleNext p s0 = Some s1 -> s1 <> s0 ->
  showResult s1 = true /\
  (forall s o, showResult s = true -> handleAnswerSelect o s = s) /\
  run p (Mounted s1) (map Select os) = Mounted s1 /\
  (exists selected q,
     selectedOption s0 = Some selected /\
     currentQuestion p s0 = Some q /\
     selectedOption s1 = Some selected /\
     timer (fold_left (fun st o => handleAnswerSelect o st) os s1) =
       Some (mkTimeout (isLastQuestion p s0)
               (score s0 + (if String.eqb selected (answer q) then 1 else 0)))) /\
  (forall s o, score (handleAnswerSelect o s) = score s) /\
  (forall c o, step p (Reported c) (Select o) = Reported c).
Proof.
  intros Hn Hd.
  assert (Hg : handleNext p s0 <> Some s0) by congruence.
  destruct (handleNext_guard p s0 Hg) as (selected & Hsel & Hne & Hs & Hp).
  destruct (currentQuestion p s0) as [q |] eqn:Hq.
  - rewrite (handleNext_submits p s0 selected q) in Hn by assumption.
    injection Hn as <-.
    assert (Hr : render p (mkState (currentQuestionIndex s0) (score s0)
                             (Some selected) true true
                             (Some (mkTimeout (isLastQuestion p s0)
                                (score s0 +
                                 (if String.eqb selected (answer q) then 1 else 0)))))
                 = Mounted (mkState (currentQuestionIndex s0) (score s0)
                             (Some selected) true true
                             (Some (mkTimeout (isLastQuestion p s0)
                                (score s0 +
                                 (if String.eqb selected (answer q) then 1 else 0)))))).
    { unfold render, currentQuestion in *. cbn [currentQuestionIndex].
      now rewrite Hq. }
    split; [reflexivity |].
    split; [intros s o; apply handleAnswerSelect_revealed |].
    split; [apply select_events_revealed; [reflexivity | exact Hr] |].
    split.
    + exists selected, q. rewrite selects_revealed by reflexivity. auto.
    + split; [intros s o; apply handleAnswerSelect_frame | reflexivity].
  - exfalso. unfold handleNext in Hn. rewrite Hsel, Hs, Hp, Hq in Hn.
    unfold falsy, truthy in Hn. apply String.eqb_neq in Hne.
    rewrite Hne in Hn. simpl in Hn. discriminate Hn.
Qed.

End SelectAfterReveal.

(** "Volt" is submitted for the second Physics question; two more clicks on
    other options follow while the result is shown. *)
Lemma C6_witness :
  ActiveQuiz.run physics
    (ActiveQuiz.Mounted
       (ActiveQuiz.mkState 1 1 (Some "Volt") true true
          (Some (ActiveQuiz.mkTimeout false 1))))
    (map ActiveQuiz.Select ["Ampere"; "Ohm"])
  = ActiveQuiz.Mounted
      (ActiveQuiz.mkState 1 1 (Some "Volt") true true
         (Some (ActiveQuiz.mkTimeout false 1))).
Proof.
  refine (proj1 (proj2 (proj2
    (C6_select_after_reveal physics
       (ActiveQuiz.mkState 1 1 (Some "Volt") false false None)
       (ActiveQuiz.mkState 1 1 (Some "Volt") true true
          (Some (ActiveQuiz.mkTimeout false 1)))
       ["Ampere"; "Ohm"] eq_refl _)))).
  discriminate.
Defined.

(** C5: from any state of a running session, at any question, Cancel calls
    the completion handler with no category, no score and no total; the
    handler then only switches the view back to the feed: nothing is
    written, nothing is logged, the verified categories and the error
    message are as before, the quiz component is no longer rendered (its
    index, score and selection are gone with it), its pending timer is
    cleared, and no later event makes the ended session report a score. *)
Theorem C5_cancel_reports_nothing (APP_ID : string) (st : App.State)
    (p : ActiveQuiz.Props) (es : list ActiveQuiz.Event) (s : ActiveQuiz.State)
    (writeOk : bool) :
  ActiveQuiz.start p es = ActiveQuiz.Mounted s ->
  ActiveQuiz.start p (es ++ [ActiveQuiz.Cancel])
    = ActiveQuiz.Reported (ActiveQuiz.mkCompletion None None None) /\
  App.onComplete APP_ID st (ActiveQuiz.mkCompletion None None None) writeOk
    = (App.setAppState feed st, []) /\
  App.userVerifications (App.setAppState feed st) = App.userVerifications st /\
  App.error (App.setAppState feed st) = App.error st /\
  (forall p', App.render (App.setAppState feed st) <> App.ActiveQuizView p') /\
  ActiveQuiz.timer (ActiveQuiz.unmount s) = None /\
  (forall es',
     ActiveQuiz.run p (ActiveQuiz.start p (es ++ [ActiveQuiz.Cancel])) es'
     = ActiveQuiz.Reported (ActiveQuiz.mkCompletion None None None)).
Proof.
  intros Hrun.
  assert (Hc : ActiveQuiz.start p (es ++ [ActiveQuiz.Cancel])
               = ActiveQuiz.Reported (ActiveQuiz.mkCompletion None None None)).
  { unfold ActiveQuiz.start in *. rewrite SessionFacts.run_app, Hrun.
    reflexivity. }
  split; [exact Hc |].
  split; [reflexivity |].
  split; [reflexivity |].
  split; [reflexivity |].
  split; [intros p'; apply RenderFacts.feed_unmounts; reflexivity |].
  split; [reflexivity |].
  intros es'. rewrite Hc. apply reported_is_final.
Qed.

(** Cancel during the reveal of the second Physics question, one point
    scored, with the advance timer pending. *)
Lemma C5_witness :
  ActiveQuiz.start physics
    ([ActiveQuiz.Select "Principle of Conservation of Momentum";
      ActiveQuiz.Next; ActiveQuiz.Tick;
      ActiveQuiz.Select "Ampere"; ActiveQuiz.Next] ++ [ActiveQuiz.Cancel])
    = ActiveQuiz.Reported (ActiveQuiz.mkCompletion None None None) /\
  App.onComplete "default-app-id"
    (App.setActiveQuizCategory (Some "Physics") (App.setAppState quiz ready))
    (ActiveQuiz.mkCompletion None None None) true
    = (App.setAppState feed
         (App.setActiveQuizCategory (Some "Physics") (App.setAppState quiz ready)),
       []).
Proof.
  pose proof (C5_cancel_reports_nothing "default-app-id"
                (App.setActiveQuizCategory (Some "Physics")
                   (App.setAppState quiz ready))
                physics
                [ActiveQuiz.Select "Principle of Conservation of Momentum";
                 ActiveQuiz.Next; ActiveQuiz.Tick;
                 ActiveQuiz.Select "Ampere"; ActiveQuiz.Next]
                (ActiveQuiz.mkState 1 1 (Some "Ampere") true true
                   (Some (ActiveQuiz.mkTimeout false 2)))
                true eq_refl) as H.
  split; [exact (proj1 H) | exact (proj1 (proj2 H))].
Defined.

(* ================================================================= *)
(** ** Completing a quiz *)

Module CompleteFacts.
Import App.

Section WithAppId.
Variable APP_ID : string.

Lemma handleQuizComplete_no_identity (s : State) (category : string)
    (score total : Z) (writeOk : bool) :
  identity s = None ->
  handleQuizComplete APP_ID s category score total writeOk = (s, []).
Proof. intros H. unfold handleQuizComplete. now rewrite H. Qed.

Lemma handleQuizComplete_failed (s : State) (u category : string)
    (score total : Z) (writeOk : bool) :
  identity s = Some u -> passed score total = false ->
  handleQuizComplete APP_ID s category score total writeOk
  = (setActiveQuizCategory None s, []).
Proof. intros H Hp. unfold handleQuizComplete. now rewrite H, Hp. Qed.

Lemma handleQuizComplete_written (s : State) (u category : string)
    (score total : Z) :
  identity s = Some u -> passed score total = true ->
  handleQuizComplete APP_ID s category score total true
  = (setActiveQuizCategory None s,
     [setDoc_merge (getPublicCollectionPath APP_ID "expert_verifications") u
        (mkVerificationWrite (displayName s)
           (newCategories
              (VerificationDoc.verifiedCategories (currentUserVerifications s))
              category))]).
Proof. intros H Hp. unfold handleQuizComplete. now rewrite H, Hp. Qed.

Lemma handleQuizComplete_rejected (s : State) (u category : string)
    (score total : Z) :
  identity s = Some u -> passed score total = true ->
  handleQuizComplete APP_ID s category score total false
  = (setActiveQuizCategory None
       (setError ("Failed to verify expertise in " ++ category ++ ".")%string s),
     [setDoc_merge (getPublicCollectionPath APP_ID "expert_verifications") u
        (mkVerificationWrite (displayName s)
           (newCategories
              (VerificationDoc.verifiedCategories (currentUserVerifications s))
              category));
      console_error "Error updating verification status:"]).
Proof. intros H Hp. unfold handleQuizComplete. now rewrite H, Hp. Qed.

(** A store write is attempted exactly when the identity is known and
    the score passes. *)
Lemma handleQuizComplete_writes (s : State) (category : string)
    (score total : Z) (writeOk : bool) :
  existsb isWrite
    (snd (handleQuizComplete APP_ID s category score total writeOk))
  = match identity s with
    | Some _ => passed score total
    | None => false
    end.
Proof.
  unfold handleQuizComplete. destruct (identity s) as [u |]; [| reflexivity].
  destruct (passed score total); [| reflexivity].
  destruct writeOk; reflexivity.
Qed.

End WithAppId.

End CompleteFacts.

(** C2: for a quiz completion with total [T > 0] (a count of questions, so
    below 2^32, as the final score is) the completion handler takes the
    pass branch exactly when [finalScore / T >= 0.70], that is when
    [7 * T <= 10 * finalScore], and with the identity known that is exactly
    when it attempts the verification write; 2 out of 3 does not pass, 3 out
    of 3 does. *)
Theorem C2_pass_threshold (finalScore T : Z) :
  0 < T < 2 ^ 32 -> 0 <= finalScore < 2 ^ 32 ->
  (passed finalScore T = true <->
   (passingThreshold <= passRatio finalScore T)%Q) /\
  (passed finalScore T = true <-> 7 * T <= 10 * finalScore) /\
  (forall APP_ID st u category writeOk,
     App.identity st = Some u ->
     (passed finalScore T = true <->
      existsb isWrite
        (snd (App.handleQuizComplete APP_ID st category finalScore T writeOk))
      = true)) /\
  passed 2 3 = false /\
  passed 3 3 = true.
Proof.
  intros HT Hs.
  split; [rewrite passRatio_iff by lia; now apply passed_iff |].
  split; [now apply passed_iff |].
  split.
  { intros APP_ID st u category writeOk Hid.
    rewrite CompleteFacts.handleQuizComplete_writes, Hid. tauto. }
  split; vm_compute; reflexivity.
Qed.

(** Seven out of ten is on the threshold and passes. *)
Lemma C2_witness :
  passed 7 10 = true /\
  existsb isWrite
    (snd (App.handleQuizComplete "default-app-id" ready "Physics" 7 10 true))
  = true.
Proof.
  pose proof (C2_pass_threshold 7 10
                ltac:(vm_compute; split; reflexivity)
                ltac:(vm_compute; split; [discriminate | reflexivity])) as H.
  assert (Hp : passed 7 10 = true)
    by (apply (proj1 (proj2 H)); vm_compute; discriminate).
  split; [exact Hp |].
  apply (proj1 (proj2 (proj2 H)) "default-app-id" ready "u-0001" "Physics" true
           eq_refl).
  exact Hp.
Defined.

Lemma identity_Some (s : App.State) (u : string) :
  App.identity s = Some u ->
  App.db s <> None /\ App.userId s = Some u /\ u <> "".
Proof.
  unfold App.identity. destruct (App.db s); [| discriminate].
  destruct (App.userId s) as [v |]; [| discriminate].
  destruct (String.eqb v "") eqn:E; [discriminate |].
  intros H. injection H as <-. apply String.eqb_neq in E.
  repeat split; [discriminate | exact E].
Qed.

(** What [currentUserVerifications] reads is what the state holds for the
    user. *)
Lemma find_skips (u : string) (before rest : list VerificationDoc.t) :
  Forall (fun r => VerificationDoc.id r <> u) before ->
  find (fun r => String.eqb (VerificationDoc.id r) u) (before ++ rest)
  = find (fun r => String.eqb (VerificationDoc.id r) u) rest.
Proof.
  induction 1 as [| r before Hr _ IH]; [reflexivity |].
  simpl. apply String.eqb_neq in Hr. now rewrite Hr.
Qed.

Lemma heldFor_current (st : App.State) (u : string) (S : list string) :
  App.userId st = Some u ->
  heldFor u (App.userVerifications st) S ->
  VerificationDoc.verifiedCategories (App.currentUserVerifications st) = S.
Proof.
  intros Hu H. unfold App.currentUserVerifications. rewrite Hu.
  destruct H as [(before & v & rest & -> & Hb & Hv & <-) | [Hall ->]].
  - rewrite find_skips by exact Hb. simpl.
    apply String.eqb_eq in Hv. now rewrite Hv.
  - rewrite <- (app_nil_r (App.userVerifications st)).
    rewrite find_skips by exact Hall. reflexivity.
Qed.

(** C3: let [S] be the verified categories the state holds for the signed-in
    user: those of the user's record among the records delivered, none when
    there is no such record.  On a pass, the one write carries [S] with the
    category merged in: it has no duplicate, its members are those of [S]
    and the category, nothing of [S] is missing, when the category is
    already in [S] it has the members of [S] (it is [S] itself when [S] has
    no duplicate), and otherwise it is [S] followed by the category. *)
Theorem C3_merge_is_union (APP_ID : string) (st : App.State)
    (u category : string) (score total : Z) (writeOk : bool)
    (S : list string) :
  App.identity st = Some u -> passed score total = true ->
  heldFor u (App.userVerifications st) S ->
  exists merged,
    filter isWrite
      (snd (App.handleQuizComplete APP_ID st category score total writeOk))
    = [setDoc_merge (App.getPublicCollectionPath APP_ID "expert_verifications") u
         (mkVerificationWrite (App.displayName st) merged)] /\
    NoDup merged /\
    (forall x, In x merged <-> In x S \/ x = category) /\
    (forall x, In x S -> In x merged) /\
    (In category S -> forall x, In x merged <-> In x S) /\
    (NoDup S -> In category S -> merged = S) /\
    (NoDup S -> ~ In category S -> merged = S ++ [category]).
Proof.
  intros Hid Hp Hheld.
  assert (Hcur : VerificationDoc.verifiedCategories
                   (App.currentUserVerifications st) = S).
  { apply (heldFor_current st u); [| exact Hheld].
    now apply identity_Some in Hid. }
  exists (newCategories S category).
  split.
  { destruct writeOk.
    - rewrite (CompleteFacts.handleQuizComplete_written APP_ID st u)
        by assumption.
      now rewrite Hcur.
    - rewrite (CompleteFacts.handleQuizComplete_rejected APP_ID st u)
        by assumption.
      now rewrite Hcur. }
  split; [apply NoDup_newCategories |].
  split; [intros x; apply In_newCategories |].
  split; [intros x Hx; apply In_newCategories; now left |].
  split; [| split].
  - intros Hc x. rewrite In_newCategories. split; [| tauto].
    intros [H | ->]; assumption.
  - apply newCategories_member.
  - apply newCategories_fresh.
Qed.

(** A user verified in Physics and Web Development passes Financial
    Modeling: the write carries all three.  Passing Physics again when
    Physics is the one verified category writes Physics alone. *)
Lemma C3_witness :
  filter isWrite
    (snd (App.handleQuizComplete "default-app-id"
            (readyWith ["Physics"; "Web Development"])
            "Financial Modeling" 1 1 true))
  = [setDoc_merge (App.getPublicCollectionPath "default-app-id" "expert_verifications")
       "u-0001"
       (mkVerificationWrite (Some "User-u-0001")
          ["Physics"; "Web Development"; "Financial Modeling"])] /\
  filter isWrite
    (snd (App.handleQuizComplete "default-app-id" (readyWith ["Physics"])
            "Physics" 3 3 true))
  = [setDoc_merge (App.getPublicCollectionPath "default-app-id" "expert_verifications")
       "u-0001" (mkVerificationWrite (Some "User-u-0001") ["Physics"])].
Proof.
  assert (Hheld : forall S,
             heldFor "u-0001" (App.userVerifications (readyWith S)) S).
  { intros S. left.
    exists [], (VerificationDoc.mk "u-0001" None S None), [].
    repeat split. constructor. }
  split.
  - destruct (C3_merge_is_union "default-app-id"
                (readyWith ["Physics"; "Web Development"])
                "u-0001" "Financial Modeling" 1 1 true
                ["Physics"; "Web Development"] eq_refl eq_refl (Hheld _))
      as (merged & Hw & _ & _ & _ & _ & _ & Hfresh).
    rewrite Hw, Hfresh.
    + reflexivity.
    + repeat constructor; simpl; intuition discriminate.
    + simpl. intuition discriminate.
  - destruct (C3_merge_is_union "default-app-id" (readyWith ["Physics"])
                "u-0001" "Physics" 3 3 true ["Physics"] eq_refl eq_refl
                (Hheld _))
      as (merged & Hw & _ & _ & _ & _ & Hsame & _).
    rewrite Hw, Hsame.
    + reflexivity.
    + repeat constructor. simpl. tauto.
    + simpl. now left.
Defined.

Lemma option_string_eqb_refl (a : option string) : option_string_eqb a a = true.
Proof. destruct a; simpl; [apply String.eqb_refl | reflexivity]. Qed.

(** C7: when the score does not pass, the completion handler attempts no
    write and logs nothing, the verification records and the error message
    are what they were (no failure is signalled), and the handler returns
    normally: the view is back on the feed, the quiz component is no longer
    rendered and, with the identity known, the active category is cleared. *)
Theorem C7_failed_attempt_changes_nothing (APP_ID : string) (st : App.State)
    (category : string) (finalScore total : Z) (writeOk : bool) :
  passed finalScore total = false ->
  snd (App.handleQuizComplete APP_ID st category finalScore total writeOk) = [] /\
  App.userVerifications
    (fst (App.handleQuizComplete APP_ID st category finalScore total writeOk))
  = App.userVerifications st /\
  App.currentUserVerifications
    (fst (App.handleQuizComplete APP_ID st category finalScore total writeOk))
  = App.currentUserVerifications st /\
  App.error
    (fst (App.handleQuizComplete APP_ID st category finalScore total writeOk))
  = App.error st /\
  informed st (App.handleQuizComplete APP_ID st category finalScore total writeOk)
  = false /\
  snd (App.onComplete APP_ID st
         (ActiveQuiz.mkCompletion (Some category) (Some finalScore) (Some total))
         writeOk) = [] /\
  App.appState
    (fst (App.onComplete APP_ID st
            (ActiveQuiz.mkCompletion (Some category) (Some finalScore) (Some total))
            writeOk)) = feed /\
  (forall p,
     App.render
       (fst (App.onComplete APP_ID st
               (ActiveQuiz.mkCompletion (Some category) (Some finalScore)
                  (Some total)) writeOk))
     <> App.ActiveQuizView p) /\
  (forall u,
     App.identity st = Some u ->
     App.activeQuizCategory
       (fst (App.handleQuizComplete APP_ID st category finalScore total writeOk))
     = None).
Proof.
  intros Hp.
  assert (Hq : App.handleQuizComplete APP_ID st category finalScore total writeOk
               = (match App.identity st with
                  | Some _ => App.setActiveQuizCategory None st
                  | None => st
                  end, [])).
  { destruct (App.identity st) as [u |] eqn:Hid.
    - now apply CompleteFacts.handleQuizComplete_failed with (u := u).
    - now apply CompleteFacts.handleQuizComplete_no_identity. }
  assert (Hw : App.onComplete APP_ID st
                 (ActiveQuiz.mkCompletion (Some category) (Some finalScore)
                    (Some total)) writeOk
               = (match App.identity st with
                  | Some _ =>
                      if String.eqb category "" then App.setAppState feed st
                      else App.setActiveQuizCategory None (App.setAppState feed st)
                  | None => App.setAppState feed st
                  end, [])).
  { unfold App.onComplete. cbn [ActiveQuiz.oc_category ActiveQuiz.oc_finalScore
      ActiveQuiz.oc_total].
    destruct (String.eqb category "").
    - now destruct (App.identity st).
    - unfold App.handleQuizComplete.
      change (App.identity (App.setAppState feed st)) with (App.identity st).
      destruct (App.identity st); [now rewrite Hp | reflexivity]. }
  assert (Hfeed : App.appState
                    (fst (App.onComplete APP_ID st
                            (ActiveQuiz.mkCompletion (Some category)
                               (Some finalScore) (Some total)) writeOk)) = feed).
  { rewrite Hw. cbn [fst].
    destruct (App.identity st); [destruct (String.eqb category "") |];
      reflexivity. }
  rewrite Hq, Hw. cbn [fst snd].
  split; [reflexivity |].
  split; [now destruct (App.identity st) |].
  split; [now destruct (App.identity st) |].
  split; [now destruct (App.identity st) |].
  split.
  { unfold informed. cbn [fst snd existsb].
    replace (App.error match App.identity st with
                       | Some _ => App.setActiveQuizCategory None st
                       | None => st
                       end) with (App.error st)
      by (now destruct (App.identity st)).
    now rewrite option_string_eqb_refl. }
  split; [reflexivity |].
  split; [rewrite Hw in Hfeed; exact Hfeed |].
  split.
  - intros p. apply RenderFacts.feed_unmounts. rewrite Hw in Hfeed. exact Hfeed.
  - intros u Hid. now rewrite Hid.
Qed.

(** The end-to-end scenario: Physics, answers right, wrong, right. *)
Example physics_two_of_three :
  ActiveQuiz.start physics
    (play ["Principle of Conservation of Momentum"; "Volt"; "Refraction"])
  = ActiveQuiz.Reported
      (ActiveQuiz.mkCompletion (Some "Physics") (Some 2) (Some 3)).
Proof. reflexivity. Qed.

(** The end-to-end scenario: Financial Modeling, its one answer right. *)
Example financial_modeling_one_of_one :
  ActiveQuiz.start financialModeling (play ["Net Present Value"])
  = ActiveQuiz.Reported
      (ActiveQuiz.mkCompletion (Some "Financial Modeling") (Some 1) (Some 1)) /\
  snd (App.onComplete "default-app-id" (readyWith ["Physics"])
         (ActiveQuiz.mkCompletion (Some "Financial Modeling") (Some 1) (Some 1))
         true)
  = [setDoc_merge (App.getPublicCollectionPath "default-app-id" "expert_verifications")
       "u-0001"
       (mkVerificationWrite (Some "User-u-0001") ["Physics"; "Financial Modeling"])].
Proof. split; reflexivity. Qed.

(** String equality is case-sensitive: a lower-case "ampere" scores nothing. *)
Example lower_case_answer_is_wrong :
  ActiveQuiz.start physics
    (play ["Principle of Conservation of Momentum"; "ampere"; "Refraction"])
  = ActiveQuiz.Reported
      (ActiveQuiz.mkCompletion (Some "Physics") (Some 2) (Some 3)).
Proof. reflexivity. Qed.

(** Two out of three in Physics, for a user verified in Web Development. *)
Lemma C7_witness :
  snd (App.onComplete "default-app-id" (readyWith ["Web Development"])
         (ActiveQuiz.mkCompletion (Some "Physics") (Some 2) (Some 3)) true) = [] /\
  App.userVerifications
    (fst (App.handleQuizComplete "default-app-id" (readyWith ["Web Development"])
            "Physics" 2 3 true))
  = [VerificationDoc.mk "u-0001" None ["Web Development"] None].
Proof.
  pose proof (C7_failed_attempt_changes_nothing "default-app-id"
                (readyWith ["Web Development"]) "Physics" 2 3 true eq_refl) as H.
  split.
  - exact (proj1 (proj2 (proj2 (proj2 (proj2 (proj2 H)))))).
  - exact (proj1 (proj2 H)).
Defined.

(** C10: once the listener has delivered that the user's verification
    document does not exist, the client's record for the user is the user's
    id with an empty category list; the same record stands in while no
    record with the user's id has been delivered at all.  The user is then
    verified in no category, and a first pass writes the one new category. *)
Theorem C10_absent_document (APP_ID : string) (st : App.State) (u : string) :
  App.identity st = Some u ->
  App.currentUserVerifications (App.onVerificationSnapshot u None st)
  = VerificationDoc.mk u None [] None /\
  ((forall v, In v (App.userVerifications st) -> VerificationDoc.id v <> u) ->
   App.currentUserVerifications st = VerificationDoc.mk u None [] None) /\
  (forall c, App.isVerified (App.onVerificationSnapshot u None st) c = false) /\
  (forall c score total,
     passed score total = true ->
     App.handleQuizComplete APP_ID (App.onVerificationSnapshot u None st)
       c score total true
     = (App.setActiveQuizCategory None (App.onVerificationSnapshot u None st),
        [setDoc_merge (App.getPublicCollectionPath APP_ID "expert_verifications") u
           (mkVerificationWrite (App.displayName st) [c])])).
Proof.
  intros Hid. destruct (identity_Some st u Hid) as (Hdb & Hu & Hne).
  assert (Hcur : App.currentUserVerifications (App.onVerificationSnapshot u None st)
                 = VerificationDoc.mk u None [] None).
  { unfold App.currentUserVerifications, App.onVerificationSnapshot.
    cbn [App.setUserVerifications App.userId App.userVerifications find
           VerificationDoc.id].
    rewrite Hu, String.eqb_refl. reflexivity. }
  split; [exact Hcur |].
  split.
  { intros Habs. unfold App.currentUserVerifications. rewrite Hu.
    apply String.eqb_neq in Hne. rewrite Hne.
    destruct (find (fun v => String.eqb (VerificationDoc.id v) u)
                (App.userVerifications st)) as [v |] eqn:Ef; [| reflexivity].
    apply find_some in Ef. destruct Ef as [Hin He].
    apply String.eqb_eq in He. exfalso. exact (Habs v Hin He). }
  split; [intros c; unfold App.isVerified; now rewrite Hcur |].
  intros c score total Hp.
  rewrite (CompleteFacts.handleQuizComplete_written APP_ID _ u) by assumption.
  now rewrite Hcur.
Qed.

(** A signed-in user with no document passes Financial Modeling. *)
Lemma C10_witness :
  App.currentUserVerifications (App.onVerificationSnapshot "u-0001" None ready)
  = VerificationDoc.mk "u-0001" None [] None /\
  snd (App.handleQuizComplete "default-app-id"
         (App.onVerificationSnapshot "u-0001" None ready)
         "Financial Modeling" 1 1 true)
  = [setDoc_merge (App.getPublicCollectionPath "default-app-id" "expert_verifications")
       "u-0001"
       (mkVerificationWrite (Some "User-u-0001") ["Financial Modeling"])].
Proof.
  pose proof (C10_absent_document "default-app-id" ready "u-0001" eq_refl) as H.
  split; [exact (proj1 H) |].
  rewrite (proj2 (proj2 (proj2 H)) "Financial Modeling" 1 1 eq_refl).
  reflexivity.
Defined.

(* ================================================================= *)
(** ** Errors and the error screen *)

Module ErrorFacts.
Import App.

Lemma authErrorMessage_nonempty (code : string) : authErrorMessage code <> "".
Proof.
  unfold authErrorMessage.
  repeat match goal with
         | |- context [if ?b then _ else _] => destruct b
         end; discriminate.
Qed.

Lemma fatal_iff (s : State) :
  fatal s <->
  isLoading s = false /\ exists m, error s = Some m /\ m <> "".
Proof.
  unfold fatal, render. split.
  - intros [m H]. destruct (isLoading s); [discriminate |].
    split; [reflexivity |].
    destruct (error s) as [m' |].
    + exists m'. split; [reflexivity |].
      destruct (String.eqb m' "") eqn:E; [| now apply String.eqb_neq].
      unfold renderContent, QuizCategorySelectionView in H.
      destruct (appState s); try discriminate.
      destruct (activeQuizCategory s) as [c |]; [| discriminate].
      destruct (String.eqb c ""); [discriminate |].
      destruct (getProperty QUIZ_DATA c); discriminate.
    + unfold renderContent, QuizCategorySelectionView in H.
      destruct (appState s); try discriminate.
      destruct (activeQuizCategory s) as [c |]; [| discriminate].
      destruct (String.eqb c ""); [discriminate |].
      destruct (getProperty QUIZ_DATA c); discriminate.
  - intros [Hl [m [He Hm]]]. exists m. rewrite Hl, He.
    apply String.eqb_neq in Hm. now rewrite Hm.
Qed.

Section WithAppId.
Variable APP_ID : string.

(** No handler sets [isLoading] back to [true]. *)
Lemma handle_keeps_loaded (e : Controller.Event) (s : State) :
  isLoading s = false ->
  isLoading (fst (Controller.handle APP_ID e s)) = false.
Proof.
  intros H. destruct e; simpl; try assumption; try reflexivity.
  - destruct user; reflexivity.
  - destruct snap; assumption.
  - unfold handlePostQuestion. destruct (identity s); [| assumption].
    destruct writeOk; assumption.
  - unfold onComplete, handleQuizComplete.
    destruct (ActiveQuiz.oc_category c) as [cat |]; [| assumption].
    destruct (ActiveQuiz.oc_finalScore c) as [f |]; [| assumption].
    destruct (ActiveQuiz.oc_total c) as [t |]; [| assumption].
    destruct (String.eqb cat ""); [assumption |].
    destruct (identity (setAppState feed s)); [| assumption].
    destruct (passed f t); [destruct writeOk |]; assumption.
Qed.

(** No handler clears the error message; it can only be replaced by
    another message. *)
Lemma handle_keeps_error (e : Controller.Event) (s : State) :
  (exists m, error s = Some m /\ m <> "") ->
  exists m', error (fst (Controller.handle APP_ID e s)) = Some m' /\ m' <> "".
Proof.
  intros H. destruct e; simpl; try exact H;
    try (eexists; split; [reflexivity | discriminate]).
  - eexists. split; [reflexivity | apply authErrorMessage_nonempty].
  - destruct user; exact H.
  - destruct snap; exact H.
  - unfold handlePostQuestion. destruct (identity s); [| exact H].
    destruct writeOk; [exact H |].
    eexists. split; [reflexivity | discriminate].
  - unfold onComplete, handleQuizComplete.
    destruct (ActiveQuiz.oc_category c) as [cat |]; [| exact H].
    destruct (ActiveQuiz.oc_finalScore c) as [f |]; [| exact H].
    destruct (ActiveQuiz.oc_total c) as [t |]; [| exact H].
    destruct (String.eqb cat ""); [exact H |].
    destruct (identity (setAppState feed s)); [| exact H].
    destruct (passed f t); [destruct writeOk |]; try exact H.
    eexists. split; [reflexivity | discriminate].
Qed.

(** The error screen is sticky. *)
Lemma fatal_sticky (e : Controller.Event) (s : State) :
  fatal s -> fatal (fst (Controller.handle APP_ID e s)).
Proof.
  rewrite !fatal_iff. intros [Hl He]. split.
  - now apply handle_keeps_loaded.
  - now apply handle_keeps_error.
Qed.

Lemma fatal_sticky_run (es : list Controller.Event) (s : State) :
  fatal s -> fatal (fst (Controller.run APP_ID es s)).
Proof.
  revert s. induction es as [| e es IH]; intros s H; simpl; [exact H |].
  destruct (Controller.handle APP_ID e s) as [s1 out1] eqn:E1.
  destruct (Controller.run APP_ID es s1) as [s2 out2] eqn:E2.
  simpl. pose proof (fatal_sticky e s H) as H1. rewrite E1 in H1.
  pose proof (IH s1 H1) as H2. rewrite E2 in H2. exact H2.
Qed.

End WithAppId.

End ErrorFacts.

(** The claim that feed and write errors stay out of the error screen fails:
    for a user who has just signed in and looks at the feed, a
    question-feed error, a rejected post and a rejected verification write
    each put the error screen in place of the UI. *)
Lemma C8_feed_and_write_errors_escalate :
  fst (Controller.run "default-app-id"
         [Controller.FirestoreReady;
          Controller.AuthStateChanged (Some (mkUser "u-0001" None))]
         App.initial) = ready /\
  App.render ready = App.QuestionFeedView /\
  App.render (fst (App.onQuestionsError ready))
  = App.ApplicationError "Failed to load questions from database." /\
  App.render
    (fst (App.handlePostQuestion "default-app-id" ready "A title" "A body"
            "Physics" 0 false))
  = App.ApplicationError
      "Could not post question. Check network connection or database permissions." /\
  App.render
    (fst (App.handleQuizComplete "default-app-id" ready "Physics" 3 3 false))
  = App.ApplicationError "Failed to verify expertise in Physics.".
Proof. repeat split. Qed.

(** C8, as the code has it: once loading is over, a question-feed error and
    a rejected write (a post, a verification) put the same error screen in
    place of the UI as a configuration or sign-in error does, and the error
    screen stays whatever happens next; only a verification-feed error
    leaves the state as it was. *)
Theorem C8_error_screen (APP_ID : string) (st : App.State) :
  App.isLoading st = false ->
  App.render (fst (App.onQuestionsError st))
  = App.ApplicationError "Failed to load questions from database." /\
  (forall u title body category now,
     App.identity st = Some u ->
     App.render
       (fst (App.handlePostQuestion APP_ID st title body category now false))
     = App.ApplicationError
         "Could not post question. Check network connection or database permissions.") /\
  (forall u category score total,
     App.identity st = Some u -> passed score total = true ->
     App.render (fst (App.handleQuizComplete APP_ID st category score total false))
     = App.ApplicationError
         ("Failed to verify expertise in " ++ category ++ ".")%string) /\
  fst (App.onVerificationError st) = st /\
  (forall keys,
     App.render (App.onConfigMissing keys st)
     = App.ApplicationError
         ("Firebase config missing: " ++ String.concat ", " keys
            ++ ". Check your .env and restart the dev server.")%string) /\
  (forall code,
     App.render (fst (App.onSignInError code st))
     = App.ApplicationError (App.authErrorMessage code)) /\
  (forall es,
     fatal st -> fatal (fst (Controller.run APP_ID es st))).
Proof.
  intros Hl.
  split; [apply RenderFacts.render_error; [exact Hl | reflexivity | discriminate] |].
  split.
  { intros u title body category now Hid. unfold App.handlePostQuestion.
    rewrite Hid. apply RenderFacts.render_error;
      [exact Hl | reflexivity | discriminate]. }
  split.
  { intros u category score total Hid Hp.
    rewrite (CompleteFacts.handleQuizComplete_rejected APP_ID st u) by assumption.
    apply RenderFacts.render_error; [exact Hl | reflexivity | discriminate]. }
  split; [reflexivity |].
  split.
  { intros keys. apply RenderFacts.render_error;
      [reflexivity | reflexivity | discriminate]. }
  split.
  { intros code. apply RenderFacts.render_error;
      [reflexivity | reflexivity | apply ErrorFacts.authErrorMessage_nonempty]. }
  intros es. apply ErrorFacts.fatal_sticky_run.
Qed.

(** A feed error, and the verification snapshot that follows it. *)
Lemma C8_witness :
  App.render (fst (App.onQuestionsError ready))
  = App.ApplicationError "Failed to load questions from database." /\
  fst (App.onVerificationError ready) = ready.
Proof.
  pose proof (C8_error_screen "default-app-id" ready eq_refl) as H.
  split; [exact (proj1 H) | exact (proj1 (proj2 (proj2 (proj2 H))))].
Defined.

(** The claim that no failure goes unreported fails: when the identity
    service reports that nobody is signed in, the UI is up, the Physics quiz
    can be taken and answered in full, and its completion changes nothing
    but the view: nothing is written, nothing is logged, no message is set,
    and the state left behind is the one a score of zero leaves behind. *)
Lemma C9_no_identity_is_silent :
  fst (Controller.run "default-app-id"
         [Controller.FirestoreReady; Controller.AuthStateChanged None]
         App.initial) = signedOut /\
  App.render
    (fst (Controller.run "default-app-id"
            [Controller.ClickTakeQuiz; Controller.ClickStartQuiz "Physics"]
            signedOut))
  = App.ActiveQuizView physics /\
  ActiveQuiz.start physics
    (play ["Principle of Conservation of Momentum"; "Ampere"; "Refraction"])
  = ActiveQuiz.Reported
      (ActiveQuiz.mkCompletion (Some "Physics") (Some 3) (Some 3)) /\
  passed 3 3 = true /\
  App.identity signedOut = None /\
  App.handleQuizComplete "default-app-id" signedOut "Physics" 3 3 true
  = (signedOut, []) /\
  informed signedOut
    (App.handleQuizComplete "default-app-id" signedOut "Physics" 3 3 true)
  = false /\
  Controller.run "default-app-id"
    [Controller.ClickTakeQuiz; Controller.ClickStartQuiz "Physics";
     Controller.QuizCompletes
       (ActiveQuiz.mkCompletion (Some "Physics") (Some 3) (Some 3)) true]
    signedOut
  = (App.setActiveQuizCategory (Some "Physics") signedOut, []) /\
  Controller.run "default-app-id"
    [Controller.ClickTakeQuiz; Controller.ClickStartQuiz "Physics";
     Controller.QuizCompletes
       (ActiveQuiz.mkCompletion (Some "Physics") (Some 0) (Some 3)) true]
    signedOut
  = (App.setActiveQuizCategory (Some "Physics") signedOut, []).
Proof. repeat split. Qed.

(** C9, as the code has it: with the database handle and the user id in
    place, every failure the handlers catch is reported.  A rejected
    verification write sets the message naming the category and logs to the
    console, which a failed attempt never does (it sets no message and logs
    nothing); a rejected post and a failed question feed set a message and
    log; a failed verification feed is logged to the console only.  Without
    the handle or the user id, completing a quiz or posting returns at once:
    no state changes, nothing is written and nothing is reported. *)
Theorem C9_reported_failures (APP_ID : string) (st : App.State) (u : string) :
  App.identity st = Some u ->
  (forall category score total,
     passed score total = true ->
     App.error (fst (App.handleQuizComplete APP_ID st category score total false))
     = Some ("Failed to verify expertise in " ++ category ++ ".")%string /\
     In (console_error "Error updating verification status:")
        (snd (App.handleQuizComplete APP_ID st category score total false)) /\
     informed st (App.handleQuizComplete APP_ID st category score total false)
     = true) /\
  (forall category score total writeOk,
     passed score total = false ->
     App.error (fst (App.handleQuizComplete APP_ID st category score total writeOk))
     = App.error st /\
     snd (App.handleQuizComplete APP_ID st category score total writeOk) = [] /\
     informed st (App.handleQuizComplete APP_ID st category score total writeOk)
     = false) /\
  (forall title body category now,
     App.error (fst (App.handlePostQuestion APP_ID st title body category now false))
     = Some "Could not post question. Check network connection or database permissions." /\
     In (console_error "Error posting question:")
        (snd (App.handlePostQuestion APP_ID st title body category now false))) /\
  App.onQuestionsError st
  = (App.setError "Failed to load questions from database." st,
     [console_error "Error fetching questions:"]) /\
  App.onVerificationError st = (st, [console_error "Error fetching verifications:"]) /\
  (forall st0 category score total writeOk,
     App.identity st0 = None ->
     App.handleQuizComplete APP_ID st0 category score total writeOk = (st0, []) /\
     informed st0 (App.handleQuizComplete APP_ID st0 category score total writeOk)
     = false) /\
  (forall st0 title body category now writeOk,
     App.identity st0 = None ->
     App.handlePostQuestion APP_ID st0 title body category now writeOk = (st0, [])).
Proof.
  intros Hid.
  split.
  { intros category score total Hp.
    rewrite (CompleteFacts.handleQuizComplete_rejected APP_ID st u) by assumption.
    split; [reflexivity |]. split; [simpl; tauto |].
    unfold informed. cbn [snd existsb isConsoleError]. apply orb_true_r. }
  split.
  { intros category score total writeOk Hp.
    rewrite (CompleteFacts.handleQuizComplete_failed APP_ID st u) by assumption.
    split; [reflexivity |]. split; [reflexivity |].
    unfold informed. cbn [fst snd existsb App.setActiveQuizCategory App.error].
    now rewrite option_string_eqb_refl. }
  split.
  { intros title body category now. unfold App.handlePostQuestion. rewrite Hid.
    split; [reflexivity | simpl; tauto]. }
  split; [reflexivity |].
  split; [reflexivity |].
  split.
  { intros st0 category score total writeOk H0.
    rewrite CompleteFacts.handleQuizComplete_no_identity by assumption.
    split; [reflexivity |].
    unfold informed. cbn [fst snd existsb]. now rewrite option_string_eqb_refl. }
  intros st0 title body category now writeOk H0.
  unfold App.handlePostQuestion. now rewrite H0.
Qed.

(** A rejected verification write after a perfect Physics quiz. *)
Lemma C9_witness :
  App.error
    (fst (App.handleQuizComplete "default-app-id" ready "Physics" 3 3 false))
  = Some "Failed to verify expertise in Physics." /\
  informed ready (App.handleQuizComplete "default-app-id" ready "Physics" 3 3 false)
  = true.
Proof.
  destruct (proj1 (C9_reported_failures "default-app-id" ready "u-0001" eq_refl)
              "Physics" 3 3 eq_refl) as (He & _ & Hi).
  split; [exact He | exact Hi].
Defined.

(* ================================================================= *)
(** * Further properties of the code *)

(* ================================================================= *)
(** ** The session as a whole *)

Module SessionMore.
Import ActiveQuiz.

Lemma crashed_is_final (p : Props) (es : list Event) : run p Crashed es = Crashed.
Proof. induction es as [| e es IH]; simpl; [reflexivity | exact IH]. Qed.

Lemma render_index (p : Props) (s s' : State) :
  currentQuestionIndex s' = currentQuestionIndex s ->
  render p s = Mounted s -> render p s' = Mounted s'.
Proof.
  unfold render, currentQuestion. intros ->.
  destruct (currentQuestionIndex s <? 0); [discriminate |].
  destruct (nth_error (quizData p) (Z.to_nat (currentQuestionIndex s)));
    [reflexivity | discriminate].
Qed.

Lemma render_cases (p : Props) (s : State) :
  render p s = Mounted s \/ render p s = Crashed.
Proof. unfold render. destruct (currentQuestion p s); auto. Qed.

Lemma handleNext_idempotent (p : Props) (s s1 : State) :
  handleNext p s = Some s1 -> handleNext p s1 = Some s1.
Proof.
  unfold handleNext.
  destruct (falsy (selectedOption s) || showResult s || pendingAdvance s) eqn:G.
  - intros H. injection H as <-. now rewrite G.
  - destruct (selectedOption s); [| discriminate].
    destruct (currentQuestion p s); [| discriminate].
    intros H. injection H as <-. cbn [selectedOption showResult pendingAdvance].
    now rewrite orb_true_r.
Qed.

Lemma handleAnswerSelect_twice (a b : string) (s : State) :
  handleAnswerSelect b (handleAnswerSelect a s) = handleAnswerSelect b s.
Proof.
  unfold handleAnswerSelect. destruct (showResult s) eqn:E;
    cbn [showResult currentQuestionIndex score pendingAdvance timer];
    rewrite ?E; reflexivity.
Qed.

Lemma step_advances (p : Props) (s s' : State) (e : Event) :
  sound p s -> e <> Remount -> step p (Mounted s) e = Mounted s' ->
  advances s s'.
Proof.
  intros Hs Hr. destruct e as [o | | | |]; cbn [step]; [| | | | congruence].
  - pose proof (handleAnswerSelect_frame o s) as (Hi & Hsc & _).
    destruct (render_cases p (handleAnswerSelect o s)) as [-> | ->];
      [| discriminate].
    intros H. injection H as <-. unfold advances. lia.
  - destruct (handleNext p s) as [s1 |] eqn:Hn; [| discriminate].
    destruct (render_cases p s1) as [-> | ->]; [| discriminate].
    intros H. injection H as <-. unfold handleNext in Hn.
    destruct (falsy (selectedOption s) || showResult s || pendingAdvance s).
    + injection Hn as <-. unfold advances. lia.
    + destruct (selectedOption s); [| discriminate].
      destruct (currentQuestion p s); [| discriminate].
      injection Hn as <-. unfold advances. simpl. lia.
  - unfold timeoutFires. destruct (timer s) as [t |] eqn:Et.
    + destruct (t_isLastQuestion t); [discriminate |].
      destruct (render_cases p
                  (mkState (currentQuestionIndex s + 1) (t_finalScore t) None
                     false false None)) as [-> | ->]; [| discriminate].
      intros H. injection H as <-. unfold advances, sound in *.
      rewrite Et in Hs. simpl. lia.
    + destruct (render_cases p s) as [-> | ->]; [| discriminate].
      intros H. injection H as <-. unfold advances. lia.
  - discriminate.
Qed.

Lemma run_advances (p : Props) (es : list Event) :
  forall s s',
    sound p s -> ~ In Remount es -> run p (Mounted s) es = Mounted s' ->
    advances s s'.
Proof.
  induction es as [| e es IH]; intros s s' Hs Hr Hrun.
  - simpl in Hrun. injection Hrun as <-. unfold advances. lia.
  - change (run p (Mounted s) (e :: es))
      with (run p (step p (Mounted s) e) es) in Hrun.
    assert (He : e <> Remount) by (intros ->; apply Hr; now left).
    assert (Hes : ~ In Remount es) by (intros H; apply Hr; now right).
    destruct (step p (Mounted s) e) as [s1 | c |] eqn:E.
    + pose proof (step_advances p s s1 e Hs He E) as H1.
      pose proof (SessionFacts.step_ok p (Mounted s) e Hs) as Hs1.
      rewrite E in Hs1. simpl in Hs1.
      pose proof (IH s1 s' Hs1 Hes Hrun) as H2. unfold advances in *. lia.
    + rewrite reported_is_final in Hrun. discriminate.
    + rewrite crashed_is_final in Hrun. discriminate.
Qed.

Lemma correctAnswers_bounds (qs : list QuizQuestion) (answers : list string) :
  0 <= correctAnswers qs answers <= Z.of_nat (length qs).
Proof.
  revert answers. induction qs as [| q qs IH]; intros answers; simpl; [lia |].
  destruct answers as [| a answers]; [lia |].
  specialize (IH answers). destruct (String.eqb a (answer q)); lia.
Qed.

End SessionMore.

(** X1: a session crashes exactly when the bank is empty: with no question
    the first render throws, and with at least one question no sequence of
    events makes the component read a question that is not there. *)
Theorem X1_crash_iff_empty_bank (p : ActiveQuiz.Props)
    (es : list ActiveQuiz.Event) :
  ActiveQuiz.start p es = ActiveQuiz.Crashed <-> ActiveQuiz.quizData p = [].
Proof.
  split.
  - intros H. pose proof (SessionFacts.start_ok p es) as Hok.
    rewrite H in Hok. exact Hok.
  - intros H. unfold ActiveQuiz.start, ActiveQuiz.render, ActiveQuiz.currentQuestion.
    rewrite H. simpl. apply SessionMore.crashed_is_final.
Qed.

(** X2: playing a non-empty bank through, one non-empty answer per
    question, completes the session, and the score it reports is the number
    of answers equal to the bank's, out of the number of questions. *)
Theorem X2_full_play_reports_correct_count (p : ActiveQuiz.Props)
    (answers : list string) :
  ActiveQuiz.quizData p <> [] ->
  length answers = length (ActiveQuiz.quizData p) ->
  Forall (fun a => a <> "") answers ->
  ActiveQuiz.start p (play answers)
  = ActiveQuiz.Reported
      (ActiveQuiz.mkCompletion (Some (ActiveQuiz.category p))
         (Some (correctAnswers (ActiveQuiz.quizData p) answers))
         (Some (ActiveQuiz.totalQuestions p))) /\
  0 <= correctAnswers (ActiveQuiz.quizData p) answers
    <= ActiveQuiz.totalQuestions p.
Proof.
  intros Hne Hlen Hall. split.
  - now apply SessionFacts.play_reports.
  - apply SessionMore.correctAnswers_bounds.
Qed.

(** Web Development, first answer right, second wrong. *)
Lemma X2_witness :
  ActiveQuiz.start (quizProps "Web Development") (play ["margin"; "props"])
  = ActiveQuiz.Reported
      (ActiveQuiz.mkCompletion (Some "Web Development") (Some 1) (Some 2)).
Proof.
  apply (proj1 (X2_full_play_reports_correct_count
                  (quizProps "Web Development") ["margin"; "props"]
                  ltac:(discriminate) eq_refl
                  ltac:(repeat constructor; discriminate))).
Defined.

(** X3: between two renders of [App] the question index and the score of a
    running quiz never go down and the score never gains more than the
    index does; a render of [App] remounts the quiz, which starts again at
    the first question with score 0, nothing selected and no timer; and in
    every state reached, remounts included, the progress line reads
    "Question k of N" with [1 <= k <= N]. *)
Theorem X3_progress_is_monotone (p : ActiveQuiz.Props)
    (es es' : list ActiveQuiz.Event) (s s' : ActiveQuiz.State) :
  ActiveQuiz.start p es = ActiveQuiz.Mounted s ->
  ActiveQuiz.start p (es ++ es') = ActiveQuiz.Mounted s' ->
  (~ In ActiveQuiz.Remount es' ->
   ActiveQuiz.currentQuestionIndex s <= ActiveQuiz.currentQuestionIndex s' /\
   ActiveQuiz.score s <= ActiveQuiz.score s' /\
   ActiveQuiz.score s' - ActiveQuiz.score s
     <= ActiveQuiz.currentQuestionIndex s' - ActiveQuiz.currentQuestionIndex s) /\
  ActiveQuiz.start p (es ++ [ActiveQuiz.Remount])
  = ActiveQuiz.Mounted ActiveQuiz.initial /\
  1 <= fst (ActiveQuizRender.progress p s')
    <= snd (ActiveQuizRender.progress p s').
Proof.
  intros H1 H2.
  pose proof (SessionFacts.start_ok p es) as Hs. rewrite H1 in Hs.
  pose proof (SessionFacts.start_ok p (es ++ es')) as Hs'. rewrite H2 in Hs'.
  unfold ActiveQuiz.start in *. rewrite SessionFacts.run_app, H1 in H2.
  split; [| split].
  - intros Hr. exact (SessionMore.run_advances p es' s s' Hs Hr H2).
  - rewrite SessionFacts.run_app, H1.
    cbn [ActiveQuiz.run fold_left ActiveQuiz.step].
    apply SessionFacts.render_sound, SessionFacts.initial_sound.
    unfold sessionOk, sound, ActiveQuiz.totalQuestions in Hs.
    intros E. rewrite E in Hs. simpl in Hs. lia.
  - unfold ActiveQuizRender.progress; simpl; unfold sessionOk, sound in Hs'; lia.
Qed.

(** Physics: one right answer, then a wrong one; and a render of [App]
    after the first. *)
Lemma X3_witness :
  (~ In ActiveQuiz.Remount (play ["Volt"]) ->
   1 <= 2 /\ 1 <= 1 /\ 1 - 1 <= 2 - 1) /\
  ActiveQuiz.start physics
    (play ["Principle of Conservation of Momentum"] ++ [ActiveQuiz.Remount])
  = ActiveQuiz.Mounted ActiveQuiz.initial /\
  1 <= 2 + 1 <= 3.
Proof.
  apply (X3_progress_is_monotone physics
           (play ["Principle of Conservation of Momentum"]) (play ["Volt"])
           (ActiveQuiz.mkState 1 1 None false false None)
           (ActiveQuiz.mkState 2 1 None false false None)
           eq_refl eq_refl).
Defined.

(** X4: pressing the button twice is pressing it once: a second press
    during the reveal neither scores again nor schedules a second timer. *)
Theorem X4_double_submit_is_single (p : ActiveQuiz.Props)
    (x : ActiveQuiz.Session) :
  ActiveQuiz.step p (ActiveQuiz.step p x ActiveQuiz.Next) ActiveQuiz.Next
  = ActiveQuiz.step p x ActiveQuiz.Next.
Proof.
  destruct x as [s | c |]; [| reflexivity | reflexivity].
  cbn [ActiveQuiz.step].
  destruct (ActiveQuiz.handleNext p s) as [s1 |] eqn:Hn; [| reflexivity].
  destruct (SessionMore.render_cases p s1) as [R | R]; rewrite R;
    [| reflexivity].
  cbn [ActiveQuiz.step].
  now rewrite (SessionMore.handleNext_idempotent p s s1 Hn), R.
Qed.

(** X5: an option that is the empty string cannot be submitted: after it is
    selected the button does nothing, whatever the state. *)
Theorem X5_empty_option_is_not_a_selection (p : ActiveQuiz.Props)
    (s : ActiveQuiz.State) :
  ActiveQuiz.handleNext p (ActiveQuiz.handleAnswerSelect "" s)
  = Some (ActiveQuiz.handleAnswerSelect "" s) /\
  (ActiveQuiz.showResult s = false ->
   ActiveQuizRender.disabled (ActiveQuiz.handleAnswerSelect "" s) = true).
Proof.
  unfold ActiveQuiz.handleNext, ActiveQuiz.handleAnswerSelect,
    ActiveQuizRender.disabled.
  destruct (ActiveQuiz.showResult s) eqn:E.
  - rewrite E, orb_true_r. cbn [orb]. split; [reflexivity | discriminate].
  - split; reflexivity.
Qed.

(** X6: of several selections in a row only the last counts. *)
Theorem X6_last_selection_wins (p : ActiveQuiz.Props) (x : ActiveQuiz.Session)
    (a b : string) (es : list ActiveQuiz.Event) :
  ActiveQuiz.run p x (ActiveQuiz.Select a :: ActiveQuiz.Select b :: es)
  = ActiveQuiz.run p x (ActiveQuiz.Select b :: es).
Proof.
  destruct x as [s | c |]; [| reflexivity | reflexivity].
  cbn [ActiveQuiz.run fold_left]. f_equal.
  cbn [ActiveQuiz.step].
  pose proof (handleAnswerSelect_frame a s) as (Hia & _).
  pose proof (handleAnswerSelect_frame b s) as (Hib & _).
  destruct (SessionMore.render_cases p (ActiveQuiz.handleAnswerSelect a s))
    as [R | R]; rewrite R; cbn [ActiveQuiz.step].
  - rewrite SessionMore.handleAnswerSelect_twice. reflexivity.
  - symmetry.
    destruct (SessionMore.render_cases p (ActiveQuiz.handleAnswerSelect b s))
      as [R' | R']; [| exact R'].
    apply (SessionMore.render_index p _ (ActiveQuiz.handleAnswerSelect a s))
      in R'; [congruence | congruence].
Qed.

(* ================================================================= *)
(** ** What the quiz shows *)

Lemma isSelected_iff (s : ActiveQuiz.State) (option : string) :
  ActiveQuizRender.isSelected s option = true <->
  ActiveQuiz.selectedOption s = Some option.
Proof.
  unfold ActiveQuizRender.isSelected.
  destruct (ActiveQuiz.selectedOption s) as [x |]; [| split; discriminate].
  rewrite String.eqb_eq. split; [intros -> | intros H]; congruence.
Qed.

Lemma isSelected_false (s : ActiveQuiz.State) (option : string) :
  ActiveQuizRender.isSelected s option = false <->
  ActiveQuiz.selectedOption s <> Some option.
Proof.
  rewrite <- isSelected_iff.
  destruct (ActiveQuizRender.isSelected s option); split; congruence.
Qed.

(** X7: before the result is revealed the look of an option does not depend
    on the question's answer (it is selected or not, nothing else); once
    revealed, the options marked correct are exactly those equal to the
    answer, and the one marked wrong is the selected option when it
    differs from the answer. *)
Theorem X7_answer_shown_only_after_reveal (s : ActiveQuiz.State)
    (option : string) :
  (ActiveQuiz.showResult s = false ->
   forall q q',
     ActiveQuizRender.optionClass q s option
     = ActiveQuizRender.optionClass q' s option /\
     (ActiveQuizRender.optionClass q s option = ActiveQuizRender.Selected <->
      ActiveQuiz.selectedOption s = Some option) /\
     (ActiveQuizRender.optionClass q s option = ActiveQuizRender.Unselected <->
      ActiveQuiz.selectedOption s <> Some option)) /\
  (ActiveQuiz.showResult s = true ->
   forall q,
     (ActiveQuizRender.optionClass q s option = ActiveQuizRender.Correct <->
      option = answer q) /\
     (ActiveQuizRender.optionClass q s option
      = ActiveQuizRender.IncorrectSelection <->
      ActiveQuiz.selectedOption s = Some option /\ option <> answer q) /\
     (ActiveQuizRender.optionClass q s option = ActiveQuizRender.Dimmed <->
      ActiveQuiz.selectedOption s <> Some option /\ option <> answer q)).
Proof.
  unfold ActiveQuizRender.optionClass, ActiveQuizRender.isIncorrectSelection,
    ActiveQuizRender.isCorrect.
  pose proof (isSelected_iff s option) as Ht.
  pose proof (isSelected_false s option) as Hf.
  split; intros Hr; rewrite Hr; cbn [andb].
  - intros q q'. split; [reflexivity |].
    destruct (ActiveQuizRender.isSelected s option);
      intuition (discriminate || congruence).
  - intros q.
    pose proof (String.eqb_eq option (answer q)) as He.
    pose proof (String.eqb_neq option (answer q)) as Hn.
    destruct (String.eqb option (answer q)); cbn [negb andb];
      rewrite ?andb_true_r;
      destruct (ActiveQuizRender.isSelected s option);
      intuition (discriminate || congruence).
Qed.

(** X8: in every state a session reaches, the button is enabled exactly when
    pressing it is accepted as a submit; a disabled button and an ignored
    press go together. *)
Theorem X8_button_enabled_iff_submit_accepted (p : ActiveQuiz.Props)
    (es : list ActiveQuiz.Event) (s : ActiveQuiz.State) :
  ActiveQuiz.start p es = ActiveQuiz.Mounted s ->
  (ActiveQuizRender.disabled s = false <->
   ActiveQuiz.start p (es ++ [ActiveQuiz.Next]) <> ActiveQuiz.Mounted s).
Proof.
  intros Hrun.
  pose proof (SessionFacts.start_ok p es) as Hok. rewrite Hrun in Hok.
  simpl in Hok.
  assert (Hstep : ActiveQuiz.start p (es ++ [ActiveQuiz.Next])
                  = ActiveQuiz.step p (ActiveQuiz.Mounted s) ActiveQuiz.Next).
  { unfold ActiveQuiz.start in *. now rewrite SessionFacts.run_app, Hrun. }
  rewrite Hstep. cbn [ActiveQuiz.step].
  destruct (SessionFacts.handleNext_sound p s Hok) as (s1 & Hn & Hs1).
  rewrite Hn, (SessionFacts.render_sound p s1 Hs1).
  unfold ActiveQuizRender.disabled. unfold ActiveQuiz.handleNext in Hn.
  assert (Hp : ActiveQuiz.pendingAdvance s = ActiveQuiz.showResult s)
    by (destruct Hok as (_ & _ & H & _); congruence).
  rewrite Hp in Hn.
  destruct (falsy (ActiveQuiz.selectedOption s) || ActiveQuiz.showResult s) eqn:G.
  - cbn [orb] in Hn. injection Hn as <-. split; [discriminate | congruence].
  - apply orb_false_iff in G. destruct G as [G1 G2].
    rewrite G2 in Hn. cbn [orb] in Hn.
    destruct (ActiveQuiz.selectedOption s); [| discriminate].
    destruct (ActiveQuiz.currentQuestion p s); [| discriminate].
    injection Hn as <-. split; [| reflexivity]. intros _ H.
    injection H as H.
    apply (f_equal ActiveQuiz.showResult) in H. simpl in H. congruence.
Qed.

(** "Ampere" chosen on the second Physics question: the button is live. *)
Lemma X8_witness :
  ActiveQuizRender.disabled
    (ActiveQuiz.mkState 1 1 (Some "Ampere") false false None) = false <->
  ActiveQuiz.start physics
    ([ActiveQuiz.Select "Principle of Conservation of Momentum";
      ActiveQuiz.Next; ActiveQuiz.Tick; ActiveQuiz.Select "Ampere"]
     ++ [ActiveQuiz.Next])
  <> ActiveQuiz.Mounted (ActiveQuiz.mkState 1 1 (Some "Ampere") false false None).
Proof.
  apply (X8_button_enabled_iff_submit_accepted physics
           [ActiveQuiz.Select "Principle of Conservation of Momentum";
            ActiveQuiz.Next; ActiveQuiz.Tick; ActiveQuiz.Select "Ampere"]
           (ActiveQuiz.mkState 1 1 (Some "Ampere") false false None) eq_refl).
Defined.

(* ================================================================= *)
(** ** Start-up and identity *)

Module StringFacts.

Lemma append_length (a b : string) :
  String.length (a ++ b)%string = (String.length a + String.length b)%nat.
Proof. induction a as [| c a IH]; simpl; [reflexivity | now rewrite IH]. Qed.

Lemma append_inj_r (p a b : string) :
  (p ++ a)%string = (p ++ b)%string -> a = b.
Proof.
  induction p as [| c p IH]; simpl; intros H; [exact H |].
  injection H as H. exact (IH H).
Qed.

Lemma units_app (a b : string) :
  Utf16.units (a ++ b)%string = (Utf16.units a + Utf16.units b)%nat.
Proof. induction a as [| c a IH]; simpl; [reflexivity | rewrite IH; lia]. Qed.

Lemma units_continuation (k : nat) (s t r : string) :
  Utf16.continuation k s = (t, r) -> Utf16.units t = 0%nat.
Proof.
  revert s t r. induction k as [| k IH]; intros s t r; simpl.
  - intros H. injection H as <- _. reflexivity.
  - destruct s as [| c s]; [intros H; injection H as <- _; reflexivity |].
    destruct (Utf16.isContinuation c) eqn:E.
    + destruct (Utf16.continuation k s) as [t' r'] eqn:Ek.
      intros H. injection H as <- _. simpl. rewrite E. exact (IH s t' r' Ek).
    + intros H. injection H as <- _. reflexivity.
Qed.

Lemma isContinuation_cont (x : N) : Utf16.isContinuation (Utf16.cont x) = true.
Proof.
  unfold Utf16.isContinuation, Utf16.cont, Utf16.byte.
  assert (H : (N.land x 63 < 64)%N).
  { change 63%N with (N.ones 6). rewrite N.land_ones. now apply N.mod_lt. }
  rewrite N_ascii_embedding by lia.
  apply andb_true_iff. split; [apply N.leb_le | apply N.ltb_lt]; lia.
Qed.

(** Half a surrogate pair is one code unit. *)
Lemma units_highSurrogate (c : ascii) (t : string) :
  Utf16.units (Utf16.highSurrogate c t) = 1%nat.
Proof.
  unfold Utf16.highSurrogate. cbn [Utf16.units].
  rewrite !isContinuation_cont. reflexivity.
Qed.

Lemma units_head (c : ascii) :
  ((if Utf16.isContinuation c then 0 else if Utf16.isAstral c then 2 else 1)
   <= (if Utf16.isAstral c then 2 else 1))%nat.
Proof. destruct (Utf16.isContinuation c), (Utf16.isAstral c); lia. Qed.

(** [s.substring(0, n).length <= n]. *)
Lemma units_take (n : nat) : forall s, (Utf16.units (Utf16.take n s) <= n)%nat.
Proof.
  induction n as [n IH] using lt_wf_ind. intros s.
  destruct n as [| n']; [destruct s; simpl; lia |].
  destruct s as [| c s]; [simpl; lia |].
  cbn [Utf16.take].
  destruct (Utf16.continuation (Utf16.width c) s) as [t r] eqn:Ec.
  pose proof (units_continuation _ _ _ _ Ec) as Ht.
  pose proof (units_head c) as Hc.
  destruct (Utf16.isAstral c) eqn:Ea.
  - destruct n' as [| n''].
    + rewrite units_highSurrogate. lia.
    + cbn [Utf16.units]. rewrite units_app, Ht, Ea.
      pose proof (IH n'' ltac:(lia) r). lia.
  - cbn [Utf16.units]. rewrite units_app, Ht, Ea.
    pose proof (IH n' ltac:(lia) r). lia.
Qed.

(** On ASCII, code units are bytes. *)
Lemma take_ascii (n : nat) : forall s,
  Utf16.isAscii s = true -> Utf16.take n s = String.substring 0 n s.
Proof.
  induction n as [| n IH]; intros s H.
  - destruct s; reflexivity.
  - destruct s as [| c s]; [reflexivity |].
    cbn [Utf16.isAscii] in H. apply andb_true_iff in H. destruct H as [Hc Hs].
    apply N.ltb_lt in Hc.
    cbn [Utf16.take String.substring]. unfold Utf16.width, Utf16.isAstral.
    replace (Utf16.byte c <? 192)%N with true by (symmetry; apply N.ltb_lt; lia).
    replace (240 <=? Utf16.byte c)%N with false by (symmetry; apply N.leb_gt; lia).
    cbn [Utf16.continuation append]. now rewrite IH.
Qed.

End StringFacts.

(** X9: start-up goes on to Firebase exactly when the API key, the project
    id and the app id are all non-empty; otherwise it stops on the error
    screen, loading over, with a message that lists the empty ones among
    these three and nothing else. *)
Theorem X9_config_check (c : App.FirebaseConfig) (s : App.State) :
  (Views.checkConfig c s = None <->
   App.apiKey c <> "" /\ App.projectId c <> "" /\ App.appId c <> "") /\
  (forall s',
     Views.checkConfig c s = Some s' ->
     s' = App.onConfigMissing (App.missing c) s /\
     App.isLoading s' = false /\
     fatal s' /\
     App.db s' = App.db s /\ App.userId s' = App.userId s) /\
  (forall k,
     In k (App.missing c) <->
     (k = "apiKey" /\ App.apiKey c = "") \/
     (k = "projectId" /\ App.projectId c = "") \/
     (k = "appId" /\ App.appId c = "")).
Proof.
  unfold Views.checkConfig, App.missing. cbn [filter snd map fst].
  pose proof (String.eqb_eq (App.apiKey c) "") as Ea.
  pose proof (String.eqb_eq (App.projectId c) "") as Ep.
  pose proof (String.eqb_eq (App.appId c) "") as Ei.
  pose proof (String.eqb_neq (App.apiKey c) "") as Na.
  pose proof (String.eqb_neq (App.projectId c) "") as Np.
  pose proof (String.eqb_neq (App.appId c) "") as Ni.
  split; [| split].
  - destruct (String.eqb (App.apiKey c) ""), (String.eqb (App.projectId c) ""),
      (String.eqb (App.appId c) ""); cbn [map fst];
      intuition (discriminate || congruence).
  - intros s' H.
    assert (Hs' : exists keys, s' = App.onConfigMissing keys s /\
                    keys = map fst
                      (filter (fun kv => String.eqb (snd kv) "")
                         [("apiKey", App.apiKey c);
                          ("projectId", App.projectId c);
                          ("appId", App.appId c)])).
    { cbn [filter snd map fst].
      destruct (String.eqb (App.apiKey c) ""), (String.eqb (App.projectId c) ""),
        (String.eqb (App.appId c) ""); cbn [map fst] in *;
        try discriminate; injection H as <-; eexists; split; reflexivity. }
    destruct Hs' as (keys & -> & ->).
    split; [reflexivity |]. split; [reflexivity |].
    split; [| split; reflexivity].
    apply ErrorFacts.fatal_iff. split; [reflexivity |].
    eexists. split; [reflexivity | discriminate].
  - intros k.
    destruct (String.eqb (App.apiKey c) ""), (String.eqb (App.projectId c) ""),
      (String.eqb (App.appId c) ""); cbn [map fst In];
      intuition (discriminate || congruence).
Qed.

(** X10: a sign-in notification ends loading and leaves a non-empty display
    name: the provider's when it has one, and otherwise "User-" followed by
    the first eight UTF-16 code units of the user id, thirteen code units at
    most (for an ASCII user id, its first eight characters); a sign-out
    notification ends loading too and clears the user id and the name,
    after which neither action does anything.  Neither touches the error
    message, the view or the records held. *)
Theorem X10_auth_state_change (user : option User) (s : App.State) :
  App.isLoading (App.onAuthStateChanged user s) = false /\
  App.error (App.onAuthStateChanged user s) = App.error s /\
  App.appState (App.onAuthStateChanged user s) = App.appState s /\
  App.userVerifications (App.onAuthStateChanged user s)
  = App.userVerifications s /\
  match user with
  | Some u =>
      App.userId (App.onAuthStateChanged user s) = Some (uid u) /\
      exists d,
        App.displayName (App.onAuthStateChanged user s) = Some d /\
        d <> "" /\
        (forall n, user_displayName u = Some n -> n <> "" -> d = n) /\
        (user_displayName u = None \/ user_displayName u = Some "" ->
         d = ("User-" ++ Utf16.take 8 (uid u))%string /\
         (Utf16.units d <= 13)%nat /\
         (Utf16.isAscii (uid u) = true ->
          d = ("User-" ++ String.substring 0 8 (uid u))%string))
  | None =>
      App.userId (App.onAuthStateChanged user s) = None /\
      App.displayName (App.onAuthStateChanged user s) = None /\
      App.identity (App.onAuthStateChanged user s) = None
  end.
Proof.
  assert (Hname : forall i,
             (Utf16.units ("User-" ++ Utf16.take 8 i)%string <= 13)%nat /\
             (Utf16.isAscii i = true ->
              ("User-" ++ Utf16.take 8 i)%string
              = ("User-" ++ String.substring 0 8 i)%string)).
  { intros i. split.
    - rewrite StringFacts.units_app.
      pose proof (StringFacts.units_take 8 i) as H.
      change (Utf16.units "User-") with 5%nat. lia.
    - intros H. now rewrite StringFacts.take_ascii. }
  destruct user as [u |]; cbn [App.onAuthStateChanged].
  - do 5 (split; [reflexivity |]).
    cbn [App.setIsLoading App.setDisplayName App.setUserId App.displayName
           App.userId].
    eexists. split; [reflexivity |].
    unfold truthy. destruct (user_displayName u) as [n |] eqn:En.
    + destruct (String.eqb n "") eqn:E; cbn [negb].
      * apply String.eqb_eq in E. subst n.
        split; [discriminate |]. split; [intros n' H; congruence |].
        intros _. split; [reflexivity | apply Hname].
      * apply String.eqb_neq in E.
        split; [exact E |]. split; [intros n' H; congruence |].
        intros [H | H]; congruence.
    + cbn [negb]. split; [discriminate |]. split; [intros n' H; discriminate |].
      intros _. split; [reflexivity | apply Hname].
  - do 6 (split; [reflexivity |]).
    unfold App.identity. cbn [App.setIsLoading App.setDisplayName App.setUserId
      App.db App.userId]. now destruct (App.db s).
Qed.

Lemma includes_In (xs : list string) (x : string) :
  includes xs x = true <-> In x xs.
Proof.
  unfold includes. rewrite existsb_exists. split.
  - intros (y & Hy & E). apply String.eqb_eq in E. now subst.
  - intros H. exists x. split; [exact H | apply String.eqb_refl].
Qed.



(* ================================================================= *)
(** ** Writes, verification and navigation *)

Module AppFacts.
Import App.

Lemma renderContent_not_Loading (s : State) : renderContent s <> Loading.
Proof.
  unfold renderContent, QuizCategorySelectionView.
  destruct (appState s); try discriminate.
  destruct (activeQuizCategory s) as [c |]; [| discriminate].
  destruct (String.eqb c ""); [discriminate |].
  destruct (getProperty QUIZ_DATA c); discriminate.
Qed.

Lemma render_Loading (s : State) : render s = Loading <-> isLoading s = true.
Proof.
  unfold render. destruct (isLoading s); [tauto |].
  split; [| discriminate].
  pose proof (renderContent_not_Loading s) as H.
  destruct (error s) as [m |]; [destruct (String.eqb m "") |];
    intros E; try contradiction; discriminate.
Qed.

Lemma lookupQuiz_Some (data : QuizData) (c : string) :
  In c (quizKeys data) <-> exists qd, lookupQuiz data c = Some qd.
Proof.
  induction data as [| [k qs] data IH]; simpl.
  - split; [tauto | intros [qd H]; discriminate].
  - destruct (String.eqb k c) eqn:E.
    + apply String.eqb_eq in E. split; [eauto | auto].
    + apply String.eqb_neq in E. rewrite <- IH. tauto.
Qed.

Lemma lookupQuiz_None (data : QuizData) (c : string) :
  ~ In c (quizKeys data) <-> lookupQuiz data c = None.
Proof.
  rewrite lookupQuiz_Some. destruct (lookupQuiz data c) as [qd |].
  - split; [intros H; exfalso; eauto | discriminate].
  - split; [reflexivity | intros _ [qd H]; discriminate].
Qed.

Lemma signedIn_cons (e : Controller.Event) (es : list Controller.Event)
    (u : string) :
  In u (signedIn es) -> In u (signedIn (e :: es)).
Proof. destruct e; try destruct user; simpl; auto. Qed.

Section WithAppId.
Variable APP_ID : string.

Ltac writes :=
  repeat match goal with
         | H : False |- _ => destruct H
         | H : _ = _ \/ _ |- _ => destruct H as [<- | H]
         | H : In _ [] |- _ => destruct H
         | H : In _ (_ :: _) |- _ => destruct H as [<- | H]
         | H : writer _ = Some _ |- _ =>
             simpl in H; first [discriminate H | injection H as <-]
         end.

(** A write goes under the identity of the state the handler ran in. *)
Lemma handle_write_identity (e : Controller.Event) (s : State) (w : Effect)
    (u : string) :
  In w (snd (Controller.handle APP_ID e s)) -> writer w = Some u ->
  identity s = Some u.
Proof.
  destruct e; simpl; intros Hin Hw; writes.
  - unfold handlePostQuestion in Hin.
    destruct (identity s) as [v |]; [| destruct Hin].
    destruct writeOk; simpl in Hin; writes; reflexivity.
  - unfold onComplete, handleQuizComplete in Hin.
    change (identity (setAppState feed s)) with (identity s) in Hin.
    destruct (ActiveQuiz.oc_category c) as [cat |]; [| destruct Hin].
    destruct (ActiveQuiz.oc_finalScore c) as [f |]; [| destruct Hin].
    destruct (ActiveQuiz.oc_total c) as [t |]; [| destruct Hin].
    destruct (String.eqb cat ""); [destruct Hin |].
    destruct (identity s) as [v |]; [| destruct Hin].
    destruct (passed f t); [| destruct Hin].
    destruct writeOk; simpl in Hin; writes; reflexivity.
Qed.

Lemma handle_userId (e : Controller.Event) (s : State) (u : string) :
  userId (fst (Controller.handle APP_ID e s)) = Some u ->
  userId s = Some u \/
  exists usr, e = Controller.AuthStateChanged (Some usr) /\ uid usr = u.
Proof.
  destruct e; simpl; auto.
  - destruct user as [usr |]; simpl; [| discriminate].
    intros H. injection H as <-. right. eauto.
  - destruct snap; auto.
  - unfold handlePostQuestion. destruct (identity s); [| auto].
    destruct writeOk; auto.
  - unfold onComplete, handleQuizComplete.
    destruct (ActiveQuiz.oc_category c) as [cat |]; [| auto].
    destruct (ActiveQuiz.oc_finalScore c) as [f |]; [| auto].
    destruct (ActiveQuiz.oc_total c) as [t |]; [| auto].
    destruct (String.eqb cat ""); [auto |].
    destruct (identity (setAppState feed s)); [| auto].
    destruct (passed f t); [destruct writeOk |]; auto.
Qed.

Lemma handle_db (e : Controller.Event) (s : State) :
  db (fst (Controller.handle APP_ID e s)) <> None ->
  db s <> None \/ e = Controller.FirestoreReady.
Proof.
  destruct e; simpl; auto.
  - destruct user; auto.
  - destruct snap; auto.
  - unfold handlePostQuestion. destruct (identity s); [| auto].
    destruct writeOk; auto.
  - unfold onComplete, handleQuizComplete.
    destruct (ActiveQuiz.oc_category c) as [cat |]; [| auto].
    destruct (ActiveQuiz.oc_finalScore c) as [f |]; [| auto].
    destruct (ActiveQuiz.oc_total c) as [t |]; [| auto].
    destruct (String.eqb cat ""); [auto |].
    destruct (identity (setAppState feed s)); [| auto].
    destruct (passed f t); [destruct writeOk |]; auto.
Qed.

Lemma run_write (es : list Controller.Event) (s : State) (w : Effect)
    (u : string) :
  In w (snd (Controller.run APP_ID es s)) -> writer w = Some u ->
  u <> "" /\
  (userId s = Some u \/ In u (signedIn es)) /\
  (db s <> None \/ In Controller.FirestoreReady es).
Proof.
  revert s. induction es as [| e es IH]; intros s Hin Hw; [destruct Hin |].
  cbn [Controller.run] in Hin.
  destruct (Controller.handle APP_ID e s) as [s1 out1] eqn:E1.
  destruct (Controller.run APP_ID es s1) as [s2 out2] eqn:E2.
  cbn [snd] in Hin. apply in_app_or in Hin. destruct Hin as [Hin | Hin].
  - assert (Hid : identity s = Some u).
    { apply (handle_write_identity e s w u); [now rewrite E1 | exact Hw]. }
    apply identity_Some in Hid. destruct Hid as (Hdb & Hu & Hne). auto.
  - assert (Hin2 : In w (snd (Controller.run APP_ID es s1)))
      by now rewrite E2.
    destruct (IH s1 Hin2 Hw) as (Hne & Hu & Hdb).
    split; [exact Hne |]. split.
    + destruct Hu as [Hu | Hu].
      * pose proof (handle_userId e s u) as H. rewrite E1 in H.
        destruct (H Hu) as [Hs | (usr & -> & <-)]; [now left |].
        right. simpl. now left.
      * right. now apply signedIn_cons.
    + destruct Hdb as [Hdb | Hdb].
      * pose proof (handle_db e s) as H. rewrite E1 in H.
        destruct (H Hdb) as [Hs | ->]; [now left |]. right. now left.
      * right. now right.
Qed.

(** Loading lasts until the first event that ends it. *)
Lemma handle_isLoading (e : Controller.Event) (s : State) :
  isLoading (fst (Controller.handle APP_ID e s))
  = isLoading s && negb (Views.endsLoading e).
Proof.
  destruct e; simpl; rewrite ?andb_true_r, ?andb_false_r; try reflexivity.
  - destruct user; reflexivity.
  - destruct snap; reflexivity.
  - unfold handlePostQuestion. destruct (identity s); [| reflexivity].
    destruct writeOk; reflexivity.
  - unfold onComplete, handleQuizComplete.
    destruct (ActiveQuiz.oc_category c) as [cat |]; [| reflexivity].
    destruct (ActiveQuiz.oc_finalScore c) as [f |]; [| reflexivity].
    destruct (ActiveQuiz.oc_total c) as [t |]; [| reflexivity].
    destruct (String.eqb cat ""); [reflexivity |].
    destruct (identity (setAppState feed s)); [| reflexivity].
    destruct (passed f t); [destruct writeOk |]; reflexivity.
Qed.

Lemma run_isLoading (es : list Controller.Event) (s : State) :
  isLoading (fst (Controller.run APP_ID es s))
  = isLoading s && forallb (fun e => negb (Views.endsLoading e)) es.
Proof.
  revert s. induction es as [| e es IH]; intros s.
  - simpl. now rewrite andb_true_r.
  - cbn [Controller.run forallb].
    pose proof (handle_isLoading e s) as H.
    destruct (Controller.handle APP_ID e s) as [s1 out1].
    pose proof (IH s1) as H1.
    destruct (Controller.run APP_ID es s1) as [s2 out2].
    cbn [fst] in *. rewrite H1, H. now rewrite andb_assoc.
Qed.

End WithAppId.

End AppFacts.

(** X12: whatever the event and the state, a store write the handler
    attempts goes under the signed-in user's own id, and it is one of two
    writes: the question just posted, as typed, with status Open, into the
    questions collection; or, for a completion with a category and a passing
    score, the user's verification record with the category merged into the
    list in force. *)
Theorem X12_every_write_is_the_users_own (APP_ID : string)
    (e : Controller.Event) (s : App.State) (w : Effect) (u : string) :
  In w (snd (Controller.handle APP_ID e s)) -> writer w = Some u ->
  App.identity s = Some u /\
  ((exists title body category now writeOk,
      e = Controller.PostQuestion title body category now writeOk /\
      w = addDoc (App.getPublicCollectionPath APP_ID "questions")
            (mkNewQuestion title body u category now Open)) \/
   (exists category score total writeOk,
      e = Controller.QuizCompletes
            (ActiveQuiz.mkCompletion (Some category) (Some score) (Some total))
            writeOk /\
      category <> "" /\ passed score total = true /\
      w = setDoc_merge
            (App.getPublicCollectionPath APP_ID "expert_verifications") u
            (mkVerificationWrite (App.displayName s)
               (newCategories
                  (VerificationDoc.verifiedCategories
                     (App.currentUserVerifications s))
                  category)))).
Proof.
  intros Hin Hw.
  pose proof (AppFacts.handle_write_identity APP_ID e s w u Hin Hw) as Hid.
  split; [exact Hid |].
  destruct e; simpl in Hin;
    repeat match goal with
           | H : False |- _ => destruct H
           | H : _ = _ \/ _ |- _ => destruct H as [<- | H]
           end;
    try discriminate Hw.
  - left. unfold App.handlePostQuestion in Hin. rewrite Hid in Hin.
    exists title, body, category, now, writeOk. split; [reflexivity |].
    destruct writeOk; simpl in Hin; destruct Hin as [<- | Hin];
      try reflexivity; try destruct Hin as [<- | []]; try destruct Hin;
      discriminate Hw.
  - right. unfold App.onComplete, App.handleQuizComplete in Hin.
    change (App.identity (App.setAppState feed s)) with (App.identity s) in Hin.
    change (App.currentUserVerifications (App.setAppState feed s))
      with (App.currentUserVerifications s) in Hin.
    change (App.displayName (App.setAppState feed s))
      with (App.displayName s) in Hin.
    rewrite Hid in Hin.
    destruct c as [[cat |] [f |] [t |]]; simpl in Hin; try destruct Hin.
    destruct (String.eqb cat "") eqn:Ec; [destruct Hin |].
    apply String.eqb_neq in Ec.
    destruct (passed f t) eqn:Ep; [| destruct Hin].
    exists cat, f, t, writeOk. split; [reflexivity |].
    split; [exact Ec |]. split; [exact Ep |].
    destruct writeOk; simpl in Hin; destruct Hin as [<- | Hin];
      try reflexivity; try destruct Hin as [<- | []]; try destruct Hin;
      discriminate Hw.
Qed.

(** The signed-in user posts a question. *)
Lemma X12_witness : App.identity ready = Some "u-0001".
Proof.
  apply (proj1 (X12_every_write_is_the_users_own "default-app-id"
                  (Controller.PostQuestion "Title" "Body" "Physics" 0 true)
                  ready
                  (addDoc "artifacts/default-app-id/public/data/questions"
                     (mkNewQuestion "Title" "Body" "u-0001" "Physics" 0 Open))
                  "u-0001" (or_introl eq_refl) eq_refl)).
Defined.

(** X13: from start-up on, whatever happens, every store write the
    application attempts goes under a non-empty user id that the identity
    service announced earlier, and after the database handle was set. *)
Theorem X13_writes_only_for_announced_users (APP_ID : string)
    (es : list Controller.Event) (w : Effect) (u : string) :
  In w (snd (Controller.run APP_ID es App.initial)) -> writer w = Some u ->
  u <> "" /\ In u (signedIn es) /\ In Controller.FirestoreReady es.
Proof.
  intros Hin Hw.
  destruct (AppFacts.run_write APP_ID es App.initial w u Hin Hw)
    as (Hne & Hu & Hdb).
  split; [exact Hne |]. split.
  - destruct Hu as [Hu | Hu]; [discriminate Hu | exact Hu].
  - destruct Hdb as [Hdb | Hdb]; [now contradiction Hdb | exact Hdb].
Qed.

(** Start-up, sign-in, then a question is posted. *)
Lemma X13_witness :
  In "u-0001"
    (signedIn [Controller.FirestoreReady;
               Controller.AuthStateChanged (Some (mkUser "u-0001" None));
               Controller.PostQuestion "Title" "Body" "Physics" 0 true]).
Proof.
  apply (proj1 (proj2 (X13_writes_only_for_announced_users "default-app-id"
                  [Controller.FirestoreReady;
                   Controller.AuthStateChanged (Some (mkUser "u-0001" None));
                   Controller.PostQuestion "Title" "Body" "Physics" 0 true]
                  (addDoc "artifacts/default-app-id/public/data/questions"
                     (mkNewQuestion "Title" "Body" "u-0001" "Physics" 0 Open))
                  "u-0001" (or_introl eq_refl) eq_refl))).
Defined.

(** X14: what the application shows as verified changes only when a
    verification snapshot arrives or the identity changes: no other event,
    a passed quiz included, alters the record in force, so the category
    rows and the answer buttons stay as they were until the store answers. *)
Theorem X14_verified_only_by_snapshot (APP_ID : string)
    (e : Controller.Event) (s : App.State) :
  (forall u snap, e <> Controller.VerificationSnapshot u snap) ->
  (forall user, e <> Controller.AuthStateChanged user) ->
  App.currentUserVerifications (fst (Controller.handle APP_ID e s))
  = App.currentUserVerifications s /\
  (forall c,
     Views.categoryRow (fst (Controller.handle APP_ID e s)) c
     = Views.categoryRow s c).
Proof.
  intros Hs Ha.
  assert (H : App.currentUserVerifications (fst (Controller.handle APP_ID e s))
              = App.currentUserVerifications s).
  { destruct e; simpl; try reflexivity.
    - now contradiction (Ha user).
    - now contradiction (Hs userId snap).
    - unfold App.handlePostQuestion. destruct (App.identity s); [| reflexivity].
      destruct writeOk; reflexivity.
    - unfold App.onComplete, App.handleQuizComplete.
      destruct (ActiveQuiz.oc_category c) as [cat |]; [| reflexivity].
      destruct (ActiveQuiz.oc_finalScore c) as [f |]; [| reflexivity].
      destruct (ActiveQuiz.oc_total c) as [t |]; [| reflexivity].
      destruct (String.eqb cat ""); [reflexivity |].
      destruct (App.identity (App.setAppState feed s)); [| reflexivity].
      destruct (passed f t); [destruct writeOk |]; reflexivity. }
  split; [exact H |].
  intros c. unfold Views.categoryRow, App.isVerified. now rewrite H.
Qed.

(** A perfect Physics quiz is written, and the row still offers the quiz. *)
Lemma X14_witness :
  Views.categoryRow
    (fst (Controller.handle "default-app-id"
            (Controller.QuizCompletes
               (ActiveQuiz.mkCompletion (Some "Physics") (Some 3) (Some 3)) true)
            ready))
    "Physics"
  = Views.StartQuiz.
Proof.
  rewrite (proj2 (X14_verified_only_by_snapshot "default-app-id"
                    (Controller.QuizCompletes
                       (ActiveQuiz.mkCompletion (Some "Physics") (Some 3)
                          (Some 3)) true)
                    ready
                    ltac:(discriminate) ltac:(discriminate)) "Physics").
  reflexivity.
Defined.

(** X15: the verification write of a passed quiz comes back in a snapshot
    of the document it was written to, which after the merge has the
    written name and categories and keeps the fields it had otherwise.
    When that document has no field [id], or one that is the user's id,
    the category of the quiz then shows as verified, every category that
    showed as verified still does, and nothing else has become verified.
    When it has a field [id] that is not the user's id, the record is filed
    under that id and no category shows as verified. *)
Theorem X15_echoed_pass_shows_verified (APP_ID : string) (s : App.State)
    (category : string) (score total : Z) (writeOk : bool)
    (path docId : string) (w : VerificationWrite)
    (idField : option string) (lastUpdated : option Timestamp) :
  In (setDoc_merge path docId w)
     (snd (App.handleQuizComplete APP_ID s category score total writeOk)) ->
  let s' :=
    App.onVerificationSnapshot docId
      (Some (mkVerificationData idField (vw_displayName w)
               (vw_verifiedCategories w) lastUpdated))
      (fst (App.handleQuizComplete APP_ID s category score total writeOk)) in
  (idField = None \/ idField = Some docId ->
   Views.categoryRow s' category = Views.Verified /\
   (forall c, App.isVerified s c = true -> App.isVerified s' c = true) /\
   (forall c, App.isVerified s' c = true ->
              App.isVerified s c = true \/ c = category)) /\
  (forall i, idField = Some i -> i <> docId ->
   forall c, App.isVerified s' c = false).
Proof.
  intros Hin s'.
  assert (Hw : App.userId s' = Some docId /\
               vw_verifiedCategories w
               = newCategories
                   (VerificationDoc.verifiedCategories
                      (App.currentUserVerifications s))
                   category).
  { subst s'. unfold App.handleQuizComplete in *.
    destruct (App.identity s) as [u |] eqn:Hid; [| destruct Hin].
    apply identity_Some in Hid. destruct Hid as (_ & Hu & _).
    destruct (passed score total); [| destruct Hin].
    destruct writeOk; simpl in Hin;
      destruct Hin as [Hin | Hin];
      try (injection Hin as _ <- <-; split; [exact Hu | reflexivity]);
      try destruct Hin as [Hin | []]; try discriminate Hin;
      try destruct Hin. }
  destruct Hw as [Hu Hw].
  assert (Hcur : App.currentUserVerifications s'
                 = if String.eqb
                        (App.recordId docId
                           (mkVerificationData idField (vw_displayName w)
                              (vw_verifiedCategories w) lastUpdated))
                        docId
                   then VerificationDoc.mk docId (vw_displayName w)
                          (vw_verifiedCategories w) lastUpdated
                   else VerificationDoc.mk docId None [] None).
  { unfold App.currentUserVerifications. rewrite Hu.
    assert (Hne : docId <> "").
    { subst s'. unfold App.handleQuizComplete in Hin.
      destruct (App.identity s) as [u |] eqn:Hid; [| destruct Hin].
      apply identity_Some in Hid. destruct Hid as (_ & _ & Hne).
      destruct (passed score total); [| destruct Hin].
      destruct writeOk; simpl in Hin;
        destruct Hin as [Hin | Hin];
        try (injection Hin as _ <- _; exact Hne);
        try destruct Hin as [Hin | []]; try discriminate Hin;
        try destruct Hin. }
    apply String.eqb_neq in Hne. rewrite Hne.
    subst s'. unfold App.onVerificationSnapshot.
    cbn [App.setUserVerifications App.userVerifications find VerificationDoc.id].
    destruct (String.eqb _ docId) eqn:E; [| reflexivity].
    apply String.eqb_eq in E. now rewrite E. }
  split.
  - intros Hid.
    assert (Hv : VerificationDoc.verifiedCategories
                   (App.currentUserVerifications s')
                 = newCategories
                     (VerificationDoc.verifiedCategories
                        (App.currentUserVerifications s))
                     category).
    { rewrite Hcur. unfold App.recordId. cbn [vd_id].
      destruct Hid as [-> | ->]; rewrite String.eqb_refl; exact Hw. }
    assert (Hc : forall c,
               App.isVerified s' c = true <->
               App.isVerified s c = true \/ c = category).
    { intros c. unfold App.isVerified. rewrite Hv, !includes_In.
      apply In_newCategories. }
    split; [| split].
    + unfold Views.categoryRow.
      replace (App.isVerified s' category) with true; [reflexivity |].
      symmetry. apply Hc. now right.
    + intros c H. apply Hc. now left.
    + intros c H. now apply Hc.
  - intros i -> Hi c. unfold App.isVerified. rewrite Hcur.
    unfold App.recordId. cbn [vd_id].
    apply String.eqb_neq in Hi. now rewrite Hi.
Qed.

(** The signed-in user, verified in Physics, passes Web Development. *)
Lemma X15_witness :
  App.isVerified
    (App.onVerificationSnapshot "u-0001"
       (Some (mkVerificationData None (Some "User-u-0001")
                ["Physics"; "Web Development"] None))
       (fst (App.handleQuizComplete "default-app-id" (readyWith ["Physics"])
               "Web Development" 2 2 true)))
    "Physics"
  = true.
Proof.
  apply (proj1 (proj2 (proj1 (X15_echoed_pass_shows_verified "default-app-id"
                  (readyWith ["Physics"]) "Web Development" 2 2 true
                  "artifacts/default-app-id/public/data/expert_verifications"
                  "u-0001"
                  (mkVerificationWrite (Some "User-u-0001")
                     ["Physics"; "Web Development"])
                  None None (or_introl eq_refl)) (or_introl eq_refl)))
           "Physics").
  reflexivity.
Defined.

(** X16: the post form writes exactly when title and body are not blank,
    a category is chosen and the user is signed in; otherwise submitting
    changes nothing.  What is written is the title and the body as typed,
    not trimmed, under the user's id, with status Open; when the write
    succeeds the view returns to the feed and the error message is left
    alone, when it fails the form stays and an error message is set. *)
Theorem X16_post_form (APP_ID : string) (trim : string -> string)
    (s : App.State) (title body category : string) (now : Z) (writeOk : bool) :
  let out := Views.handleSubmit APP_ID trim s title body category now writeOk in
  (existsb isWrite (snd out) = true <->
   trim title <> "" /\ trim body <> "" /\ category <> "" /\
   App.identity s <> None) /\
  (existsb isWrite (snd out) = false -> out = (s, [])) /\
  (forall u,
     existsb isWrite (snd out) = true -> App.identity s = Some u ->
     In (addDoc (App.getPublicCollectionPath APP_ID "questions")
           (mkNewQuestion title body u category now Open)) (snd out) /\
     (forall w, In w (snd out) -> isWrite w = true ->
                w = addDoc (App.getPublicCollectionPath APP_ID "questions")
                      (mkNewQuestion title body u category now Open)) /\
     if writeOk
     then fst out = App.setAppState feed s
     else App.appState (fst out) = App.appState s /\
          exists m, App.error (fst out) = Some m /\ m <> "").
Proof.
  intros out. subst out. unfold Views.handleSubmit, App.handlePostQuestion.
  pose proof (String.eqb_neq (trim title) "") as Nt.
  pose proof (String.eqb_neq (trim body) "") as Nb.
  pose proof (String.eqb_neq category "") as Nc.
  destruct (String.eqb (trim title) ""), (String.eqb (trim body) ""),
    (String.eqb category ""); cbn [negb andb];
    try (cbn [snd existsb]; split;
         [split; [discriminate | intros (A & B & C & _)];
          first [now apply Nt in A | now apply Nb in B | now apply Nc in C]
         | split; [reflexivity | discriminate]]).
  destruct (App.identity s) as [u |].
  - destruct writeOk; cbn [snd fst existsb isWrite orb].
    + split; [split; [intros _ | reflexivity] |].
      { repeat split; try discriminate;
          first [now apply Nt | now apply Nb | now apply Nc]. }
      split; [discriminate |].
      intros u' _ Hu. injection Hu as <-.
      split; [now left |]. split; [| reflexivity].
      intros w [<- | []] _. reflexivity.
    + split; [split; [intros _ | reflexivity] |].
      { repeat split; try discriminate;
          first [now apply Nt | now apply Nb | now apply Nc]. }
      split; [discriminate |].
      intros u' _ Hu. injection Hu as <-.
      split; [now left |]. split.
      * intros w [<- | [<- | []]] Hw; [reflexivity | discriminate Hw].
      * split; [reflexivity |]. eexists. split; [reflexivity | discriminate].
  - cbn [snd existsb]. split.
    + split; [discriminate | intros (_ & _ & _ & H); now contradiction H].
    + split; [reflexivity | discriminate].
Qed.

(** X17: from a loaded application without an error, Take Quiz followed by
    Start Quiz on a category puts the quiz of that category on screen when
    the category is one of those listed, with its bank from the quiz data,
    a bank that has a question, so that the session cannot crash.  For a
    non-empty category that is not listed, the lookup falls through to
    [Object.prototype]: under one of the names found there the quiz
    component is rendered on a value that is no bank, and under any other
    name the screen says that no quiz data was found. *)
Theorem X17_start_quiz (APP_ID : string) (s : App.State) (category : string) :
  App.isLoading s = false -> App.error s = None -> category <> "" ->
  let s' :=
    fst (Controller.run APP_ID
           [Controller.ClickTakeQuiz; Controller.ClickStartQuiz category] s) in
  (In category Views.availableCategories ->
   exists qd,
     lookupQuiz QUIZ_DATA category = Some qd /\
     App.render s' = App.ActiveQuizView (ActiveQuiz.mkProps category qd) /\
     qd <> [] /\
     forall es,
       ActiveQuiz.start (ActiveQuiz.mkProps category qd) es
       <> ActiveQuiz.Crashed) /\
  (~ In category Views.availableCategories ->
   In category objectPrototypeKeys ->
   App.render s' = App.ActiveQuizOnInherited category) /\
  (~ In category Views.availableCategories ->
   ~ In category objectPrototypeKeys ->
   App.render s' = App.QuizDataNotFound category).
Proof.
  intros Hl He Hc s'.
  assert (Hr : App.render s'
               = match getProperty QUIZ_DATA category with
                 | Undefined => App.QuizDataNotFound category
                 | Bank qd => App.ActiveQuizView (ActiveQuiz.mkProps category qd)
                 | Inherited => App.ActiveQuizOnInherited category
                 end).
  { subst s'. unfold App.render.
    cbn [Controller.run Controller.handle fst App.setActiveQuizCategory
           App.setAppState App.isLoading App.error].
    rewrite Hl, He.
    unfold App.renderContent, App.QuizCategorySelectionView.
    cbn [App.appState App.activeQuizCategory App.setActiveQuizCategory
           App.setAppState].
    apply String.eqb_neq in Hc. now rewrite Hc. }
  assert (Hi : inherited category = true <-> In category objectPrototypeKeys).
  { unfold inherited. rewrite existsb_exists. split.
    - intros (y & Hy & E). apply String.eqb_eq in E. now subst.
    - intros H. exists category. split; [exact H | apply String.eqb_refl]. }
  unfold getProperty in Hr.
  split; [| split].
  - intros Hin. apply AppFacts.lookupQuiz_Some in Hin. destruct Hin as [qd Hq].
    exists qd. rewrite Hr, Hq. split; [reflexivity |]. split; [reflexivity |].
    pose proof (RenderFacts.QUIZ_DATA_nonempty category qd Hq) as Hne.
    split; [exact Hne |].
    intros es. now apply SessionFacts.start_no_crash.
  - intros Hin Hinh. apply AppFacts.lookupQuiz_None in Hin.
    apply Hi in Hinh. now rewrite Hr, Hin, Hinh.
  - intros Hin Hinh. apply AppFacts.lookupQuiz_None in Hin.
    rewrite Hr, Hin. destruct (inherited category) eqn:E; [| reflexivity].
    exfalso. apply Hinh, Hi. reflexivity.
Qed.

(** The signed-in user starts the Physics quiz. *)
Lemma X17_witness :
  exists qd,
    lookupQuiz QUIZ_DATA "Physics" = Some qd /\
    App.render
      (fst (Controller.run "default-app-id"
              [Controller.ClickTakeQuiz; Controller.ClickStartQuiz "Physics"]
              ready))
    = App.ActiveQuizView (ActiveQuiz.mkProps "Physics" qd) /\
    qd <> [] /\
    forall es,
      ActiveQuiz.start (ActiveQuiz.mkProps "Physics" qd) es
      <> ActiveQuiz.Crashed.
Proof.
  apply (proj1 (X17_start_quiz "default-app-id" ready "Physics"
                  eq_refl eq_refl ltac:(discriminate))).
  simpl. now left.
Defined.

(** X18: after start-up the loading screen is shown exactly as long as no
    event has ended loading: a missing configuration, a sign-in error, an
    initialisation error or a notification from the identity service.  No
    snapshot, click or action ends it, and nothing brings it back. *)
Theorem X18_loading_until_first_answer (APP_ID : string)
    (es : list Controller.Event) :
  App.render (fst (Controller.run APP_ID es App.initial)) = App.Loading <->
  forallb (fun e => negb (Views.endsLoading e)) es = true.
Proof.
  rewrite AppFacts.render_Loading, AppFacts.run_isLoading. reflexivity.
Qed.

(** X19: with the quiz data as shipped, every bank has at most three
    questions, so a quiz passes only with every answer right. *)
Theorem X19_shipped_banks_need_every_answer (category : string)
    (qd : list QuizQuestion) (score : Z) :
  lookupQuiz QUIZ_DATA category = Some qd ->
  0 <= score <= Z.of_nat (length qd) ->
  (passed score (Z.of_nat (length qd)) = true <-> score = Z.of_nat (length qd)).
Proof.
  unfold QUIZ_DATA. cbn [lookupQuiz].
  repeat (match goal with
          | |- context [String.eqb ?a category] =>
              destruct (String.eqb a category)
          end;
          [intros H; injection H as <-; cbn [length]; intros Hs;
           rewrite passed_iff by (simpl; lia); lia |]).
  discriminate.
Qed.

(** Two of the three Physics answers right: not a pass. *)
Lemma X19_witness : passed 2 3 = true <-> 2 = 3.
Proof.
  apply (X19_shipped_banks_need_every_answer "Physics"
           (ActiveQuiz.quizData physics) 2 eq_refl).
  simpl. lia.
Defined.

(** X20: the pass test is monotone: a score that passes a quiz still passes
    when it is higher or when the quiz has fewer questions (counts below
    2^32). *)
Theorem X20_passed_is_monotone (score score' total total' : Z) :
  0 < total' <= total -> total < 2 ^ 32 ->
  0 <= score <= score' -> score' < 2 ^ 32 ->
  passed score total = true -> passed score' total' = true.
Proof.
  intros Ht Htb Hs Hsb. rewrite !passed_iff by lia. lia.
Qed.

Lemma X20_witness : passed 8 10 = true.
Proof.
  apply (X20_passed_is_monotone 7 8 10 10); try lia; reflexivity.
Defined.

(** X21: the pass test on a total of zero, which no quiz session reports:
    the division gives infinity for a positive score, which passes, and a
    NaN for a score of zero, which does not. *)
Theorem X21_zero_total (score : Z) :
  0 <= score < 2 ^ 32 -> passed score 0 = (0 <? score).
Proof.
  intros Hs. change (2 ^ 32) with 4294967296 in Hs.
  unfold passed, Number.geq, Number.div.
  rewrite leb_spec, div_spec, Binary64Facts.Prim2SF_threshold.
  cbn [Number.of_Z]. rewrite Binary64Facts.Prim2SF_zero.
  destruct score as [| p | p]; try lia.
  - cbn [Number.of_Z]. rewrite Binary64Facts.Prim2SF_zero. reflexivity.
  - destruct (Binary64Facts.normalised p) as (m & B & d & Hm & _);
      [unfold Binary64.two52; lia |].
    rewrite Hm. reflexivity.
Qed.

Lemma X21_witness : passed 1 0 = true.
Proof. apply (X21_zero_total 1). lia. Defined.

(** X22: for a given application id, different collection names give
    different paths; in particular questions and verification records
    never share a collection. *)
Theorem X22_collections_are_separate (APP_ID a b : string) :
  (App.getPublicCollectionPath APP_ID a = App.getPublicCollectionPath APP_ID b
   <-> a = b) /\
  App.getPublicCollectionPath APP_ID "questions"
  <> App.getPublicCollectionPath APP_ID "expert_verifications".
Proof.
  assert (H : forall x y,
             App.getPublicCollectionPath APP_ID x
             = App.getPublicCollectionPath APP_ID y -> x = y).
  { intros x y E. unfold App.getPublicCollectionPath in E.
    apply StringFacts.append_inj_r in E.
    apply StringFacts.append_inj_r in E.
    now apply StringFacts.append_inj_r in E. }
  split.
  - split; [apply H | now intros ->].
  - intros E. apply H in E. discriminate E.
Qed.
